(** * Wallet connect widget (src/dapp-kit/connect-button.js)

    A shallow embedding of the wallet-connection widget: the discovery
    adapter, the selection state with its asynchronous connect and
    disconnect operations, the signer factory, the bridge publisher and
    the mount handle.  JavaScript objects used as dictionaries are finite
    maps, module-level [let] variables are fields of one state record,
    and every [await] splits a function into the part that runs up to the
    suspension and the part that runs when the awaited promise settles. *)

From Stdlib Require Import ZArith Lia.
From stdpp Require Import gmap strings list fin_maps sorting.

Open Scope string_scope.
Open Scope list_scope.

(** ** Constants *)

Definition SUI_MAINNET_CHAIN : string := "sui:mainnet".
Definition PREFERRED_WALLET_KEY : string := "walrus-pages.preferred-wallet".

(** ** Data model *)

(** What a feature object of a wallet offers under its method name
    ([connect], [disconnect], [on]). *)
Inductive Method : Type :=
| Missing                  (* the feature object has no such function *)
| ThrowsSync (e : string)  (* the function throws when it is called *)
| Callable.                (* the function returns (a promise, a handle) *)

Record Account : Type := {
  address : string;
  chains : option (list string)  (* [None]: [chains] is not an array *)
}.

Record Wallet : Type := {
  w_id : option string;
  w_name : string;
  w_icon : string;
  w_features : gmap string Method;
  w_accounts : option (list Account)
}.

(** The value a [connect()] promise resolves with: possibly [undefined],
    possibly without an [accounts] field. *)
Record ConnectResult : Type := { cr_accounts : option (list Account) }.

(** How an awaited promise settles. *)
Inductive Settled (A : Type) : Type :=
| Resolved (a : A)
| Rejected (e : string).
Arguments Resolved {A} a.
Arguments Rejected {A} e.

(** The promise an [async] function hands back, as seen once the
    function has run as far as it can. *)
Inductive PromiseState : Type :=
| Pending
| Fulfilled
| RejectedWith (e : string).

Definition Container := nat.

(** ** Helpers *)

(** [wallet?.id || wallet?.name || ''] *)
Definition getWalletIdentifier (wallet : option Wallet) : string :=
  match wallet with
  | None => ""
  | Some w =>
      match w_id w with
      | Some i => if String.eqb i "" then w_name w else i
      | None => w_name w
      end
  end.

(** [address.slice(-4)] for an address of at least four characters. *)
Definition lastFour (s : string) : string :=
  String.substring (String.length s - 4) 4 s.

Definition truncateAddress (address : string) : string :=
  if Nat.ltb (String.length address) 12 then address
  else String.substring 0 6 address +:+ "..." +:+ lastFour address.

Definition includes (x : string) (l : list string) : bool :=
  existsb (String.eqb x) l.

(** The predicate handed to [accounts.find]. *)
Definition onMainnet (account : Account) : bool :=
  match chains account with
  | Some cs => includes SUI_MAINNET_CHAIN cs
  | None => false
  end.

(** [getPreferredAccount(accounts = [])]: the parameter defaults to the
    empty array when the argument is [undefined]. *)
Definition getPreferredAccount (accounts : option (list Account)) : option Account :=
  let accounts := default [] accounts in
  match List.find onMainnet accounts with
  | Some a => Some a
  | None => head accounts
  end.

(** [wallet.features[key]] read as a condition: a feature is an object,
    so it is truthy exactly when the key is there. *)
Definition hasFeature (wallet : Wallet) (key : string) : bool :=
  bool_decide (is_Some (w_features wallet !! key)).

Definition canConnect (wallet : Wallet) : bool :=
  hasFeature wallet "standard:connect" &&
  (hasFeature wallet "sui:signTransaction" ||
   hasFeature wallet "sui:signTransactionBlock" ||
   hasFeature wallet "sui:signAndExecuteTransaction" ||
   hasFeature wallet "sui:signAndExecuteTransactionBlock").

(** ** Array.prototype.sort

    For a consistent comparator the result of [sort] is the stable sorted
    permutation of the array; insertion from the right computes it.  [a]
    stays in front of [b] unless the comparator says [a] comes after. *)
Section Sort.
Context {A : Type} (cmp : A -> A -> Z).

Fixpoint sortInsert (x : A) (l : list A) : list A :=
  match l with
  | [] => [x]
  | y :: l' => if (0 <? cmp x y)%Z then y :: sortInsert x l' else x :: l
  end.

Fixpoint sortBy (l : list A) : list A :=
  match l with
  | [] => []
  | x :: l' => sortInsert x (sortBy l')
  end.
End Sort.

(** ** Signer factory *)

Inductive Completion (A : Type) : Type :=
| Returns (a : A)
| Throws (e : string).
Arguments Returns {A} a.
Arguments Throws {A} e.

Record Transaction : Type := { tx_sender : option string; tx_data : string }.
Record SignedTx : Type := { st_bytes : string; st_signature : string }.
Record TxResult : Type := { tr_digest : string }.

Record SignerArgs : Type := {
  sa_transaction : Transaction;
  sa_chain : option string       (* [None]: the caller left [chain] out *)
}.

(** What the collaborators of the signer answer: the configured RPC url,
    the two wallet-standard helpers and the two client calls. *)
Record SignerEnv : Type := {
  rpcUrl : string;
  signTransactionAnswer : Completion SignedTx;
  executeAnswer : Completion string;
  signAndExecuteAnswer : Completion TxResult;
  waitAnswer : Completion string
}.

Inductive SignerEffect : Type :=
| NewCoreClient (url : string)
| SignTransaction (w : Wallet) (tx : Transaction) (a : Account) (chain : string)
| ExecuteTransactionBlock (bytes signature : string)
    (showEffects showObjectChanges : bool) (requestType : string)
| SignAndExecuteTransaction (w : Wallet) (tx : Transaction) (a : Account) (chain : string)
| WaitForTransaction (digest : string) (showEffects showObjectChanges : bool).

(** [transaction.setSenderIfNotSet(address)] *)
Definition setSenderIfNotSet (sender : string) (tx : Transaction) : Transaction :=
  match tx_sender tx with
  | Some _ => tx
  | None => {| tx_sender := Some sender; tx_data := tx_data tx |}
  end.

Definition SignerFn : Type :=
  SignerArgs -> SignerEnv -> list SignerEffect * Completion string.

Definition getSigner (wallet : option Wallet) (account : option Account) : SignerFn :=
  fun args env =>
    match wallet, account with
    | Some w, Some a =>
        let chain := default SUI_MAINNET_CHAIN (sa_chain args) in
        let client := [NewCoreClient (rpcUrl env)] in
        let transaction := setSenderIfNotSet (address a) (sa_transaction args) in
        if hasFeature w "sui:signTransaction" || hasFeature w "sui:signTransactionBlock"
        then
          let called := client ++ [SignTransaction w transaction a chain] in
          match signTransactionAnswer env with
          | Throws e => (called, Throws e)
          | Returns signedTx =>
              (called ++ [ExecuteTransactionBlock (st_bytes signedTx)
                            (st_signature signedTx) true true "WaitForLocalExecution"],
               executeAnswer env)
          end
        else if hasFeature w "sui:signAndExecuteTransaction"
                || hasFeature w "sui:signAndExecuteTransactionBlock"
        then
          let called := client ++ [SignAndExecuteTransaction w transaction a chain] in
          match signAndExecuteAnswer env with
          | Throws e => (called, Throws e)
          | Returns txResult =>
              (called ++ [WaitForTransaction (tr_digest txResult) true true],
               waitAnswer env)
          end
        else
          (client,
           Throws ("Wallet " +:+ w_name w +:+ " does not support transaction signing."))
    | _, _ => ([], Throws "Wallet not connected")
    end.

(** ** Bridge, DOM and effects *)

Inductive Status : Type := connected | connecting | disconnected.

(** The one function published as [disconnect]: the module's
    [disconnectWallet]. *)
Inductive DisconnectFn : Type := disconnectWalletFn.

Record BridgeState : Type := {
  b_wallet : option Wallet;
  b_account : option Account;
  b_status : Status;
  b_disconnect : option DisconnectFn;
  b_signAndExecute : option SignerFn
}.

(** Calls that leave the module, in the order they are made. *)
Inductive Effect : Type :=
| UpdateWalletBridgeState (b : BridgeState)
| ConnectCall (w : Wallet)
| DisconnectCall (w : Wallet)
| EventsOn (w : Wallet)
| EventsOff (w : Wallet)
| ConsoleError (msg err : string)
| ConsoleWarn (msg : string) (err : option string).

(** Children of the [.wallet-picker-list] element. *)
Inductive ListChild : Type :=
| EmptyState (text : string)
| WalletButton (iconSrc iconAlt label : string) (active : bool) (wallet : Wallet).

(** What [mountWalletConnectButton] renders into a container. *)
Record WidgetDom : Type := {
  buttonText : string;
  buttonDisabled : bool;
  pickerHidden : bool;
  disconnectHidden : bool;
  walletListChildren : list ListChild
}.

Definition template : WidgetDom :=
  {| buttonText := "ðŸ”— Connect Wallet"; buttonDisabled := false;
     pickerHidden := true; disconnectHidden := true; walletListChildren := [] |}.

(** ** State

    The module-level variables ([widgetEls] stands for [buttonEl],
    [pickerEl], [walletListEl] and [disconnectEl], which are assigned
    together from one rendered container), followed by what the module
    shares with its surroundings: the page, the wallet registry, the
    [localStorage] entry under [PREFERRED_WALLET_KEY], the listeners it
    has attached, the suspended [await]s and the calls made so far. *)
Record State : Type := {
  widgetEls : option Container;
  mountedContainer : option Container;
  selectedWallet : option Wallet;
  selectedAccount : option Account;
  isConnecting : bool;
  walletEventsUnsubscribe : option Wallet;  (* wallet whose [change] handler is attached *)
  pageDom : gmap Container WidgetDom;
  document : gmap string Container;         (* [document.getElementById] *)
  registry : list Wallet;                   (* [walletsApi.get()] *)
  storage : option string;
  storageOk : bool;                         (* [false]: every storage call throws *)
  registerHandlers : nat;
  unregisterHandlers : nat;
  clickHandlers : list Container;           (* document click listeners, by captured container *)
  keydownHandlers : nat;
  pendingConnect : option (Wallet * bool);  (* [connectToWallet] suspended at its [await] *)
  pendingDisconnects : nat;                 (* [disconnectWallet] calls suspended at theirs *)
  trace : list Effect
}.

Definition set_widgetEls (v : option Container) (st : State) : State :=
  {| widgetEls := v; mountedContainer := mountedContainer st;
     selectedWallet := selectedWallet st; selectedAccount := selectedAccount st;
     isConnecting := isConnecting st; walletEventsUnsubscribe := walletEventsUnsubscribe st;
     pageDom := pageDom st; document := document st; registry := registry st;
     storage := storage st; storageOk := storageOk st;
     registerHandlers := registerHandlers st; unregisterHandlers := unregisterHandlers st;
     clickHandlers := clickHandlers st; keydownHandlers := keydownHandlers st;
     pendingConnect := pendingConnect st; pendingDisconnects := pendingDisconnects st;
     trace := trace st |}.

Definition set_mountedContainer (v : option Container) (st : State) : State :=
  {| widgetEls := widgetEls st; mountedContainer := v; selectedWallet := selectedWallet st;
     selectedAccount := selectedAccount st; isConnecting := isConnecting st;
     walletEventsUnsubscribe := walletEventsUnsubscribe st; pageDom := pageDom st;
     document := document st; registry := registry st; storage := storage st;
     storageOk := storageOk st; registerHandlers := registerHandlers st;
     unregisterHandlers := unregisterHandlers st; clickHandlers := clickHandlers st;
     keydownHandlers := keydownHandlers st; pendingConnect := pendingConnect st;
     pendingDisconnects := pendingDisconnects st; trace := trace st |}.

Definition set_selectedWallet (v : option Wallet) (st : State) : State :=
  {| widgetEls := widgetEls st; mountedContainer := mountedContainer st; selectedWallet := v;
     selectedAccount := selectedAccount st; isConnecting := isConnecting st;
     walletEventsUnsubscribe := walletEventsUnsubscribe st; pageDom := pageDom st;
     document := document st; registry := registry st; storage := storage st;
     storageOk := storageOk st; registerHandlers := registerHandlers st;
     unregisterHandlers := unregisterHandlers st; clickHandlers := clickHandlers st;
     keydownHandlers := keydownHandlers st; pendingConnect := pendingConnect st;
     pendingDisconnects := pendingDisconnects st; trace := trace st |}.

Definition set_selectedAccount (v : option Account) (st : State) : State :=
  {| widgetEls := widgetEls st; mountedContainer := mountedContainer st;
     selectedWallet := selectedWallet st; selectedAccount := v;
     isConnecting := isConnecting st; walletEventsUnsubscribe := walletEventsUnsubscribe st;
     pageDom := pageDom st; document := document st; registry := registry st;
     storage := storage st; storageOk := storageOk st;
     registerHandlers := registerHandlers st; unregisterHandlers := unregisterHandlers st;
     clickHandlers := clickHandlers st; keydownHandlers := keydownHandlers st;
     pendingConnect := pendingConnect st; pendingDisconnects := pendingDisconnects st;
     trace := trace st |}.

Definition set_isConnecting (v : bool) (st : State) : State :=
  {| widgetEls := widgetEls st; mountedContainer := mountedContainer st;
     selectedWallet := selectedWallet st; selectedAccount := selectedAccount st;
     isConnecting := v; walletEventsUnsubscribe := walletEventsUnsubscribe st;
     pageDom := pageDom st; document := document st; registry := registry st;
     storage := storage st; storageOk := storageOk st;
     registerHandlers := registerHandlers st; unregisterHandlers := unregisterHandlers st;
     clickHandlers := clickHandlers st; keydownHandlers := keydownHandlers st;
     pendingConnect := pendingConnect st; pendingDisconnects := pendingDisconnects st;
     trace := trace st |}.

Definition set_walletEventsUnsubscribe (v : option Wallet) (st : State) : State :=
  {| widgetEls := widgetEls st; mountedContainer := mountedContainer st;
     selectedWallet := selectedWallet st; selectedAccount := selectedAccount st;
     isConnecting := isConnecting st; walletEventsUnsubscribe := v; pageDom := pageDom st;
     document := document st; registry := registry st; storage := storage st;
     storageOk := storageOk st; registerHandlers := registerHandlers st;
     unregisterHandlers := unregisterHandlers st; clickHandlers := clickHandlers st;
     keydownHandlers := keydownHandlers st; pendingConnect := pendingConnect st;
     pendingDisconnects := pendingDisconnects st; trace := trace st |}.

Definition set_pageDom (v : gmap Container WidgetDom) (st : State) : State :=
  {| widgetEls := widgetEls st; mountedContainer := mountedContainer st;
     selectedWallet := selectedWallet st; selectedAccount := selectedAccount st;
     isConnecting := isConnecting st; walletEventsUnsubscribe := walletEventsUnsubscribe st;
     pageDom := v; document := document st; registry := registry st; storage := storage st;
     storageOk := storageOk st; registerHandlers := registerHandlers st;
     unregisterHandlers := unregisterHandlers st; clickHandlers := clickHandlers st;
     keydownHandlers := keydownHandlers st; pendingConnect := pendingConnect st;
     pendingDisconnects := pendingDisconnects st; trace := trace st |}.

Definition set_registry (v : list Wallet) (st : State) : State :=
  {| widgetEls := widgetEls st; mountedContainer := mountedContainer st;
     selectedWallet := selectedWallet st; selectedAccount := selectedAccount st;
     isConnecting := isConnecting st; walletEventsUnsubscribe := walletEventsUnsubscribe st;
     pageDom := pageDom st; document := document st; registry := v; storage := storage st;
     storageOk := storageOk st; registerHandlers := registerHandlers st;
     unregisterHandlers := unregisterHandlers st; clickHandlers := clickHandlers st;
     keydownHandlers := keydownHandlers st; pendingConnect := pendingConnect st;
     pendingDisconnects := pendingDisconnects st; trace := trace st |}.

Definition set_storage (v : option string) (st : State) : State :=
  {| widgetEls := widgetEls st; mountedContainer := mountedContainer st;
     selectedWallet := selectedWallet st; selectedAccount := selectedAccount st;
     isConnecting := isConnecting st; walletEventsUnsubscribe := walletEventsUnsubscribe st;
     pageDom := pageDom st; document := document st; registry := registry st; storage := v;
     storageOk := storageOk st; registerHandlers := registerHandlers st;
     unregisterHandlers := unregisterHandlers st; clickHandlers := clickHandlers st;
     keydownHandlers := keydownHandlers st; pendingConnect := pendingConnect st;
     pendingDisconnects := pendingDisconnects st; trace := trace st |}.

Definition set_registerHandlers (v : nat) (st : State) : State :=
  {| widgetEls := widgetEls st; mountedContainer := mountedContainer st;
     selectedWallet := selectedWallet st; selectedAccount := selectedAccount st;
     isConnecting := isConnecting st; walletEventsUnsubscribe := walletEventsUnsubscribe st;
     pageDom := pageDom st; document := document st; registry := registry st;
     storage := storage st; storageOk := storageOk st; registerHandlers := v;
     unregisterHandlers := unregisterHandlers st; clickHandlers := clickHandlers st;
     keydownHandlers := keydownHandlers st; pendingConnect := pendingConnect st;
     pendingDisconnects := pendingDisconnects st; trace := trace st |}.

Definition set_unregisterHandlers (v : nat) (st : State) : State :=
  {| widgetEls := widgetEls st; mountedContainer := mountedContainer st;
     selectedWallet := selectedWallet st; selectedAccount := selectedAccount st;
     isConnecting := isConnecting st; walletEventsUnsubscribe := walletEventsUnsubscribe st;
     pageDom := pageDom st; document := document st; registry := registry st;
     storage := storage st; storageOk := storageOk st;
     registerHandlers := registerHandlers st; unregisterHandlers := v;
     clickHandlers := clickHandlers st; keydownHandlers := keydownHandlers st;
     pendingConnect := pendingConnect st; pendingDisconnects := pendingDisconnects st;
     trace := trace st |}.

Definition set_clickHandlers (v : list Container) (st : State) : State :=
  {| widgetEls := widgetEls st; mountedContainer := mountedContainer st;
     selectedWallet := selectedWallet st; selectedAccount := selectedAccount st;
     isConnecting := isConnecting st; walletEventsUnsubscribe := walletEventsUnsubscribe st;
     pageDom := pageDom st; document := document st; registry := registry st;
     storage := storage st; storageOk := storageOk st;
     registerHandlers := registerHandlers st; unregisterHandlers := unregisterHandlers st;
     clickHandlers := v; keydownHandlers := keydownHandlers st;
     pendingConnect := pendingConnect st; pendingDisconnects := pendingDisconnects st;
     trace := trace st |}.

Definition set_keydownHandlers (v : nat) (st : State) : State :=
  {| widgetEls := widgetEls st; mountedContainer := mountedContainer st;
     selectedWallet := selectedWallet st; selectedAccount := selectedAccount st;
     isConnecting := isConnecting st; walletEventsUnsubscribe := walletEventsUnsubscribe st;
     pageDom := pageDom st; document := document st; registry := registry st;
     storage := storage st; storageOk := storageOk st;
     registerHandlers := registerHandlers st; unregisterHandlers := unregisterHandlers st;
     clickHandlers := clickHandlers st; keydownHandlers := v;
     pendingConnect := pendingConnect st; pendingDisconnects := pendingDisconnects st;
     trace := trace st |}.

Definition set_pendingConnect (v : option (Wallet * bool)) (st : State) : State :=
  {| widgetEls := widgetEls st; mountedContainer := mountedContainer st;
     selectedWallet := selectedWallet st; selectedAccount := selectedAccount st;
     isConnecting := isConnecting st; walletEventsUnsubscribe := walletEventsUnsubscribe st;
     pageDom := pageDom st; document := document st; registry := registry st;
     storage := storage st; storageOk := storageOk st;
     registerHandlers := registerHandlers st; unregisterHandlers := unregisterHandlers st;
     clickHandlers := clickHandlers st; keydownHandlers := keydownHandlers st;
     pendingConnect := v; pendingDisconnects := pendingDisconnects st; trace := trace st |}.

Definition set_pendingDisconnects (v : nat) (st : State) : State :=
  {| widgetEls := widgetEls st; mountedContainer := mountedContainer st;
     selectedWallet := selectedWallet st; selectedAccount := selectedAccount st;
     isConnecting := isConnecting st; walletEventsUnsubscribe := walletEventsUnsubscribe st;
     pageDom := pageDom st; document := document st; registry := registry st;
     storage := storage st; storageOk := storageOk st;
     registerHandlers := registerHandlers st; unregisterHandlers := unregisterHandlers st;
     clickHandlers := clickHandlers st; keydownHandlers := keydownHandlers st;
     pendingConnect := pendingConnect st; pendingDisconnects := v; trace := trace st |}.

Definition set_trace (v : list Effect) (st : State) : State :=
  {| widgetEls := widgetEls st; mountedContainer := mountedContainer st;
     selectedWallet := selectedWallet st; selectedAccount := selectedAccount st;
     isConnecting := isConnecting st; walletEventsUnsubscribe := walletEventsUnsubscribe st;
     pageDom := pageDom st; document := document st; registry := registry st;
     storage := storage st; storageOk := storageOk st;
     registerHandlers := registerHandlers st; unregisterHandlers := unregisterHandlers st;
     clickHandlers := clickHandlers st; keydownHandlers := keydownHandlers st;
     pendingConnect := pendingConnect st; pendingDisconnects := pendingDisconnects st;
     trace := v |}.

Definition initialState (doc : gmap string Container) (wallets : list Wallet)
    (stored : option string) (ok : bool) : State :=
  {| widgetEls := None; mountedContainer := None; selectedWallet := None;
     selectedAccount := None; isConnecting := false; walletEventsUnsubscribe := None;
     pageDom := ∅; document := doc; registry := wallets; storage := stored;
     storageOk := ok; registerHandlers := 0; unregisterHandlers := 0;
     clickHandlers := []; keydownHandlers := 0; pendingConnect := None;
     pendingDisconnects := 0; trace := [] |}.

Definition emit (e : Effect) (st : State) : State :=
  set_trace (trace st ++ [e]) st.

(** Apply [f] to the rendered widget the element variables point to;
    nothing happens while they are [null]. *)
Definition withEls (f : WidgetDom -> WidgetDom) (st : State) : State :=
  match widgetEls st with
  | Some c => set_pageDom (alter f c (pageDom st)) st
  | None => st
  end.

Definition setPickerHidden (h : bool) (d : WidgetDom) : WidgetDom :=
  {| buttonText := buttonText d; buttonDisabled := buttonDisabled d;
     pickerHidden := h; disconnectHidden := disconnectHidden d;
     walletListChildren := walletListChildren d |}.

Definition setWalletListChildren (l : list ListChild) (d : WidgetDom) : WidgetDom :=
  {| buttonText := buttonText d; buttonDisabled := buttonDisabled d;
     pickerHidden := pickerHidden d; disconnectHidden := disconnectHidden d;
     walletListChildren := l |}.

Definition setButton (text : string) (disabled hideDisconnect : bool) (d : WidgetDom)
    : WidgetDom :=
  {| buttonText := text; buttonDisabled := disabled;
     pickerHidden := pickerHidden d; disconnectHidden := hideDisconnect;
     walletListChildren := walletListChildren d |}.

(** ** Storage *)

Definition persistPreferredWallet (wallet : option Wallet) (st : State) : State :=
  if storageOk st then
    match wallet with
    | Some w => set_storage (Some (getWalletIdentifier (Some w))) st
    | None => set_storage None st
    end
  else st.

Definition getPreferredWalletId (st : State) : option string :=
  if storageOk st then storage st else None.

(** ** Picker and per-wallet subscription *)

Definition cleanupWalletEvents (st : State) : State :=
  match walletEventsUnsubscribe st with
  | Some w => set_walletEventsUnsubscribe None (emit (EventsOff w) st)
  | None => st
  end.

Definition closeWalletPicker (st : State) : State := withEls (setPickerHidden true) st.
Definition openWalletPicker (st : State) : State := withEls (setPickerHidden false) st.
Definition toggleWalletPicker (st : State) : State :=
  withEls (fun d => setPickerHidden (negb (pickerHidden d)) d) st.

(** ** Bridge publisher *)

Definition syncBridgeState (st : State) : State :=
  match selectedWallet st, selectedAccount st with
  | Some w, Some a =>
      emit (UpdateWalletBridgeState
              {| b_wallet := Some w; b_account := Some a; b_status := connected;
                 b_disconnect := Some disconnectWalletFn;
                 b_signAndExecute := Some (getSigner (Some w) (Some a)) |}) st
  | _, _ =>
      emit (UpdateWalletBridgeState
              {| b_wallet := None; b_account := None;
                 b_status := if isConnecting st then connecting else disconnected;
                 b_disconnect := None; b_signAndExecute := None |}) st
  end.

Definition refreshButtonUi (st : State) : State :=
  let hideDisconnect := bool_decide (selectedAccount st = None) in
  if isConnecting st then withEls (setButton "Connecting..." true hideDisconnect) st
  else match selectedAccount st with
       | Some a =>
           withEls (setButton ("ðŸ”— " +:+ truncateAddress (address a)) false hideDisconnect) st
       | None => withEls (setButton "ðŸ”— Connect Wallet" false hideDisconnect) st
       end.

(** [connectResult?.accounts || wallet.accounts]: an array, empty or
    not, is truthy. *)
Definition returnedAccounts (wallet : Wallet) (connectResult : option ConnectResult)
    : option (list Account) :=
  match connectResult ≫= cr_accounts with
  | Some l => Some l
  | None => w_accounts wallet
  end.

Section Widget.

(** [String.prototype.localeCompare]: negative, zero or positive. *)
Variable localeCompare : string -> string -> Z.

Definition byName (a b : Wallet) : Z := localeCompare (w_name a) (w_name b).

(** ** Discovery adapter *)

Definition getConnectableWallets (st : State) : list Wallet :=
  sortBy byName (List.filter canConnect (registry st)).

Definition sameWallet (a b : Wallet) : bool :=
  String.eqb (getWalletIdentifier (Some a)) (getWalletIdentifier (Some b)).

Definition walletOption (st : State) (wallet : Wallet) : ListChild :=
  WalletButton (w_icon wallet) (w_name wallet +:+ " icon") (w_name wallet)
    (match selectedWallet st with
     | Some sel => sameWallet sel wallet
     | None => false
     end)
    wallet.

Definition renderWalletList (st : State) : State :=
  let wallets := getConnectableWallets st in
  match wallets with
  | [] =>
      withEls (setWalletListChildren
                 [EmptyState
                    "No Sui wallet detected. Install a wallet extension to continue."]) st
  | _ => withEls (setWalletListChildren (map (walletOption st) wallets)) st
  end.

(** [subscribeToWalletEvents]: the state, and what [eventsFeature.on]
    threw if it did. *)
Definition subscribeToWalletEvents (wallet : Wallet) (st : State)
    : State * option string :=
  let st := cleanupWalletEvents st in
  match w_features wallet !! "standard:events" with
  | Some Callable => (set_walletEventsUnsubscribe (Some wallet) (emit (EventsOn wallet) st), None)
  | Some (ThrowsSync e) => (emit (EventsOn wallet) st, Some e)
  | Some Missing | None => (st, None)
  end.

(** The handler [subscribeToWalletEvents wallet] attaches for [change]. *)
Definition onWalletChange (wallet : Wallet) (accounts : option (list Account))
    (st : State) : State :=
  match selectedWallet st with
  | None => st
  | Some sel =>
      if negb (sameWallet wallet sel) then st
      else
        let reported := default (default [] (w_accounts wallet)) accounts in
        match getPreferredAccount (Some reported) with
        | Some nextAccount =>
            let st := set_selectedAccount (Some nextAccount) st in
            syncBridgeState (renderWalletList (refreshButtonUi st))
        | None =>
            let st := set_selectedWallet None st in
            let st := set_selectedAccount None st in
            let st := persistPreferredWallet None st in
            syncBridgeState (renderWalletList (refreshButtonUi st))
        end
  end.

(** ** connectToWallet *)

(** The [try] block after the [await]: the state, and what was thrown. *)
Definition connectTry (wallet : Wallet) (persistSelection : bool)
    (connectResult : option ConnectResult) (st : State) : State * option string :=
  match getPreferredAccount (returnedAccounts wallet connectResult) with
  | None =>
      (st, Some ("Wallet " +:+ w_name wallet +:+ " did not return an authorized account."))
  | Some account =>
      let st := set_selectedWallet (Some wallet) st in
      let st := set_selectedAccount (Some account) st in
      let st := if persistSelection then persistPreferredWallet (Some wallet) st else st in
      match subscribeToWalletEvents wallet st with
      | (st, Some e) => (st, Some e)
      | (st, None) => (closeWalletPicker st, None)
      end
  end.

(** The [catch] and [finally] blocks. *)
Definition connectFinish (thrown : option string) (st : State) : State * PromiseState :=
  let st :=
    match thrown with
    | Some e => emit (ConsoleError "Wallet connection failed:" e) st
    | None => st
    end in
  let st := set_isConnecting false st in
  (syncBridgeState (renderWalletList (refreshButtonUi st)), Fulfilled).

(** [connectToWallet] up to its [await]. *)
Definition connectToWallet (wallet : option Wallet) (persistSelection : bool)
    (st : State) : State * PromiseState :=
  match wallet with
  | None => (st, Fulfilled)
  | Some w =>
      if isConnecting st then (st, Fulfilled)
      else
        let st := set_isConnecting true st in
        let st := syncBridgeState (refreshButtonUi st) in
        match w_features w !! "standard:connect" with
        | Some Callable =>
            (set_pendingConnect (Some (w, persistSelection)) (emit (ConnectCall w) st),
             Pending)
        | Some (ThrowsSync e) => connectFinish (Some e) (emit (ConnectCall w) st)
        | Some Missing =>
            connectFinish (Some "TypeError: connectFeature.connect is not a function") st
        | None =>
            connectFinish (Some "TypeError: connectFeature is undefined") st
        end
  end.

(** [connectToWallet] from the moment the awaited promise settles. *)
Definition connectToWallet_resume (wallet : Wallet) (persistSelection : bool)
    (answer : Settled (option ConnectResult)) (st : State) : State * PromiseState :=
  match answer with
  | Rejected e => connectFinish (Some e) st
  | Resolved connectResult =>
      let (st, thrown) := connectTry wallet persistSelection connectResult st in
      connectFinish thrown st
  end.

(** ** disconnectWallet *)

Definition disconnectFinish (thrown : option string) (st : State) : State * PromiseState :=
  let st :=
    match thrown with
    | Some e => emit (ConsoleWarn "Wallet disconnect failed:" (Some e)) st
    | None => st
    end in
  let st := cleanupWalletEvents st in
  let st := set_selectedWallet None st in
  let st := set_selectedAccount None st in
  let st := persistPreferredWallet None st in
  let st := closeWalletPicker st in
  (syncBridgeState (renderWalletList (refreshButtonUi st)), Fulfilled).

Definition disconnectWallet (st : State) : State * PromiseState :=
  match selectedWallet st with
  | None => (st, Fulfilled)
  | Some w =>
      match w_features w !! "standard:disconnect" with
      | Some Callable =>
          (set_pendingDisconnects (S (pendingDisconnects st)) (emit (DisconnectCall w) st),
           Pending)
      | Some (ThrowsSync e) => disconnectFinish (Some e) (emit (DisconnectCall w) st)
      | Some Missing | None => disconnectFinish None st
      end
  end.

Definition disconnectWallet_resume (answer : Settled unit) (st : State)
    : State * PromiseState :=
  match answer with
  | Rejected e => disconnectFinish (Some e) st
  | Resolved _ => disconnectFinish None st
  end.

(** ** Auto-reconnect *)

Definition attemptAutoReconnect (st : State) : State :=
  match getPreferredWalletId st with
  | None => st
  | Some preferredWalletId =>
      if String.eqb preferredWalletId ""
         || bool_decide (is_Some (selectedWallet st))
         || isConnecting st
      then st
      else
        match List.find
                (fun candidate =>
                   String.eqb (getWalletIdentifier (Some candidate)) preferredWalletId)
                (getConnectableWallets st) with
        | None => st
        | Some wallet => fst (connectToWallet (Some wallet) false st)
        end
  end.

(** ** Registry and document handlers *)

Definition onRegister (st : State) : State :=
  attemptAutoReconnect (renderWalletList st).

Definition onUnregister (st : State) : State :=
  let st :=
    match selectedWallet st with
    | Some sel =>
        if negb (existsb (fun wallet => sameWallet wallet sel) (getConnectableWallets st))
        then
          let st := cleanupWalletEvents st in
          let st := set_selectedWallet None st in
          let st := set_selectedAccount None st in
          let st := persistPreferredWallet None st in
          syncBridgeState st
        else st
    | None => st
    end in
  refreshButtonUi (renderWalletList st).

(** [pickerEl && !pickerEl.hidden] *)
Definition pickerOpen (st : State) : bool :=
  match widgetEls st ≫= (fun c => pageDom st !! c) with
  | Some d => negb (pickerHidden d)
  | None => false
  end.

(** The document click listener [attachGlobalHandlers container] adds;
    [inside] is [container.contains(event.target)]. *)
Definition onDocumentClick (inside : bool) (st : State) : State :=
  if negb (pickerOpen st) then st
  else if negb inside then closeWalletPicker st
  else st.

Definition onDocumentKeydown (key : string) (st : State) : State :=
  if String.eqb key "Escape" then closeWalletPicker st else st.

Definition attachGlobalHandlers (container : Container) (st : State) : State :=
  let st := set_clickHandlers (clickHandlers st ++ [container]) st in
  set_keydownHandlers (S (keydownHandlers st)) st.

(** The click listener of the trigger button. *)
Definition onTriggerClick (st : State) : State :=
  match selectedAccount st with
  | Some _ => toggleWalletPicker st
  | None => openWalletPicker st
  end.

(** ** Mount *)

Inductive Target : Type :=
| TargetId (elementId : string)
| TargetElement (c : Container)
| TargetNull.

(** The object [mountWalletConnectButton] returns: the one whose
    [unmount] does nothing, or the one closed over [container]. *)
Inductive Handle : Type :=
| NoopHandle
| WidgetHandle (container : Container).

Definition mountWalletConnectButton (target : Target) (st : State)
    : State * option Handle :=
  let container :=
    match target with
    | TargetId i => document st !! i
    | TargetElement c => Some c
    | TargetNull => None
    end in
  match container with
  | None => (emit (ConsoleWarn "Wallet connect container not found" None) st, None)
  | Some c =>
      if bool_decide (mountedContainer st = Some c) then (st, Some NoopHandle)
      else
        let st := set_mountedContainer (Some c) st in
        let st := set_pageDom (<[c := template]> (pageDom st)) st in
        let st := set_widgetEls (Some c) st in
        let st := set_registerHandlers (S (registerHandlers st)) st in
        let st := set_unregisterHandlers (S (unregisterHandlers st)) st in
        let st := attachGlobalHandlers c st in
        let st := syncBridgeState (refreshButtonUi (renderWalletList st)) in
        (attemptAutoReconnect st, Some (WidgetHandle c))
  end.

Definition unmount (h : Handle) (st : State) : State :=
  match h with
  | NoopHandle => st
  | WidgetHandle container =>
      let st := cleanupWalletEvents st in
      if bool_decide (mountedContainer st = Some container)
      then set_mountedContainer None st
      else st
  end.

(** ** The widget as a transition system

    One event is one turn of the event loop: a call into the module, the
    settling of a promise the module awaits, or a notification to the
    listeners the module has attached.  [connectToWallet] is private to
    the module: it is reached from the click listener of a picker entry
    (persisting the selection) and from [attemptAutoReconnect] (not
    persisting it). *)
Inductive Event : Type :=
| CallMount (target : Target)
| CallUnmount (h : Handle)
| WalletOptionClick (wallet : Wallet)
| CallDisconnect
| ConnectSettles (answer : Settled (option ConnectResult))
| DisconnectSettles (answer : Settled unit)
| WalletChange (accounts : option (list Account))
| RegistryRegister (snapshot : list Wallet)
| RegistryUnregister (snapshot : list Wallet)
| DocumentClick (inside : Container -> bool)
| DocumentKeydown (key : string)
| TriggerClick.

Definition step (ev : Event) (st : State) : State :=
  match ev with
  | CallMount target => fst (mountWalletConnectButton target st)
  | CallUnmount h => unmount h st
  | WalletOptionClick wallet => fst (connectToWallet (Some wallet) true st)
  | CallDisconnect => fst (disconnectWallet st)
  | ConnectSettles answer =>
      match pendingConnect st with
      | Some (wallet, persistSelection) =>
          fst (connectToWallet_resume wallet persistSelection answer
                 (set_pendingConnect None st))
      | None => st
      end
  | DisconnectSettles answer =>
      match pendingDisconnects st with
      | S n => fst (disconnectWallet_resume answer (set_pendingDisconnects n st))
      | O => st
      end
  | WalletChange accounts =>
      match walletEventsUnsubscribe st with
      | Some wallet => onWalletChange wallet accounts st
      | None => st
      end
  | RegistryRegister snapshot =>
      Nat.iter (registerHandlers st) onRegister (set_registry snapshot st)
  | RegistryUnregister snapshot =>
      Nat.iter (unregisterHandlers st) onUnregister (set_registry snapshot st)
  | DocumentClick inside =>
      foldl (fun st container => onDocumentClick (inside container) st)
        st (clickHandlers st)
  | DocumentKeydown key => Nat.iter (keydownHandlers st) (onDocumentKeydown key) st
  | TriggerClick => onTriggerClick st
  end.

Definition run (evs : list Event) (st : State) : State :=
  foldl (fun st ev => step ev st) st evs.

End Widget.

(** The event that ends a connect attempt. *)
Definition settlesConnect (ev : Event) : bool :=
  match ev with ConnectSettles _ => true | _ => false end.

(** ** Observations on the trace *)

Definition isConnectCall (e : Effect) : bool :=
  match e with ConnectCall _ => true | _ => false end.

Definition isPublish (e : Effect) : bool :=
  match e with UpdateWalletBridgeState _ => true | _ => false end.

Definition connectCalls (st : State) : nat := length (List.filter isConnectCall (trace st)).
Definition publishes (st : State) : nat := length (List.filter isPublish (trace st)).

(** A connect attempt fails when the capability rejects or when no
    account can be chosen from what it returned. *)
Definition connectFails (wallet : Wallet) (answer : Settled (option ConnectResult)) : Prop :=
  match answer with
  | Rejected _ => True
  | Resolved connectResult =>
      getPreferredAccount (returnedAccounts wallet connectResult) = None
  end.

(** The invariant of the selection state. *)
Definition accountNeedsWallet (st : State) : Prop :=
  is_Some (selectedAccount st) -> is_Some (selectedWallet st).

(** What the stored preference depends on: whether storage works, the
    stored string, the selected wallet, the suspended connect and the
    number of suspended disconnects. *)

Definition Tracked : Type :=
  (bool * option string * option Wallet * option (Wallet * bool) * nat)%type.

Definition tracked (st : State) : Tracked :=
  (storageOk st, storage st, selectedWallet st, pendingConnect st, pendingDisconnects st).

(** With working storage: the preference names the selected wallet; an
    auto-reconnect in flight was started for the wallet the preference
    names, with no wallet selected; and a disconnect can be in flight with
    no wallet selected only after the preference was cleared. *)
Definition tracksSelection (t : Tracked) : Prop :=
  let '(ok, stored, selected, pending, disconnects) := t in
  ok = true /\
  (forall w, selected = Some w -> stored = Some (getWalletIdentifier (Some w))) /\
  (forall w, pending = Some (w, false) ->
             selected = None /\ stored = Some (getWalletIdentifier (Some w))) /\
  (selected = None -> disconnects <> 0 -> stored = None).

Definition preferenceTracksSelection (st : State) : Prop := tracksSelection (tracked st).

(** The listeners the widget has attached to the registry and to the
    document. *)
Definition listeners (st : State) : nat * nat * list Container * nat :=
  (registerHandlers st, unregisterHandlers st, clickHandlers st, keydownHandlers st).

(** What a connect attempt in flight can see change under it. *)
Definition inFlight (st : State)
    : option Wallet * option Account * bool * option (Wallet * bool) :=
  (selectedWallet st, selectedAccount st, isConnecting st, pendingConnect st).




(** ** A comparator and sample data for concrete runs *)

(** Comparison by code units, standing in for [localeCompare]. *)
Definition codeUnitCompare (a b : string) : Z :=
  match String.compare a b with
  | Lt => (-1)%Z
  | Eq => 0%Z
  | Gt => 1%Z
  end.

Definition mainnetAccount : Account :=
  {| address := "0xabc4f2d1e08b7c6a9d3e5f10"; chains := Some ["sui:testnet"; "sui:mainnet"] |}.

Definition testnetAccount : Account :=
  {| address := "0x77e0"; chains := Some ["sui:testnet"] |}.

Definition looseAccount : Account :=
  {| address := "0x5150"; chains := None |}.

Definition slush : Wallet :=
  {| w_id := None; w_name := "Slush"; w_icon := "data:image/svg+xml,slush";
     w_features :=
       <["standard:connect" := Callable]>
         (<["standard:disconnect" := Callable]>
            (<["standard:events" := Callable]>
               (<["sui:signTransaction" := Callable]> ∅)));
     w_accounts := Some [] |}.

Definition suiet : Wallet :=
  {| w_id := Some "suiet-wallet"; w_name := "Suiet"; w_icon := "data:image/png,suiet";
     w_features :=
       <["standard:connect" := Callable]>
         (<["standard:events" := Callable]>
            (<["sui:signAndExecuteTransactionBlock" := Callable]> ∅));
     w_accounts := None |}.

Definition ledgerOnly : Wallet :=
  {| w_id := Some ""; w_name := "Ledger"; w_icon := "";
     w_features := <["standard:connect" := Missing]> ∅;
     w_accounts := None |}.

Definition samplePage : gmap string Container := <["wallet-connect" := 7]> ∅.

Definition freshPage : State := initialState samplePage [suiet; ledgerOnly; slush] None true.

Definition sampleTransaction : SignerArgs :=
  {| sa_transaction := {| tx_sender := None; tx_data := "transfer" |}; sa_chain := None |}.

Definition sampleEnv : SignerEnv :=
  {| rpcUrl := "https://fullnode.mainnet.sui.io";
     signTransactionAnswer := Returns {| st_bytes := "AAAC"; st_signature := "sig" |};
     executeAnswer := Returns "effects";
     signAndExecuteAnswer := Returns {| tr_digest := "9xQ" |};
     waitAnswer := Returns "finalized" |}.

(** The page after the widget is mounted, after the user picks Slush,
    and after Slush answers with two accounts. *)
Definition mountedPage : State :=
  run codeUnitCompare [CallMount (TargetId "wallet-connect")] freshPage.

Definition connectingPage : State :=
  run codeUnitCompare [WalletOptionClick slush] mountedPage.

Definition slushAnswer : Settled (option ConnectResult) :=
  Resolved (Some {| cr_accounts := Some [testnetAccount; mainnetAccount; looseAccount] |}).

Definition connectedPage : State :=
  run codeUnitCompare [ConnectSettles slushAnswer] connectingPage.

(** A later visit: the preference names Slush, which has not registered
    yet. *)
Definition returningPage : State :=
  run codeUnitCompare [CallMount (TargetId "wallet-connect")]
    (initialState samplePage [suiet; ledgerOnly] (Some "Slush") true).

Definition unmountedPage : State :=
  run codeUnitCompare
    [CallMount (TargetId "wallet-connect"); CallUnmount (WidgetHandle 7)]
    (initialState samplePage [] (Some "Slush") true).

(** ** The rendered widget as a function of the state *)

(** The widget the element variables point to, if it is rendered. *)
Definition widget (st : State) : option WidgetDom :=
  widgetEls st ≫= (fun c => pageDom st !! c).

(** Text and disabled flag of the trigger button, and hidden flag of the
    disconnect control, as shown and as [refreshButtonUi] sets them. *)
Definition buttonShown (d : WidgetDom) : string * bool * bool :=
  (buttonText d, buttonDisabled d, disconnectHidden d).

Definition buttonFor (busy : bool) (account : option Account) : string * bool * bool :=
  (if busy then "Connecting..."
   else match account with
        | Some a => "ðŸ”— " +:+ truncateAddress (address a)
        | None => "ðŸ”— Connect Wallet"
        end,
   busy, bool_decide (account = None)).

Definition showButton (b : string * bool * bool) (d : WidgetDom) : WidgetDom :=
  setButton (fst (fst b)) (snd (fst b)) (snd b) d.

(** The children [renderWalletList] gives the picker list. *)
Definition listFor (localeCompare : string -> string -> Z) (wallets : list Wallet)
    (selected : option Wallet) : list ListChild :=
  match sortBy (byName localeCompare) (List.filter canConnect wallets) with
  | [] => [EmptyState "No Sui wallet detected. Install a wallet extension to continue."]
  | connectable =>
      map (fun wallet =>
             WalletButton (w_icon wallet) (w_name wallet +:+ " icon") (w_name wallet)
               (match selected with
                | Some sel => sameWallet sel wallet
                | None => false
                end) wallet)
        connectable
  end.

(** What the rendered widget depends on and what it shows: the inputs and
    the output of [refreshButtonUi], the inputs and the output of
    [renderWalletList], and the element variable with the registry
    handlers that keep the list up to date. *)
Definition UiView : Type :=
  ((bool * option Account * option (string * bool * bool))
   * (list Wallet * option Wallet * option (list ListChild))
   * (option Container * nat * nat))%type.

Definition uiView (st : State) : UiView :=
  ((isConnecting st, selectedAccount st, buttonShown <$> widget st),
   (registry st, selectedWallet st, walletListChildren <$> widget st),
   (widgetEls st, registerHandlers st, unregisterHandlers st)).

(** What [refreshButtonUi] and [renderWalletList] do to the view. *)
Definition refreshed (v : UiView) : UiView :=
  let '((busy, account, shown), l, m) := v in
  ((busy, account, (fun _ => buttonFor busy account) <$> shown), l, m).

Definition rerendered (localeCompare : string -> string -> Z) (v : UiView) : UiView :=
  let '(b, (wallets, selected, children), m) := v in
  (b, (wallets, selected, (fun _ => listFor localeCompare wallets selected) <$> children), m).

Definition syncedView (localeCompare : string -> string -> Z) (v : UiView) : Prop :=
  let '((busy, account, shown), (wallets, selected, children), (els, rh, uh)) := v in
  (forall b, shown = Some b -> b = buttonFor busy account) /\
  (forall l, children = Some l -> l = listFor localeCompare wallets selected) /\
  (is_Some els -> 0 < rh /\ 0 < uh).

Definition uiSynced (localeCompare : string -> string -> Z) (st : State) : Prop :=
  syncedView localeCompare (uiView st).

(** ** The bridge as a function of the state *)

Definition publishedBy (e : Effect) : option BridgeState :=
  match e with
  | UpdateWalletBridgeState b => Some b
  | _ => None
  end.

(** The state the bridge holds: what was published last. *)
Definition lastPublish (st : State) : option BridgeState :=
  last (omap publishedBy (trace st)).

(** What [syncBridgeState] publishes. *)
Definition bridgeFor (wallet : option Wallet) (account : option Account) (busy : bool)
    : BridgeState :=
  match wallet, account with
  | Some w, Some a =>
      {| b_wallet := Some w; b_account := Some a; b_status := connected;
         b_disconnect := Some disconnectWalletFn;
         b_signAndExecute := Some (getSigner (Some w) (Some a)) |}
  | _, _ =>
      {| b_wallet := None; b_account := None;
         b_status := if busy then connecting else disconnected;
         b_disconnect := None; b_signAndExecute := None |}
  end.

Definition BridgeView : Type :=
  (option Wallet * option Account * bool * option BridgeState)%type.

Definition bridgeView (st : State) : BridgeView :=
  (selectedWallet st, selectedAccount st, isConnecting st, lastPublish st).

Definition republished (v : BridgeView) : BridgeView :=
  let '(wallet, account, busy, _) := v in
  (wallet, account, busy, Some (bridgeFor wallet account busy)).

Definition bridgeCurrent (st : State) : Prop :=
  forall b, lastPublish st = Some b ->
            b = bridgeFor (selectedWallet st) (selectedAccount st) (isConnecting st).

(** ** Change subscriptions taken and released *)

(** A call of [eventsFeature.on] that returned an unsubscribe function. *)
Definition isSubscribe (e : Effect) : bool :=
  match e with
  | EventsOn w =>
      match w_features w !! "standard:events" with
      | Some Callable => true
      | _ => false
      end
  | _ => false
  end.

Definition isUnsubscribe (e : Effect) : bool :=
  match e with EventsOff _ => true | _ => false end.

Definition SubsView : Type := (option Wallet * nat * nat)%type.

Definition subsView (st : State) : SubsView :=
  (walletEventsUnsubscribe st,
   length (List.filter isSubscribe (trace st)),
   length (List.filter isUnsubscribe (trace st))).

Definition balancedView (v : SubsView) : Prop :=
  let '(held, taken, released) := v in
  taken = released + match held with Some _ => 1 | None => 0 end.

Definition subscriptionsBalanced (st : State) : Prop := balancedView (subsView st).

(** A wallet whose events feature throws when asked to subscribe. *)
Definition brittle : Wallet :=
  {| w_id := Some "brittle"; w_name := "Brittle"; w_icon := "data:image/png,brittle";
     w_features :=
       <["standard:connect" := Callable]>
         (<["standard:events" := ThrowsSync "events unavailable"]>
            (<["sui:signTransaction" := Callable]> ∅));
     w_accounts := Some [mainnetAccount] |}.



(** The page's elements by id, and the container the widget is mounted
    in. *)
Definition mountView (st : State) : gmap string Container * option Container :=
  (document st, mountedContainer st).

(** [typeof target === 'string' ? document.getElementById(target) : target] *)
Definition containerOf (target : Target) (st : State) : option Container :=
  match target with
  | TargetId i => document st !! i
  | TargetElement c => Some c
  | TargetNull => None
  end.

(** ** The connecting flag and the awaited connect call *)

(** The flag, and the [connectToWallet] call suspended at its [await]. *)
Definition attempt (st : State) : bool * option (Wallet * bool) :=
  (isConnecting st, pendingConnect st).

(** The flag is set exactly while a connect call is awaited. *)
Definition flagTracksAttempt (st : State) : Prop :=
  isConnecting st = true <-> is_Some (pendingConnect st).

(** * Properties *)

(** ** Sorting *)

Section SortFacts.
Context {A : Type} (cmp : A -> A -> Z).
Hypothesis cmp_total : forall a b, (0 < cmp a b)%Z -> (cmp b a <= 0)%Z.
Hypothesis cmp_trans : forall a b c, (cmp a b <= 0)%Z -> (cmp b c <= 0)%Z -> (cmp a c <= 0)%Z.

Lemma sortInsert_perm (x : A) (l : list A) : sortInsert cmp x l ≡ₚ x :: l.
Proof using Type.
  induction l as [|y l IH]; simpl; [reflexivity|].
  destruct (0 <? cmp x y)%Z; [|reflexivity].
  rewrite IH. apply perm_swap.
Qed.

Lemma sortBy_perm (l : list A) : sortBy cmp l ≡ₚ l.
Proof using Type.
  induction l as [|x l IH]; simpl; [reflexivity|].
  rewrite sortInsert_perm. by rewrite IH.
Qed.

Lemma sortInsert_sorted (x : A) (l : list A) :
  StronglySorted (fun a b => (cmp a b <= 0)%Z) l ->
  StronglySorted (fun a b => (cmp a b <= 0)%Z) (sortInsert cmp x l).
Proof using cmp_total cmp_trans.
  induction 1 as [|y l Hl IH Hy]; simpl.
  - repeat constructor.
  - destruct (0 <? cmp x y)%Z eqn:Hxy.
    + apply Z.ltb_lt in Hxy. constructor; [exact IH|].
      rewrite sortInsert_perm. constructor; [by apply cmp_total | exact Hy].
    + apply Z.ltb_ge in Hxy. constructor; [by constructor|].
      constructor; [exact Hxy|].
      eapply Forall_impl; [exact Hy|]. intros z Hz. by eapply cmp_trans.
Qed.

Lemma sortBy_sorted (l : list A) :
  StronglySorted (fun a b => (cmp a b <= 0)%Z) (sortBy cmp l).
Proof using cmp_total cmp_trans.
  induction l as [|x l IH]; simpl; [constructor | by apply sortInsert_sorted].
Qed.
End SortFacts.

(** ** The code-unit comparator is consistent *)

Lemma string_compare_le_trans (a b c : string) :
  String.compare a b <> Gt -> String.compare b c <> Gt -> String.compare a c <> Gt.
Proof.
  revert b c. induction a as [|x a IH]; intros [|y b] [|z c]; simpl; try congruence.
  unfold Ascii.compare.
  destruct (N.compare_spec (Ascii.N_of_ascii x) (Ascii.N_of_ascii y)) as [Hxy|Hxy|Hxy];
    destruct (N.compare_spec (Ascii.N_of_ascii y) (Ascii.N_of_ascii z)) as [Hyz|Hyz|Hyz];
    try congruence; intros Hab Hbc.
  - rewrite Hxy, Hyz, N.compare_refl. by apply (IH b c).
  - rewrite Hxy. apply N.compare_lt_iff in Hyz. by rewrite Hyz.
  - rewrite <- Hyz. apply N.compare_lt_iff in Hxy. by rewrite Hxy.
  - assert (Hxz : (Ascii.N_of_ascii x < Ascii.N_of_ascii z)%N) by lia.
    apply N.compare_lt_iff in Hxz. by rewrite Hxz.
Qed.

Lemma codeUnitCompare_le (a b : string) :
  (codeUnitCompare a b <= 0)%Z <-> String.compare a b <> Gt.
Proof.
  unfold codeUnitCompare. destruct (String.compare a b); split; (lia || congruence).
Qed.

Lemma codeUnitCompare_total (a b : string) :
  (0 < codeUnitCompare a b)%Z -> (codeUnitCompare b a <= 0)%Z.
Proof.
  unfold codeUnitCompare. rewrite (String.compare_antisym a b).
  destruct (String.compare b a); simpl; lia.
Qed.

Lemma codeUnitCompare_trans (a b c : string) :
  (codeUnitCompare a b <= 0)%Z -> (codeUnitCompare b c <= 0)%Z ->
  (codeUnitCompare a c <= 0)%Z.
Proof.
  rewrite !codeUnitCompare_le. apply string_compare_le_trans.
Qed.

(** ** What each helper touches

    The rendering helpers change the page only, the publisher and the
    loggers extend the trace only, the storage helper writes the stored
    preference only. *)

Lemma set_pageDom_same (st : State) : set_pageDom (pageDom st) st = st.
Proof. by destruct st. Qed.

Lemma withEls_is (f : WidgetDom -> WidgetDom) (st : State) :
  exists d, withEls f st = set_pageDom d st.
Proof.
  unfold withEls. destruct (widgetEls st); eauto.
  exists (pageDom st). by rewrite set_pageDom_same.
Qed.

Lemma closeWalletPicker_is (st : State) : exists d, closeWalletPicker st = set_pageDom d st.
Proof. apply withEls_is. Qed.

Lemma openWalletPicker_is (st : State) : exists d, openWalletPicker st = set_pageDom d st.
Proof. apply withEls_is. Qed.

Lemma toggleWalletPicker_is (st : State) : exists d, toggleWalletPicker st = set_pageDom d st.
Proof. apply withEls_is. Qed.

Lemma refreshButtonUi_is (st : State) : exists d, refreshButtonUi st = set_pageDom d st.
Proof.
  unfold refreshButtonUi. destruct (isConnecting st); [apply withEls_is|].
  destruct (selectedAccount st); apply withEls_is.
Qed.

Lemma renderWalletList_is (cmp : string -> string -> Z) (st : State) :
  exists d, renderWalletList cmp st = set_pageDom d st.
Proof.
  unfold renderWalletList. destruct (getConnectableWallets cmp st); apply withEls_is.
Qed.

Lemma syncBridgeState_is (st : State) :
  exists b, syncBridgeState st = emit (UpdateWalletBridgeState b) st.
Proof.
  unfold syncBridgeState. destruct (selectedWallet st), (selectedAccount st); eauto.
Qed.

Lemma persistPreferredWallet_is (wallet : option Wallet) (st : State) :
  exists v, persistPreferredWallet wallet st = set_storage v st.
Proof.
  unfold persistPreferredWallet. destruct (storageOk st), wallet; eauto;
    exists (storage st); by destruct st.
Qed.

Lemma persistPreferredWallet_ok (wallet : option Wallet) (st : State) :
  storageOk st = true ->
  persistPreferredWallet wallet st =
  set_storage (match wallet with
               | Some w => Some (getWalletIdentifier (Some w))
               | None => None
               end) st.
Proof. unfold persistPreferredWallet. intros ->. by destruct wallet. Qed.

Lemma cleanupWalletEvents_is (st : State) :
  exists es, cleanupWalletEvents st =
             set_walletEventsUnsubscribe None (set_trace (trace st ++ es) st)
             /\ Forall (fun e => isConnectCall e = false /\ isPublish e = false) es.
Proof.
  unfold cleanupWalletEvents, emit. destruct (walletEventsUnsubscribe st) as [w|] eqn:Hw.
  - exists [EventsOff w]. split; [done|]. by repeat constructor.
  - exists []. split; [|constructor]. rewrite app_nil_r. destruct st; simpl in *. by subst.
Qed.

(** Replace every helper call in sight by the field update it amounts to. *)
Ltac ui_rewrite :=
  repeat match goal with
    | |- context [refreshButtonUi ?s] =>
        let d := fresh "d" in destruct (refreshButtonUi_is s) as [d ->]
    | |- context [renderWalletList ?c ?s] =>
        let d := fresh "d" in destruct (renderWalletList_is c s) as [d ->]
    | |- context [closeWalletPicker ?s] =>
        let d := fresh "d" in destruct (closeWalletPicker_is s) as [d ->]
    | |- context [openWalletPicker ?s] =>
        let d := fresh "d" in destruct (openWalletPicker_is s) as [d ->]
    | |- context [toggleWalletPicker ?s] =>
        let d := fresh "d" in destruct (toggleWalletPicker_is s) as [d ->]
    | |- context [syncBridgeState ?s] =>
        let b := fresh "b" in destruct (syncBridgeState_is s) as [b ->]
    | |- context [cleanupWalletEvents ?s] =>
        let es := fresh "es" in let Hes := fresh "Hes" in
        destruct (cleanupWalletEvents_is s) as [es [-> Hes]]
    end.

(** The same where storage works, keeping track of what is written. *)
Ltac ui_stored Hok :=
  ui_rewrite; rewrite ?persistPreferredWallet_ok by exact Hok; unfold emit; simpl.

(** The same, forgetting what is written to storage. *)
Ltac ui_open :=
  ui_rewrite;
  repeat match goal with
    | |- context [persistPreferredWallet ?w ?s] =>
        let v := fresh "v" in destruct (persistPreferredWallet_is w s) as [v ->]
    end;
  unfold emit; simpl.

(** ** Selection invariant *)

Section Selection.
Variable localeCompare : string -> string -> Z.

Lemma connectFinish_selection (thrown : option string) (st : State) :
  let st' := fst (connectFinish localeCompare thrown st) in
  selectedWallet st' = selectedWallet st /\ selectedAccount st' = selectedAccount st /\
  storage st' = storage st /\ walletEventsUnsubscribe st' = walletEventsUnsubscribe st /\
  isConnecting st' = false.
Proof.
  unfold connectFinish. destruct thrown; ui_open; done.
Qed.

Lemma connectToWallet_selection (wallet : option Wallet) (persistSelection : bool)
    (st : State) :
  let st' := fst (connectToWallet localeCompare wallet persistSelection st) in
  selectedWallet st' = selectedWallet st /\ selectedAccount st' = selectedAccount st /\
  storage st' = storage st /\ walletEventsUnsubscribe st' = walletEventsUnsubscribe st.
Proof.
  unfold connectToWallet. destruct wallet as [w|]; [|done].
  destruct (isConnecting st); [done|].
  destruct (w_features w !! "standard:connect") as [[]|].
  all: try (match goal with
            | |- context [connectFinish ?c ?t ?s] =>
                destruct (connectFinish_selection t s) as (-> & -> & -> & -> & _)
            end).
  all: ui_open; done.
Qed.

Lemma subscribeToWalletEvents_selection (wallet : Wallet) (st : State) :
  let st' := fst (subscribeToWalletEvents wallet st) in
  selectedWallet st' = selectedWallet st /\ selectedAccount st' = selectedAccount st /\
  storage st' = storage st.
Proof.
  unfold subscribeToWalletEvents.
  destruct (w_features wallet !! "standard:events") as [[]|]; ui_open; done.
Qed.

(** What the [try] block leaves behind: nothing new when no account can
    be chosen, the wallet with the chosen account otherwise. *)
Lemma connectTry_selection (wallet : Wallet) (persistSelection : bool)
    (connectResult : option ConnectResult) (st : State) :
  let st' := fst (connectTry wallet persistSelection connectResult st) in
  match getPreferredAccount (returnedAccounts wallet connectResult) with
  | None => st' = st
  | Some account =>
      selectedWallet st' = Some wallet /\ selectedAccount st' = Some account
  end.
Proof.
  unfold connectTry.
  destruct (getPreferredAccount (returnedAccounts wallet connectResult)); [|done].
  match goal with
  | |- context [subscribeToWalletEvents wallet ?s] =>
      pose proof (subscribeToWalletEvents_selection wallet s) as (Hw & Ha & _);
      destruct (subscribeToWalletEvents wallet s) as [s' [e|]]
  end; simpl in *.
  - rewrite Hw, Ha. destruct persistSelection; ui_open; done.
  - destruct (closeWalletPicker_is s') as [d ->]. simpl. rewrite Hw, Ha.
    destruct persistSelection; ui_open; done.
Qed.

Lemma connectToWallet_resume_inv (wallet : Wallet) (persistSelection : bool)
    (answer : Settled (option ConnectResult)) (st : State) :
  accountNeedsWallet st ->
  accountNeedsWallet (fst (connectToWallet_resume localeCompare wallet persistSelection answer st)).
Proof.
  unfold accountNeedsWallet, connectToWallet_resume. intros Hinv.
  destruct answer as [connectResult|e].
  - pose proof (connectTry_selection wallet persistSelection connectResult st) as Htry.
    destruct (connectTry wallet persistSelection connectResult st) as [st1 thrown].
    destruct (connectFinish_selection thrown st1) as (-> & -> & _). simpl in Htry.
    destruct (getPreferredAccount _).
    + destruct Htry as [-> ->]. eauto.
    + by subst.
  - by destruct (connectFinish_selection (Some e) st) as (-> & -> & _).
Qed.
Lemma disconnectFinish_selection (thrown : option string) (st : State) :
  let st' := fst (disconnectFinish localeCompare thrown st) in
  selectedWallet st' = None /\ selectedAccount st' = None /\
  walletEventsUnsubscribe st' = None.
Proof.
  unfold disconnectFinish. destruct thrown; ui_open; done.
Qed.

Lemma disconnectWallet_inv (st : State) :
  accountNeedsWallet st -> accountNeedsWallet (fst (disconnectWallet localeCompare st)).
Proof.
  unfold accountNeedsWallet, disconnectWallet. intros Hinv.
  destruct (selectedWallet st) as [w|] eqn:Hsel; [|simpl; by rewrite Hsel].
  destruct (w_features w !! "standard:disconnect") as [[]|].
  all: try (match goal with
            | |- context [disconnectFinish ?c ?t ?s] =>
                destruct (disconnectFinish_selection t s) as (-> & -> & _)
            end; intros [? ?]; discriminate).
  simpl. by rewrite Hsel.
Qed.

Lemma disconnectWallet_resume_inv (answer : Settled unit) (st : State) :
  accountNeedsWallet (fst (disconnectWallet_resume localeCompare answer st)).
Proof.
  unfold accountNeedsWallet, disconnectWallet_resume.
  destruct answer;
    match goal with
    | |- context [disconnectFinish ?c ?t ?s] =>
        destruct (disconnectFinish_selection t s) as (-> & -> & _)
    end; intros [? ?]; discriminate.
Qed.

Lemma onWalletChange_inv (wallet : Wallet) (accounts : option (list Account)) (st : State) :
  accountNeedsWallet st ->
  accountNeedsWallet (onWalletChange localeCompare wallet accounts st).
Proof.
  unfold accountNeedsWallet, onWalletChange. intros Hinv.
  destruct (selectedWallet st) as [sel|] eqn:Hsel; [|simpl; by rewrite Hsel].
  destruct (negb (sameWallet wallet sel)); [by rewrite Hsel|].
  destruct (getPreferredAccount _); ui_open.
  - rewrite Hsel. eauto.
  - intros [? ?]; discriminate.
Qed.

Lemma attemptAutoReconnect_selection (st : State) :
  let st' := attemptAutoReconnect localeCompare st in
  selectedWallet st' = selectedWallet st /\ selectedAccount st' = selectedAccount st /\
  storage st' = storage st /\ walletEventsUnsubscribe st' = walletEventsUnsubscribe st.
Proof.
  unfold attemptAutoReconnect.
  destruct (getPreferredWalletId st) as [pid|]; [|done].
  destruct (_ || _ || _); [done|].
  destruct (List.find _ _); [|done].
  apply connectToWallet_selection.
Qed.

Lemma onRegister_inv (st : State) :
  accountNeedsWallet st -> accountNeedsWallet (onRegister localeCompare st).
Proof.
  unfold accountNeedsWallet, onRegister. intros Hinv.
  destruct (attemptAutoReconnect_selection (renderWalletList localeCompare st))
    as (-> & -> & _).
  by ui_open.
Qed.

Lemma onUnregister_inv (st : State) :
  accountNeedsWallet st -> accountNeedsWallet (onUnregister localeCompare st).
Proof.
  unfold accountNeedsWallet, onUnregister. intros Hinv.
  destruct (selectedWallet st) as [sel|] eqn:Hsel.
  - destruct (negb (existsb _ _)); ui_open.
    + intros [? ?]; discriminate.
    + by rewrite Hsel.
  - ui_open. by rewrite Hsel.
Qed.

Lemma mountWalletConnectButton_inv (target : Target) (st : State) :
  accountNeedsWallet st ->
  accountNeedsWallet (fst (mountWalletConnectButton localeCompare target st)).
Proof.
  unfold accountNeedsWallet, mountWalletConnectButton, attachGlobalHandlers. intros Hinv.
  destruct (match target with
            | TargetId i => document st !! i
            | TargetElement c => Some c
            | TargetNull => None
            end) as [c|]; [|done].
  destruct (bool_decide (mountedContainer st = Some c)); [done|]. simpl.
  match goal with
  | |- context [attemptAutoReconnect localeCompare ?s] =>
      destruct (attemptAutoReconnect_selection s) as (-> & -> & _)
  end.
  by ui_open.
Qed.

Lemma unmount_inv (h : Handle) (st : State) :
  accountNeedsWallet st -> accountNeedsWallet (unmount h st).
Proof.
  unfold accountNeedsWallet, unmount. intros Hinv. destruct h; [done|].
  destruct (cleanupWalletEvents_is st) as [es [-> _]]. simpl.
  by destruct (bool_decide _).
Qed.

Lemma closeWalletPicker_inv (st : State) :
  accountNeedsWallet st -> accountNeedsWallet (closeWalletPicker st).
Proof. unfold accountNeedsWallet. by ui_open. Qed.

Lemma onDocumentClick_inv (inside : bool) (st : State) :
  accountNeedsWallet st -> accountNeedsWallet (onDocumentClick inside st).
Proof.
  unfold onDocumentClick. intros Hinv.
  destruct (negb (pickerOpen st)); [done|].
  destruct (negb inside); [by apply closeWalletPicker_inv | done].
Qed.

Lemma onDocumentKeydown_inv (key : string) (st : State) :
  accountNeedsWallet st -> accountNeedsWallet (onDocumentKeydown key st).
Proof.
  unfold onDocumentKeydown. intros Hinv.
  destruct (String.eqb key "Escape"); [by apply closeWalletPicker_inv | done].
Qed.

(** A handler that keeps the invariant keeps it however often the
    registry or the document calls it. *)
Lemma iter_inv (f : State -> State) (n : nat) (st : State) :
  (forall s, accountNeedsWallet s -> accountNeedsWallet (f s)) ->
  accountNeedsWallet st -> accountNeedsWallet (Nat.iter n f st).
Proof.
  intros Hf Hinv. induction n as [|n IH]; simpl; [done | by apply Hf].
Qed.

Lemma foldl_inv {B : Type} (f : State -> B -> State) (l : list B) (st : State) :
  (forall s b, accountNeedsWallet s -> accountNeedsWallet (f s b)) ->
  accountNeedsWallet st -> accountNeedsWallet (foldl f st l).
Proof.
  intros Hf. revert st. induction l as [|b l IH]; simpl; intros st Hinv; [done|].
  apply IH. by apply Hf.
Qed.

Lemma step_inv (ev : Event) (st : State) :
  accountNeedsWallet st -> accountNeedsWallet (step localeCompare ev st).
Proof.
  intros Hinv. destruct ev; unfold step.
  - by apply mountWalletConnectButton_inv.
  - by apply unmount_inv.
  - unfold accountNeedsWallet.
    by destruct (connectToWallet_selection (Some wallet) true st) as (-> & -> & _).
  - by apply disconnectWallet_inv.
  - destruct (pendingConnect st) as [[wallet persistSelection]|]; [|done].
    by apply connectToWallet_resume_inv.
  - destruct (pendingDisconnects st); [done|]. apply disconnectWallet_resume_inv.
  - destruct (walletEventsUnsubscribe st); [|done]. by apply onWalletChange_inv.
  - apply iter_inv; [apply onRegister_inv | done].
  - apply iter_inv; [apply onUnregister_inv | done].
  - apply foldl_inv; [|done]. intros s c. apply onDocumentClick_inv.
  - apply iter_inv; [apply onDocumentKeydown_inv | done].
  - unfold accountNeedsWallet, onTriggerClick in *.
    destruct (selectedAccount st) eqn:Ha; ui_open; by rewrite Ha.
Qed.
End Selection.

(** ** Account choice *)

Lemma includes_elem_of (x : string) (l : list string) : includes x l = true <-> x ∈ l.
Proof.
  unfold includes. rewrite existsb_exists, list_elem_of_In. split.
  - intros (y & Hy & Heq). apply String.eqb_eq in Heq. by subst.
  - intros Hx. exists x. split; [done | apply String.eqb_refl].
Qed.

Lemma onMainnet_spec (a : Account) :
  onMainnet a = true <-> exists cs, chains a = Some cs /\ SUI_MAINNET_CHAIN ∈ cs.
Proof.
  unfold onMainnet. destruct (chains a) as [cs|].
  - rewrite includes_elem_of. split; [eauto|]. by intros (? & [= <-] & ?).
  - split; [done|]. by intros (? & ? & _).
Qed.

(** [Array.prototype.find] returns the first element the predicate
    accepts. *)
Lemma find_first {A : Type} (f : A -> bool) (l : list A) :
  match List.find f l with
  | Some x =>
      exists before after,
        l = before ++ x :: after /\ Forall (fun y => f y = false) before /\ f x = true
  | None => Forall (fun y => f y = false) l
  end.
Proof.
  induction l as [|y l IH]; simpl; [constructor|].
  destruct (f y) eqn:Hy.
  - exists [], l. by repeat split.
  - destruct (List.find f l) as [x|].
    + destruct IH as (before & after & -> & Hb & Hx).
      exists (y :: before), after. repeat split; [|done]. by constructor.
    + by constructor.
Qed.

Lemma getPreferredAccount_nonempty (accounts : list Account) :
  accounts <> [] ->
  exists chosen,
    getPreferredAccount (Some accounts) = Some chosen /\
    ((exists before after,
        accounts = before ++ chosen :: after /\
        Forall (fun a => onMainnet a = false) before /\ onMainnet chosen = true)
     \/ (Forall (fun a => onMainnet a = false) accounts /\ head accounts = Some chosen)).
Proof.
  intros Hne. unfold getPreferredAccount. simpl.
  pose proof (find_first onMainnet accounts) as Hfind.
  destruct (List.find onMainnet accounts) as [x|].
  - exists x. split; [done|]. by left.
  - destruct accounts as [|a rest]; [done|]. exists a. split; [done|]. by right.
Qed.

(** ** Connect attempts *)

Section Connect.
Variable localeCompare : string -> string -> Z.

Lemma connectCalls_snoc (st : State) (es : list Effect) :
  length (List.filter isConnectCall (trace st ++ es)) =
  connectCalls st + length (List.filter isConnectCall es).
Proof. unfold connectCalls. by rewrite List.filter_app, length_app. Qed.

(** A request that reaches a callable connect capability: the flag is
    raised, the state is published, the capability is invoked once, and
    the call is left suspended. *)
Lemma connectToWallet_suspends (w : Wallet) (persistSelection : bool) (st : State) :
  isConnecting st = false ->
  w_features w !! "standard:connect" = Some Callable ->
  exists d b,
    connectToWallet localeCompare (Some w) persistSelection st =
    (set_pendingConnect (Some (w, persistSelection))
       (set_trace (trace st ++ [UpdateWalletBridgeState b; ConnectCall w])
          (set_pageDom d (set_isConnecting true st))),
     Pending).
Proof.
  intros Hflag Hfeature. unfold connectToWallet. rewrite Hflag, Hfeature.
  ui_rewrite. exists d, b. unfold emit. simpl. by rewrite <- app_assoc.
Qed.

(** What the [catch] and [finally] blocks do to the trace. *)
Lemma connectFinish_trace (thrown : option string) (st : State) :
  exists b,
    trace (fst (connectFinish localeCompare thrown st)) =
    trace st ++
    match thrown with
    | Some e => [ConsoleError "Wallet connection failed:" e; UpdateWalletBridgeState b]
    | None => [UpdateWalletBridgeState b]
    end.
Proof.
  unfold connectFinish. destruct thrown; ui_rewrite; exists b; unfold emit; simpl;
    [by rewrite <- app_assoc | done].
Qed.

(** A failing answer takes [connectToWallet] straight to its [catch]. *)
Lemma connectToWallet_resume_failed (wallet : Wallet) (persistSelection : bool)
    (answer : Settled (option ConnectResult)) (st : State) :
  connectFails wallet answer ->
  exists e,
    connectToWallet_resume localeCompare wallet persistSelection answer st =
    connectFinish localeCompare (Some e) st.
Proof.
  unfold connectFails, connectToWallet_resume, connectTry.
  destruct answer as [connectResult|e]; [|eauto]. intros ->. eauto.
Qed.

(** A connect feature that is absent, has no [connect] function, or
    throws in the call, takes it there before any suspension. *)
Lemma connectToWallet_not_callable (w : Wallet) (persistSelection : bool) (st : State) :
  isConnecting st = false ->
  w_features w !! "standard:connect" <> Some Callable ->
  exists e s,
    connectToWallet localeCompare (Some w) persistSelection st =
    connectFinish localeCompare (Some e) s /\
    selectedWallet s = selectedWallet st /\ selectedAccount s = selectedAccount st /\
    storage s = storage st /\ walletEventsUnsubscribe s = walletEventsUnsubscribe st /\
    pendingConnect s = pendingConnect st.
Proof.
  intros Hflag Hfeature. unfold connectToWallet. rewrite Hflag.
  destruct (w_features w !! "standard:connect") as [[]|]; [| |done|];
    eexists _, _; (split; [reflexivity|]); by ui_open.
Qed.
Lemma connectToWallet_busy (wallet : option Wallet) (persistSelection : bool) (st : State) :
  isConnecting st = true ->
  connectToWallet localeCompare wallet persistSelection st = (st, Fulfilled).
Proof.
  intros Hflag. unfold connectToWallet. destruct wallet; [by rewrite Hflag | done].
Qed.

Lemma attemptAutoReconnect_busy (st : State) :
  isConnecting st = true -> attemptAutoReconnect localeCompare st = st.
Proof.
  intros Hflag. unfold attemptAutoReconnect.
  destruct (getPreferredWalletId st); [|done]. by rewrite Hflag, orb_true_r.
Qed.

(** While an attempt started with nothing selected is in flight, no event
    other than its own settlement selects a wallet or an account, clears
    the flag, or replaces the suspended call. *)
Lemma disconnectFinish_inFlight (thrown : option string) (st : State) :
  inFlight (fst (disconnectFinish localeCompare thrown st)) =
  (None, None, isConnecting st, pendingConnect st).
Proof. unfold inFlight, disconnectFinish. destruct thrown; by ui_open. Qed.

Lemma onRegister_inFlight (st : State) :
  isConnecting st = true -> inFlight (onRegister localeCompare st) = inFlight st.
Proof.
  intros Hflag. unfold onRegister.
  destruct (renderWalletList_is localeCompare st) as [d Hd].
  rewrite attemptAutoReconnect_busy; rewrite Hd; done.
Qed.

Lemma onUnregister_inFlight (st : State) :
  selectedWallet st = None -> inFlight (onUnregister localeCompare st) = inFlight st.
Proof. intros Hsel. unfold onUnregister. rewrite Hsel. unfold inFlight. by ui_open. Qed.

Lemma iter_inFlight (f : State -> State) (n : nat) (st : State)
    (waiting : option Wallet * option Account * bool * option (Wallet * bool)) :
  (forall s, inFlight s = waiting -> inFlight (f s) = waiting) ->
  inFlight st = waiting -> inFlight (Nat.iter n f st) = waiting.
Proof.
  intros Hf Hst. induction n as [|n IH]; simpl; [done | by apply Hf].
Qed.

Lemma foldl_inFlight {B : Type} (f : State -> B -> State) (l : list B) (st : State)
    (waiting : option Wallet * option Account * bool * option (Wallet * bool)) :
  (forall s b, inFlight s = waiting -> inFlight (f s b) = waiting) ->
  inFlight st = waiting -> inFlight (foldl f st l) = waiting.
Proof.
  intros Hf. revert st. induction l as [|b l IH]; simpl; intros st Hst; [done|].
  apply IH. by apply Hf.
Qed.

Lemma step_inFlight (ev : Event) (st : State) (pending : Wallet * bool) :
  settlesConnect ev = false ->
  inFlight st = (None, None, true, Some pending) ->
  inFlight (step localeCompare ev st) = (None, None, true, Some pending).
Proof.
  intros Hev Hst.
  assert (Hsel : selectedWallet st = None) by (by injection Hst).
  assert (Hflag : isConnecting st = true) by (by injection Hst).
  destruct ev; try discriminate Hev; unfold step.
  - unfold mountWalletConnectButton, attachGlobalHandlers.
    destruct (match target with
              | TargetId i => document st !! i
              | TargetElement c => Some c
              | TargetNull => None
              end) as [c|]; [|done].
    destruct (bool_decide (mountedContainer st = Some c)); [done|]. cbn [fst].
    rewrite attemptAutoReconnect_busy; [|by ui_open].
    rewrite <- Hst. unfold inFlight. by ui_open.
  - rewrite <- Hst. unfold inFlight, unmount. destruct h; [done|].
    destruct (cleanupWalletEvents_is st) as [es [-> _]]. simpl.
    by destruct (bool_decide _).
  - by rewrite connectToWallet_busy.
  - unfold disconnectWallet. by rewrite Hsel.
  - destruct (pendingDisconnects st) as [|n]; [done|].
    unfold disconnectWallet_resume.
    destruct answer; rewrite disconnectFinish_inFlight; simpl;
      rewrite Hflag; f_equal; by injection Hst.
  - destruct (walletEventsUnsubscribe st); [|done].
    unfold onWalletChange. by rewrite Hsel.
  - apply iter_inFlight; [|done]. intros s Hs. rewrite onRegister_inFlight; [done|].
    by injection Hs.
  - apply iter_inFlight; [|done]. intros s Hs. rewrite onUnregister_inFlight; [done|].
    by injection Hs.
  - apply foldl_inFlight; [|done]. intros s c Hs. rewrite <- Hs.
    unfold inFlight, onDocumentClick. destruct (negb (pickerOpen s)); [done|].
    destruct (negb (inside c)); by ui_open.
  - apply iter_inFlight; [|done]. intros s Hs. rewrite <- Hs.
    unfold inFlight, onDocumentKeydown. destruct (String.eqb key "Escape"); by ui_open.
  - rewrite <- Hst. unfold inFlight, onTriggerClick.
    destruct (selectedAccount st) eqn:Ha; ui_open; by rewrite Ha.
Qed.

Lemma run_inFlight (evs : list Event) (st : State) (pending : Wallet * bool) :
  forallb (fun ev => negb (settlesConnect ev)) evs = true ->
  inFlight st = (None, None, true, Some pending) ->
  inFlight (run localeCompare evs st) = (None, None, true, Some pending).
Proof.
  unfold run. revert st. induction evs as [|ev evs IH]; intros st Hevs Hst; [done|].
  simpl in Hevs. apply andb_true_iff in Hevs as [Hev Hevs]. simpl.
  apply IH; [done|]. apply step_inFlight; [|done]. by apply negb_true_iff.
Qed.
End Connect.

(** ** The persisted preference *)

Section Preference.
Variable localeCompare : string -> string -> Z.

Lemma connectFinish_tracked (thrown : option string) (st : State) :
  tracked (fst (connectFinish localeCompare thrown st)) = tracked st.
Proof. unfold tracked, connectFinish. destruct thrown; by ui_open. Qed.

Lemma connectToWallet_tracked (w : Wallet) (persistSelection : bool) (st : State) :
  tracked (fst (connectToWallet localeCompare (Some w) persistSelection st)) = tracked st \/
  (isConnecting st = false /\
   tracked (fst (connectToWallet localeCompare (Some w) persistSelection st)) =
   (storageOk st, storage st, selectedWallet st, Some (w, persistSelection),
    pendingDisconnects st)).
Proof.
  unfold connectToWallet. destruct (isConnecting st); [by left|].
  destruct (w_features w !! "standard:connect") as [[]|].
  all: try (left; rewrite connectFinish_tracked; unfold tracked; by ui_open).
  right. split; [done|]. unfold tracked. by ui_open.
Qed.

Lemma connectToWallet_click_preserves (w : Wallet) (st : State) :
  preferenceTracksSelection st ->
  preferenceTracksSelection (fst (connectToWallet localeCompare (Some w) true st)).
Proof.
  unfold preferenceTracksSelection.
  destruct (connectToWallet_tracked w true st) as [-> | [_ ->]]; [done|].
  unfold tracked, tracksSelection. intros (Hok & Hsel & _ & Hdis).
  split_and!; [done | done | | done]. intros w' [=].
Qed.

Lemma attemptAutoReconnect_preserves (st : State) :
  preferenceTracksSelection st ->
  preferenceTracksSelection (attemptAutoReconnect localeCompare st).
Proof.
  unfold preferenceTracksSelection, attemptAutoReconnect, getPreferredWalletId. intros HJ.
  destruct (storageOk st) eqn:Hok; [|done].
  destruct (storage st) as [pid|] eqn:Hstored; [|done].
  destruct (String.eqb pid "" || bool_decide (is_Some (selectedWallet st)) || isConnecting st)
    eqn:Hguard; [done|].
  apply orb_false_elim in Hguard as [Hguard _].
  apply orb_false_elim in Hguard as [_ Hnone].
  apply bool_decide_eq_false in Hnone.
  destruct (List.find _ _) as [w|] eqn:Hfind; [|done].
  apply find_some in Hfind as [_ Hid]. apply String.eqb_eq in Hid.
  destruct (connectToWallet_tracked w false st) as [-> | [_ ->]]; [done|].
  revert HJ. unfold tracked, tracksSelection. rewrite Hok, Hstored.
  intros (_ & Hsel & _ & Hdis).
  split_and!; [done | done | | done].
  intros w' [= <-]. split; [|by rewrite Hid].
  destruct (selectedWallet st); [|done]. exfalso. apply Hnone. eauto.
Qed.

Lemma subscribeToWalletEvents_tracked (wallet : Wallet) (st : State) :
  tracked (fst (subscribeToWalletEvents wallet st)) = tracked st.
Proof.
  unfold tracked, subscribeToWalletEvents.
  destruct (w_features wallet !! "standard:events") as [[]|]; by ui_open.
Qed.

Lemma connectTry_tracked (wallet : Wallet) (persistSelection : bool)
    (connectResult : option ConnectResult) (st : State) :
  storageOk st = true ->
  tracked (fst (connectTry wallet persistSelection connectResult st)) =
  match getPreferredAccount (returnedAccounts wallet connectResult) with
  | None => tracked st
  | Some _ =>
      (true,
       if persistSelection then Some (getWalletIdentifier (Some wallet)) else storage st,
       Some wallet, pendingConnect st, pendingDisconnects st)
  end.
Proof.
  intros Hok. unfold connectTry.
  destruct (getPreferredAccount (returnedAccounts wallet connectResult)); [|done].
  match goal with
  | |- context [subscribeToWalletEvents wallet ?s] =>
      pose proof (subscribeToWalletEvents_tracked wallet s) as Hsub;
      destruct (subscribeToWalletEvents wallet s) as [s' [e|]]
  end; cbn [fst] in *.
  - rewrite Hsub. destruct persistSelection; [|by unfold tracked; simpl; rewrite Hok].
    rewrite persistPreferredWallet_ok by done. unfold tracked. simpl. by rewrite Hok.
  - destruct (closeWalletPicker_is s') as [d ->].
    transitivity (tracked s'); [done|]. rewrite Hsub.
    destruct persistSelection; [|by unfold tracked; simpl; rewrite Hok].
    rewrite persistPreferredWallet_ok by done. unfold tracked. simpl. by rewrite Hok.
Qed.

Lemma connectToWallet_resume_preserves (wallet : Wallet) (persistSelection : bool)
    (answer : Settled (option ConnectResult)) (st : State) :
  pendingConnect st = Some (wallet, persistSelection) ->
  preferenceTracksSelection st ->
  preferenceTracksSelection
    (fst (connectToWallet_resume localeCompare wallet persistSelection answer
            (set_pendingConnect None st))).
Proof.
  unfold preferenceTracksSelection, connectToWallet_resume. intros Hpending HJ.
  assert (Hcleared : tracksSelection (tracked (set_pendingConnect None st))).
  { revert HJ. unfold tracked, tracksSelection. simpl.
    intros (Hok & Hsel & _ & Hdis). split_and!; [done | done | | done]. intros w [=]. }
  destruct answer as [connectResult|e]; [|by rewrite connectFinish_tracked].
  assert (Hok : storageOk (set_pendingConnect None st) = true) by apply HJ.
  pose proof (connectTry_tracked wallet persistSelection connectResult _ Hok) as Htry.
  destruct (connectTry wallet persistSelection connectResult (set_pendingConnect None st))
    as [st1 thrown].
  rewrite connectFinish_tracked. cbn [fst] in Htry. rewrite Htry.
  destruct (getPreferredAccount _); [|done].
  revert HJ. unfold tracked, tracksSelection. simpl. rewrite Hpending.
  intros (_ & _ & Hauto & _).
  split_and!; [done | | intros w [=] | done].
  intros w [= <-]. destruct persistSelection; [done|]. by apply Hauto.
Qed.

Lemma disconnectFinish_tracked (thrown : option string) (st : State) :
  storageOk st = true ->
  tracked (fst (disconnectFinish localeCompare thrown st)) =
  (true, None, None, pendingConnect st, pendingDisconnects st).
Proof.
  intros Hok. unfold tracked, disconnectFinish.
  destruct thrown; ui_stored Hok; by rewrite Hok.
Qed.

(** Clearing the selection and the preference together is safe unless an
    auto-reconnect is in flight. *)
Lemma cleared_tracksSelection (pending : option (Wallet * bool)) (disconnects : nat) :
  (forall w, pending <> Some (w, false)) ->
  tracksSelection (true, None, None, pending, disconnects).
Proof.
  intros Hpending. unfold tracksSelection.
  split_and!; [done | done | | done]. intros w Hw. by destruct (Hpending w).
Qed.

Lemma selected_no_auto_reconnect (st : State) (sel : Wallet) :
  preferenceTracksSelection st -> selectedWallet st = Some sel ->
  forall w, pendingConnect st <> Some (w, false).
Proof.
  unfold preferenceTracksSelection, tracked, tracksSelection.
  intros (_ & _ & Hauto & _) Hsel w Hw. destruct (Hauto w Hw) as [Hnone _]. congruence.
Qed.

Lemma disconnectWallet_preserves (st : State) :
  preferenceTracksSelection st ->
  preferenceTracksSelection (fst (disconnectWallet localeCompare st)).
Proof.
  intros HJ. unfold disconnectWallet.
  destruct (selectedWallet st) as [sel|] eqn:Hsel; [|done].
  pose proof (selected_no_auto_reconnect st sel HJ Hsel) as Hpending.
  assert (Hok : storageOk st = true) by apply HJ.
  unfold preferenceTracksSelection.
  destruct (w_features sel !! "standard:disconnect") as [[]|].
  - rewrite disconnectFinish_tracked by done. by apply cleared_tracksSelection.
  - rewrite disconnectFinish_tracked by done. by apply cleared_tracksSelection.
  - revert HJ. unfold preferenceTracksSelection, tracked, tracksSelection. simpl.
    rewrite Hsel. intros (_ & Hs & Hauto & _). split_and!; done.
  - rewrite disconnectFinish_tracked by done. by apply cleared_tracksSelection.
Qed.

Lemma disconnectWallet_resume_preserves (answer : Settled unit) (n : nat) (st : State) :
  pendingDisconnects st = S n ->
  preferenceTracksSelection st ->
  preferenceTracksSelection
    (fst (disconnectWallet_resume localeCompare answer (set_pendingDisconnects n st))).
Proof.
  intros Hn HJ. assert (Hok : storageOk st = true) by apply HJ.
  unfold preferenceTracksSelection, disconnectWallet_resume.
  assert (Hpending : forall w, pendingConnect st <> Some (w, false)).
  { revert HJ. unfold preferenceTracksSelection, tracked, tracksSelection. rewrite Hn.
    intros (_ & _ & Hauto & Hdis) w Hw. destruct (Hauto w Hw) as [Hnone Hstored].
    rewrite Hdis in Hstored; done. }
  destruct answer; rewrite disconnectFinish_tracked by done;
    by apply cleared_tracksSelection.
Qed.
Lemma onWalletChange_preserves (wallet : Wallet) (accounts : option (list Account))
    (st : State) :
  preferenceTracksSelection st ->
  preferenceTracksSelection (onWalletChange localeCompare wallet accounts st).
Proof.
  intros HJ. unfold onWalletChange.
  destruct (selectedWallet st) as [sel|] eqn:Hsel; [|done].
  destruct (negb (sameWallet wallet sel)); [done|].
  pose proof (selected_no_auto_reconnect st sel HJ Hsel) as Hpending.
  assert (Hok : storageOk st = true) by apply HJ.
  unfold preferenceTracksSelection.
  destruct (getPreferredAccount _).
  - replace (tracked _) with (tracked st); [done|]. unfold tracked. by ui_open.
  - replace (tracked _) with (true, @None string, @None Wallet, pendingConnect st,
                              pendingDisconnects st).
    + by apply cleared_tracksSelection.
    + unfold tracked. ui_stored Hok. by rewrite Hok.
Qed.

Lemma onUnregister_preserves (st : State) :
  preferenceTracksSelection st ->
  preferenceTracksSelection (onUnregister localeCompare st).
Proof.
  intros HJ. unfold onUnregister.
  assert (Hok : storageOk st = true) by apply HJ.
  unfold preferenceTracksSelection.
  destruct (selectedWallet st) as [sel|] eqn:Hsel.
  - pose proof (selected_no_auto_reconnect st sel HJ Hsel) as Hpending.
    destruct (negb (existsb _ _)).
    + replace (tracked _) with (true, @None string, @None Wallet, pendingConnect st,
                                pendingDisconnects st).
      * by apply cleared_tracksSelection.
      * unfold tracked. ui_stored Hok. by rewrite Hok.
    + replace (tracked _) with (tracked st); [done|]. unfold tracked. by ui_open.
  - replace (tracked _) with (tracked st); [done|]. unfold tracked. by ui_open.
Qed.

Lemma ui_only_preserves (f : State -> State) (st : State) :
  tracked (f st) = tracked st ->
  preferenceTracksSelection st -> preferenceTracksSelection (f st).
Proof. unfold preferenceTracksSelection. by intros ->. Qed.

Lemma onRegister_preserves (st : State) :
  preferenceTracksSelection st ->
  preferenceTracksSelection (onRegister localeCompare st).
Proof.
  intros HJ. unfold onRegister. apply attemptAutoReconnect_preserves.
  apply (ui_only_preserves (renderWalletList localeCompare)); [|done].
  unfold tracked. by ui_open.
Qed.

Lemma mountWalletConnectButton_preserves (target : Target) (st : State) :
  preferenceTracksSelection st ->
  preferenceTracksSelection (fst (mountWalletConnectButton localeCompare target st)).
Proof.
  intros HJ. unfold mountWalletConnectButton, attachGlobalHandlers.
  destruct (match target with
            | TargetId i => document st !! i
            | TargetElement c => Some c
            | TargetNull => None
            end) as [c|]; [|done].
  destruct (bool_decide (mountedContainer st = Some c)); [done|]. cbn [fst].
  apply attemptAutoReconnect_preserves.
  revert HJ. unfold preferenceTracksSelection, tracked. by ui_open.
Qed.

Lemma unmount_tracked (h : Handle) (st : State) : tracked (unmount h st) = tracked st.
Proof.
  unfold tracked, unmount. destruct h; [done|].
  destruct (cleanupWalletEvents_is st) as [es [-> _]]. simpl.
  by destruct (bool_decide _).
Qed.

Lemma onDocumentClick_tracked (inside : bool) (st : State) :
  tracked (onDocumentClick inside st) = tracked st.
Proof.
  unfold tracked, onDocumentClick. destruct (negb (pickerOpen st)); [done|].
  destruct (negb inside); by ui_open.
Qed.

Lemma onDocumentKeydown_tracked (key : string) (st : State) :
  tracked (onDocumentKeydown key st) = tracked st.
Proof.
  unfold tracked, onDocumentKeydown. destruct (String.eqb key "Escape"); by ui_open.
Qed.

Lemma onTriggerClick_tracked (st : State) : tracked (onTriggerClick st) = tracked st.
Proof. unfold tracked, onTriggerClick. destruct (selectedAccount st); by ui_open. Qed.

Lemma iter_preserves (f : State -> State) (n : nat) (st : State) :
  (forall s, preferenceTracksSelection s -> preferenceTracksSelection (f s)) ->
  preferenceTracksSelection st -> preferenceTracksSelection (Nat.iter n f st).
Proof.
  intros Hf HJ. induction n as [|n IH]; simpl; [done | by apply Hf].
Qed.

Lemma foldl_preserves {B : Type} (f : State -> B -> State) (l : list B) (st : State) :
  (forall s b, preferenceTracksSelection s -> preferenceTracksSelection (f s b)) ->
  preferenceTracksSelection st -> preferenceTracksSelection (foldl f st l).
Proof.
  intros Hf. revert st. induction l as [|b l IH]; simpl; intros st HJ; [done|].
  apply IH. by apply Hf.
Qed.

Lemma step_preserves (ev : Event) (st : State) :
  preferenceTracksSelection st -> preferenceTracksSelection (step localeCompare ev st).
Proof.
  intros HJ. destruct ev; unfold step.
  - by apply mountWalletConnectButton_preserves.
  - by apply (ui_only_preserves (unmount h)); [apply unmount_tracked|].
  - by apply connectToWallet_click_preserves.
  - by apply disconnectWallet_preserves.
  - destruct (pendingConnect st) as [[wallet persistSelection]|] eqn:Hpending; [|done].
    by apply connectToWallet_resume_preserves.
  - destruct (pendingDisconnects st) as [|n] eqn:Hn; [done|].
    by apply disconnectWallet_resume_preserves.
  - destruct (walletEventsUnsubscribe st); [|done]. by apply onWalletChange_preserves.
  - apply iter_preserves; [apply onRegister_preserves | done].
  - apply iter_preserves; [apply onUnregister_preserves | done].
  - apply foldl_preserves; [|done]. intros s c.
    apply ui_only_preserves, onDocumentClick_tracked.
  - apply iter_preserves; [|done]. intros s.
    apply ui_only_preserves, onDocumentKeydown_tracked.
  - by apply ui_only_preserves; [apply onTriggerClick_tracked|].
Qed.

Lemma run_preserves (evs : list Event) (st : State) :
  preferenceTracksSelection st -> preferenceTracksSelection (run localeCompare evs st).
Proof.
  unfold run. revert st. induction evs as [|ev evs IH]; intros st HJ; simpl; [done|].
  apply IH. by apply step_preserves.
Qed.

Lemma initialState_tracksSelection (doc : gmap string Container) (wallets : list Wallet)
    (stored : option string) :
  preferenceTracksSelection (initialState doc wallets stored true).
Proof.
  unfold preferenceTracksSelection, tracked, tracksSelection. simpl.
  split_and!; [done | intros w [=] | intros w [=] | done].
Qed.
End Preference.

(** ** Disconnect and the preference *)

Section Disconnect.
Variable localeCompare : string -> string -> Z.

Lemma disconnectFinish_storage (thrown : option string) (st : State) :
  storageOk st = true ->
  storageOk (fst (disconnectFinish localeCompare thrown st)) = true /\
  storage (fst (disconnectFinish localeCompare thrown st)) = None.
Proof.
  intros Hok. unfold disconnectFinish.
  destruct thrown; ui_stored Hok; (split; [exact Hok | reflexivity]).
Qed.

Lemma disconnectWallet_cases (st : State) :
  storageOk st = true -> is_Some (selectedWallet st) ->
  let st1 := fst (disconnectWallet localeCompare st) in
  storageOk st1 = true /\
  ((snd (disconnectWallet localeCompare st) = Fulfilled /\ storage st1 = None) \/
   (snd (disconnectWallet localeCompare st) = Pending /\
    pendingDisconnects st1 = S (pendingDisconnects st))).
Proof.
  intros Hok [sel Hsel]. unfold disconnectWallet. rewrite Hsel.
  destruct (w_features sel !! "standard:disconnect") as [[|e|]|]; cbv zeta.
  - destruct (disconnectFinish_storage None st Hok) as [Hok' Hnone].
    split; [exact Hok'|]. left. split; [reflexivity | exact Hnone].
  - destruct (disconnectFinish_storage (Some e) (emit (DisconnectCall sel) st) Hok)
      as [Hok' Hnone].
    split; [exact Hok'|]. left. split; [reflexivity | exact Hnone].
  - split; [exact Hok|]. right. split; reflexivity.
  - destruct (disconnectFinish_storage None st Hok) as [Hok' Hnone].
    split; [exact Hok'|]. left. split; [reflexivity | exact Hnone].
Qed.

Lemma disconnectWallet_resume_storage (answer : Settled unit) (st : State) :
  storageOk st = true ->
  storage (fst (disconnectWallet_resume localeCompare answer st)) = None.
Proof.
  intros Hok. unfold disconnectWallet_resume.
  destruct answer as [u|e].
  - apply (disconnectFinish_storage None st Hok).
  - apply (disconnectFinish_storage (Some e) st Hok).
Qed.
End Disconnect.

(** ** Listeners *)

Section Listeners.
Variable localeCompare : string -> string -> Z.

Lemma connectFinish_listeners (thrown : option string) (st : State) :
  listeners (fst (connectFinish localeCompare thrown st)) = listeners st.
Proof. unfold listeners, connectFinish. destruct thrown; by ui_open. Qed.

Lemma connectToWallet_listeners (wallet : option Wallet) (persistSelection : bool)
    (st : State) :
  listeners (fst (connectToWallet localeCompare wallet persistSelection st)) = listeners st.
Proof.
  unfold connectToWallet. destruct wallet as [w|]; [|done].
  destruct (isConnecting st); [done|].
  destruct (w_features w !! "standard:connect") as [[]|];
    rewrite ?connectFinish_listeners; unfold listeners; by ui_open.
Qed.

Lemma attemptAutoReconnect_listeners (st : State) :
  listeners (attemptAutoReconnect localeCompare st) = listeners st.
Proof.
  unfold attemptAutoReconnect.
  destruct (getPreferredWalletId st); [|done].
  destruct (_ || _ || _); [done|].
  destruct (List.find _ _); [|done].
  apply connectToWallet_listeners.
Qed.

Lemma mountWalletConnectButton_listeners (target : Target) (st : State) (c : Container) :
  snd (mountWalletConnectButton localeCompare target st) = Some (WidgetHandle c) ->
  listeners (fst (mountWalletConnectButton localeCompare target st)) =
  (S (registerHandlers st), S (unregisterHandlers st), clickHandlers st ++ [c],
   S (keydownHandlers st)).
Proof.
  unfold mountWalletConnectButton, attachGlobalHandlers.
  destruct (match target with
            | TargetId i => document st !! i
            | TargetElement c => Some c
            | TargetNull => None
            end) as [c'|]; [|done].
  destruct (bool_decide (mountedContainer st = Some c')); [done|]. cbn [fst snd].
  intros [= <-]. rewrite attemptAutoReconnect_listeners. unfold listeners. by ui_open.
Qed.

Lemma mountWalletConnectButton_repeat (target : Target) (st : State) :
  snd (mountWalletConnectButton localeCompare target st) = Some NoopHandle ->
  fst (mountWalletConnectButton localeCompare target st) = st.
Proof.
  unfold mountWalletConnectButton.
  destruct (match target with
            | TargetId i => document st !! i
            | TargetElement c => Some c
            | TargetNull => None
            end) as [c'|]; [|done].
  by destruct (bool_decide (mountedContainer st = Some c')).
Qed.

Lemma unmount_keeps (c : Container) (st : State) :
  let st' := unmount (WidgetHandle c) st in
  walletEventsUnsubscribe st' = None /\ listeners st' = listeners st /\
  pageDom st' = pageDom st /\
  (forall w, walletEventsUnsubscribe st = Some w -> trace st' = trace st ++ [EventsOff w]) /\
  (mountedContainer st = Some c -> mountedContainer st' = None).
Proof.
  unfold unmount, cleanupWalletEvents, emit, listeners.
  destruct (walletEventsUnsubscribe st) as [w|] eqn:Hw; simpl;
    destruct (bool_decide (mountedContainer st = Some c)) eqn:Hc; simpl;
    split_and!; try done.
  all: try (by intros ? [= <-]).
  all: intros Hm; by rewrite bool_decide_eq_false in Hc.
Qed.
End Listeners.

(** * Properties of the specification *)

(** C1. The signer produced for a wallet/account pair throws "Wallet not
    connected" before any collaborator is touched when either is absent.
    Otherwise a sign-transaction feature (either name) wins: the wallet
    signs, then the client executes the signed bytes asking for effects
    and object changes and waiting for local execution, and sign-and-execute
    is never used.  Without it a sign-and-execute feature (either name) is
    used and the client then waits for the digest.  With neither the signer
    throws the unsupported-wallet error that names the wallet. *)
Theorem getSigner_policy (wallet : option Wallet) (account : option Account)
    (args : SignerArgs) (env : SignerEnv) :
  let outcome := getSigner wallet account args env in
  (wallet = None \/ account = None -> outcome = ([], Throws "Wallet not connected")) /\
  (forall w a, wallet = Some w -> account = Some a ->
     let transaction := setSenderIfNotSet (address a) (sa_transaction args) in
     let chain := default SUI_MAINNET_CHAIN (sa_chain args) in
     let signs := hasFeature w "sui:signTransaction" || hasFeature w "sui:signTransactionBlock" in
     let signsAndExecutes :=
       hasFeature w "sui:signAndExecuteTransaction"
       || hasFeature w "sui:signAndExecuteTransactionBlock" in
     (signs = true ->
        outcome =
        match signTransactionAnswer env with
        | Returns signedTx =>
            ([NewCoreClient (rpcUrl env); SignTransaction w transaction a chain;
              ExecuteTransactionBlock (st_bytes signedTx) (st_signature signedTx)
                true true "WaitForLocalExecution"],
             executeAnswer env)
        | Throws e =>
            ([NewCoreClient (rpcUrl env); SignTransaction w transaction a chain], Throws e)
        end) /\
     (signs = false -> signsAndExecutes = true ->
        outcome =
        match signAndExecuteAnswer env with
        | Returns txResult =>
            ([NewCoreClient (rpcUrl env); SignAndExecuteTransaction w transaction a chain;
              WaitForTransaction (tr_digest txResult) true true],
             waitAnswer env)
        | Throws e =>
            ([NewCoreClient (rpcUrl env); SignAndExecuteTransaction w transaction a chain],
             Throws e)
        end) /\
     (signs = false -> signsAndExecutes = false ->
        outcome =
        ([NewCoreClient (rpcUrl env)],
         Throws ("Wallet " +:+ w_name w +:+ " does not support transaction signing.")))).
Proof.
  unfold getSigner. split.
  - intros [-> | ->]; [done|]. by destruct wallet.
  - intros w a -> ->. cbv zeta. repeat split.
    + intros ->. by destruct (signTransactionAnswer env).
    + intros -> ->. by destruct (signAndExecuteAnswer env).
    + by intros -> ->.
Qed.

Lemma getSigner_policy_witness :
  getSigner (Some slush) None sampleTransaction sampleEnv = ([], Throws "Wallet not connected")
  /\ getSigner (Some slush) (Some mainnetAccount) sampleTransaction sampleEnv =
     ([NewCoreClient "https://fullnode.mainnet.sui.io";
       SignTransaction slush
         {| tx_sender := Some "0xabc4f2d1e08b7c6a9d3e5f10"; tx_data := "transfer" |}
         mainnetAccount "sui:mainnet";
       ExecuteTransactionBlock "AAAC" "sig" true true "WaitForLocalExecution"],
      Returns "effects").
Proof.
  split.
  - apply (getSigner_policy (Some slush) None sampleTransaction sampleEnv). by right.
  - apply (proj2 (getSigner_policy (Some slush) (Some mainnetAccount) sampleTransaction
                    sampleEnv) slush mainnetAccount eq_refl eq_refl).
    vm_compute. reflexivity.
Defined.

(** C3. Whatever the registry holds, [getConnectableWallets] returns
    exactly the registered wallets that expose [standard:connect] together
    with at least one of the four sign features, each as often as it is
    registered, in ascending order of their names under the locale
    comparison (which is taken to be a consistent comparator). *)
Theorem getConnectableWallets_filtered_sorted (localeCompare : string -> string -> Z)
    (st : State) :
  (forall a b, (0 < localeCompare a b)%Z -> (localeCompare b a <= 0)%Z) ->
  (forall a b c, (localeCompare a b <= 0)%Z -> (localeCompare b c <= 0)%Z ->
                 (localeCompare a c <= 0)%Z) ->
  getConnectableWallets localeCompare st ≡ₚ List.filter canConnect (registry st) /\
  (forall w, w ∈ getConnectableWallets localeCompare st <->
             w ∈ registry st /\
             hasFeature w "standard:connect" = true /\
             (hasFeature w "sui:signTransaction" = true \/
              hasFeature w "sui:signTransactionBlock" = true \/
              hasFeature w "sui:signAndExecuteTransaction" = true \/
              hasFeature w "sui:signAndExecuteTransactionBlock" = true)) /\
  StronglySorted (fun a b => (localeCompare (w_name a) (w_name b) <= 0)%Z)
    (getConnectableWallets localeCompare st).
Proof.
  intros Htotal Htrans. unfold getConnectableWallets.
  assert (Hperm : sortBy (byName localeCompare) (List.filter canConnect (registry st))
                  ≡ₚ List.filter canConnect (registry st)) by apply sortBy_perm.
  split; [exact Hperm|]. split.
  - intros w. rewrite Hperm, !list_elem_of_In, filter_In, <- list_elem_of_In.
    unfold canConnect. rewrite andb_true_iff, !orb_true_iff. tauto.
  - apply (sortBy_sorted (byName localeCompare)); unfold byName; eauto.
Qed.

Lemma getConnectableWallets_filtered_sorted_witness :
  map w_name (getConnectableWallets codeUnitCompare freshPage) = ["Slush"; "Suiet"] /\
  StronglySorted (fun a b => (codeUnitCompare (w_name a) (w_name b) <= 0)%Z)
    (getConnectableWallets codeUnitCompare freshPage).
Proof.
  split; [vm_compute; reflexivity|].
  apply (getConnectableWallets_filtered_sorted codeUnitCompare freshPage
           codeUnitCompare_total codeUnitCompare_trans).
Defined.

(** C4. An account is selected only while a wallet is: the invariant
    survives the settling of a connect attempt (success or failure), an
    explicit disconnect (the call and the settling of its capability), a
    wallet change event and a registry unregister event, indeed every
    event of the widget, and so holds in every state reached from the
    initial one. *)
Theorem selection_invariant (localeCompare : string -> string -> Z) :
  (forall wallet persistSelection answer st,
     accountNeedsWallet st ->
     accountNeedsWallet
       (fst (connectToWallet_resume localeCompare wallet persistSelection answer st))) /\
  (forall st, accountNeedsWallet st ->
              accountNeedsWallet (fst (disconnectWallet localeCompare st))) /\
  (forall answer st,
     accountNeedsWallet (fst (disconnectWallet_resume localeCompare answer st))) /\
  (forall wallet accounts st,
     accountNeedsWallet st ->
     accountNeedsWallet (onWalletChange localeCompare wallet accounts st)) /\
  (forall st, accountNeedsWallet st -> accountNeedsWallet (onUnregister localeCompare st)) /\
  (forall ev st, accountNeedsWallet st -> accountNeedsWallet (step localeCompare ev st)) /\
  (forall doc wallets stored ok evs,
     accountNeedsWallet (run localeCompare evs (initialState doc wallets stored ok))).
Proof.
  repeat split.
  - intros. by apply connectToWallet_resume_inv.
  - intros. by apply disconnectWallet_inv.
  - intros. apply disconnectWallet_resume_inv.
  - intros. by apply onWalletChange_inv.
  - intros. by apply onUnregister_inv.
  - intros. by apply step_inv.
  - intros doc wallets stored ok evs. unfold run.
    assert (Hinit : accountNeedsWallet (initialState doc wallets stored ok))
      by (intros [? ?]; discriminate).
    revert Hinit. generalize (initialState doc wallets stored ok).
    induction evs as [|ev evs IH]; intros st Hst; simpl; [done|].
    apply IH. by apply step_inv.
Qed.

Lemma selection_invariant_witness :
  accountNeedsWallet connectedPage /\
  accountNeedsWallet (step codeUnitCompare (WalletChange (Some [])) connectedPage).
Proof.
  assert (H : accountNeedsWallet connectedPage).
  { intros _. vm_compute. eauto. }
  split; [exact H|].
  destruct (selection_invariant codeUnitCompare) as (_ & _ & _ & _ & _ & Hstep & _).
  exact (Hstep (WalletChange (Some [])) connectedPage H).
Defined.

(** C5. A bridge publish reflects the selection state it is made in: one
    call to the bridge is added and nothing else changes; with wallet and
    account both present it carries them with status [connected], the
    disconnect function and the signer made for that pair; otherwise
    wallet, account and both functions are none, and the status is
    [connecting] exactly while a connect attempt is in flight and
    [disconnected] otherwise. *)
Theorem syncBridgeState_reflects_state (st : State) :
  exists b,
    syncBridgeState st = set_trace (trace st ++ [UpdateWalletBridgeState b]) st /\
    match selectedWallet st, selectedAccount st with
    | Some w, Some a =>
        b_wallet b = Some w /\ b_account b = Some a /\ b_status b = connected /\
        b_disconnect b = Some disconnectWalletFn /\
        b_signAndExecute b = Some (getSigner (Some w) (Some a))
    | _, _ =>
        b_wallet b = None /\ b_account b = None /\
        b_disconnect b = None /\ b_signAndExecute b = None /\
        (b_status b = connecting <-> isConnecting st = true) /\
        (b_status b = disconnected <-> isConnecting st = false)
    end.
Proof.
  unfold syncBridgeState, emit.
  destruct (selectedWallet st) as [w|], (selectedAccount st) as [a|];
    eexists; (split; [reflexivity|]); simpl; try done;
    destruct (isConnecting st); by repeat split.
Qed.

Lemma syncBridgeState_reflects_state_witness :
  (exists b, last (trace (syncBridgeState connectedPage)) = Some (UpdateWalletBridgeState b)
             /\ b_status b = connected /\ b_account b = Some mainnetAccount) /\
  (exists b, last (trace (syncBridgeState connectingPage)) = Some (UpdateWalletBridgeState b)
             /\ b_status b = connecting /\ b_wallet b = None).
Proof.
  split.
  - destruct (syncBridgeState_reflects_state connectedPage) as (b & -> & Hb).
    exists b. split; [apply last_snoc|]. vm_compute in Hb. tauto.
  - destruct (syncBridgeState_reflects_state connectingPage) as (b & -> & Hb).
    exists b. split; [apply last_snoc|].
    vm_compute in Hb. destruct Hb as (? & _ & _ & _ & Hc & _). split; [|done].
    by apply Hc.
Defined.

(** C8. From a non-empty account list the first account whose chain list
    includes [sui:mainnet] is chosen, and the first account of the list
    when none does; from an empty or absent list no account is chosen.
    The account a settled connect selects and the account a change
    event selects are chosen this way. *)
Theorem getPreferredAccount_choice (localeCompare : string -> string -> Z) :
  getPreferredAccount None = None /\ getPreferredAccount (Some []) = None /\
  (forall a, onMainnet a = true <-> exists cs, chains a = Some cs /\ SUI_MAINNET_CHAIN ∈ cs) /\
  (forall accounts,
     accounts <> [] ->
     exists chosen,
       getPreferredAccount (Some accounts) = Some chosen /\
       ((exists before after,
           accounts = before ++ chosen :: after /\
           Forall (fun a => onMainnet a = false) before /\ onMainnet chosen = true)
        \/ (Forall (fun a => onMainnet a = false) accounts /\
            head accounts = Some chosen))) /\
  (forall wallet persistSelection connectResult st chosen,
     getPreferredAccount (returnedAccounts wallet connectResult) = Some chosen ->
     selectedAccount
       (fst (connectToWallet_resume localeCompare wallet persistSelection
               (Resolved connectResult) st)) = Some chosen) /\
  (forall wallet sel accounts st,
     selectedWallet st = Some sel -> sameWallet wallet sel = true ->
     selectedAccount (onWalletChange localeCompare wallet (Some accounts) st) =
     getPreferredAccount (Some accounts)).
Proof.
  split; [done|]. split; [done|]. split; [apply onMainnet_spec|].
  split; [apply getPreferredAccount_nonempty|]. split.
  - intros wallet persistSelection connectResult st chosen Hchosen.
    unfold connectToWallet_resume.
    pose proof (connectTry_selection wallet persistSelection connectResult st) as Htry.
    destruct (connectTry wallet persistSelection connectResult st) as [st1 thrown].
    destruct (connectFinish_selection localeCompare thrown st1) as (_ & -> & _).
    rewrite Hchosen in Htry. apply Htry.
  - intros wallet sel accounts st Hsel Hsame. unfold onWalletChange.
    rewrite Hsel, Hsame. simpl.
    destruct (getPreferredAccount (Some accounts)); by ui_open.
Qed.

Lemma getPreferredAccount_choice_witness :
  getPreferredAccount (returnedAccounts slush (Some {| cr_accounts := Some [] |})) = None /\
  selectedAccount
    (fst (connectToWallet_resume codeUnitCompare slush true slushAnswer connectingPage))
  = Some mainnetAccount.
Proof.
  split; [reflexivity|].
  destruct (getPreferredAccount_choice codeUnitCompare) as (_ & _ & _ & _ & Hconnect & _).
  apply Hconnect. reflexivity.
Defined.

(** C2. A connect request made while the connecting flag is set does
    nothing at all: the whole state, hence wallet, account, flag and the
    bridge publishes, is what it was, whether the request comes from a
    picker entry or from auto-reconnect.  So of two requests made back to
    back, the first one reaching a callable connect capability and still
    suspended, only the first invokes the capability: one invocation. *)
Theorem connect_while_connecting_is_noop (localeCompare : string -> string -> Z) :
  (forall wallet persistSelection st,
     isConnecting st = true ->
     connectToWallet localeCompare wallet persistSelection st = (st, Fulfilled)) /\
  (forall st, isConnecting st = true -> attemptAutoReconnect localeCompare st = st) /\
  (forall first persistFirst second persistSecond st,
     isConnecting st = false ->
     w_features first !! "standard:connect" = Some Callable ->
     let st1 := fst (connectToWallet localeCompare (Some first) persistFirst st) in
     let st2 := fst (connectToWallet localeCompare second persistSecond st1) in
     isConnecting st1 = true /\ st2 = st1 /\ publishes st2 = publishes st1 /\
     connectCalls st2 = S (connectCalls st) /\
     pendingConnect st2 = Some (first, persistFirst)).
Proof.
  split; [apply connectToWallet_busy|]. split; [apply attemptAutoReconnect_busy|].
  intros first persistFirst second persistSecond st Hflag Hfeature.
  destruct (connectToWallet_suspends localeCompare first persistFirst st Hflag Hfeature)
    as (d & b & Hfirst).
  cbv zeta. rewrite Hfirst. cbn [fst].
  rewrite connectToWallet_busy by done. cbn [fst]. split_and!; try done.
  unfold connectCalls at 1. simpl. rewrite connectCalls_snoc. simpl. lia.
Qed.

Lemma connect_while_connecting_is_noop_witness :
  isConnecting connectingPage = true /\
  connectToWallet codeUnitCompare (Some suiet) true connectingPage
  = (connectingPage, Fulfilled).
Proof.
  assert (H : isConnecting connectingPage = true) by (vm_compute; reflexivity).
  split; [exact H|].
  destruct (connect_while_connecting_is_noop codeUnitCompare) as (Hnoop & _).
  exact (Hnoop (Some suiet) true connectingPage H).
Defined.

(** C6. A connect attempt that fails, because the capability rejects,
    because no account can be chosen from what it returned, or because
    the capability cannot be called or throws in the call, ends in the
    [catch] block: the error is logged to the console, the promise of
    [connectToWallet] is fulfilled and never rejected, and the connecting
    flag is cleared.  Started with no wallet and no account selected, the
    attempt ends with none selected, whatever other events reach the
    widget while the capability is awaited. *)
Theorem failed_connect_is_logged_and_contained (localeCompare : string -> string -> Z)
    (wallet : Wallet) (persistSelection : bool) (st : State) :
  (forall answer,
     connectFails wallet answer ->
     let r := connectToWallet_resume localeCompare wallet persistSelection answer st in
     snd r = Fulfilled /\ isConnecting (fst r) = false /\
     (exists e b,
        trace (fst r) =
        trace st ++ [ConsoleError "Wallet connection failed:" e; UpdateWalletBridgeState b]) /\
     (selectedWallet st = None -> selectedAccount st = None ->
      selectedWallet (fst r) = None /\ selectedAccount (fst r) = None)) /\
  (isConnecting st = false ->
   w_features wallet !! "standard:connect" <> Some Callable ->
   let r := connectToWallet localeCompare (Some wallet) persistSelection st in
   snd r = Fulfilled /\ isConnecting (fst r) = false /\
   (exists e b,
      last (trace (fst r)) = Some (UpdateWalletBridgeState b) /\
      ConsoleError "Wallet connection failed:" e ∈ trace (fst r)) /\
   (selectedWallet st = None -> selectedAccount st = None ->
    selectedWallet (fst r) = None /\ selectedAccount (fst r) = None)) /\
  (selectedWallet st = None -> selectedAccount st = None -> isConnecting st = false ->
   w_features wallet !! "standard:connect" = Some Callable ->
   forall between answer,
     forallb (fun ev => negb (settlesConnect ev)) between = true ->
     connectFails wallet answer ->
     let st' :=
       run localeCompare (WalletOptionClick wallet :: between ++ [ConnectSettles answer]) st in
     isConnecting st' = false /\ selectedWallet st' = None /\ selectedAccount st' = None /\
     exists e, ConsoleError "Wallet connection failed:" e ∈ trace st').
Proof.
  split; [|split].
  - intros answer Hfails.
    destruct (connectToWallet_resume_failed localeCompare wallet persistSelection answer st
                Hfails) as [e Hr].
    cbv zeta. rewrite Hr.
    destruct (connectFinish_selection localeCompare (Some e) st) as (Hw & Ha & _ & _ & Hc).
    destruct (connectFinish_trace localeCompare (Some e) st) as [b Ht].
    cbv zeta in *. split_and!; [done | done | by eauto |].
    intros Hnw Hna. by rewrite Hw, Ha.
  - intros Hflag Hfeature.
    destruct (connectToWallet_not_callable localeCompare wallet persistSelection st
                Hflag Hfeature) as (e & s & Hr & Hw & Ha & _).
    cbv zeta. rewrite Hr.
    destruct (connectFinish_selection localeCompare (Some e) s) as (Hw' & Ha' & _ & _ & Hc).
    destruct (connectFinish_trace localeCompare (Some e) s) as [b Ht].
    cbv zeta in *. split_and!; [done | done | |].
    + exists e, b. rewrite Ht. split.
      * by rewrite last_app.
      * rewrite elem_of_app. right. by left.
    + intros Hnw Hna. by rewrite Hw', Ha', Hw, Ha.
  - intros Hw Ha Hflag Hfeature between answer Hbetween Hfails.
    destruct (connectToWallet_suspends localeCompare wallet true st Hflag Hfeature)
      as (d & b & Hclick).
    cbv zeta. unfold run. cbn [foldl]. rewrite foldl_app. cbn [foldl].
    change (step localeCompare (WalletOptionClick wallet) st)
      with (fst (connectToWallet localeCompare (Some wallet) true st)).
    rewrite Hclick. cbn [fst].
    match goal with
    | |- context [foldl ?f ?s between] =>
        pose proof (run_inFlight localeCompare between s (wallet, true) Hbetween) as Hwait;
        unfold run in Hwait; set (st2 := foldl f s between) in *
    end.
    assert (Hst2 : inFlight st2 = (None, None, true, Some (wallet, true))).
    { apply Hwait. unfold inFlight. simpl. by rewrite Hw, Ha. }
    injection Hst2 as Hw2 Ha2 _ Hpending.
    unfold step. rewrite Hpending.
    destruct (connectToWallet_resume_failed localeCompare wallet true answer
                (set_pendingConnect None st2) Hfails) as [e ->].
    destruct (connectFinish_selection localeCompare (Some e) (set_pendingConnect None st2))
      as (-> & -> & _ & _ & ->).
    destruct (connectFinish_trace localeCompare (Some e) (set_pendingConnect None st2))
      as [b' ->].
    split_and!; [done | done | done |].
    exists e. rewrite elem_of_app. right. by left.
Qed.

Lemma failed_connect_is_logged_and_contained_witness :
  let st' :=
    run codeUnitCompare
      (WalletOptionClick slush
         :: [WalletOptionClick suiet; TriggerClick; DocumentKeydown "Escape"]
         ++ [ConnectSettles (Resolved (Some {| cr_accounts := Some [] |}))])
      mountedPage in
  isConnecting st' = false /\ selectedWallet st' = None /\ selectedAccount st' = None /\
  exists e, ConsoleError "Wallet connection failed:" e ∈ trace st'.
Proof.
  destruct (failed_connect_is_logged_and_contained codeUnitCompare slush true mountedPage)
    as (_ & _ & Hrun).
  apply Hrun; vm_compute; reflexivity.
Defined.

(** C10. A failed connect attempt leaves the selection as it found it:
    neither the request nor the failing settlement changes the selected
    wallet, the selected account, the persisted preference or the change
    subscription.  A widget connected to A that attempts B and fails is
    still connected to A, with the same account and preference. *)
Theorem failed_connect_keeps_selection (localeCompare : string -> string -> Z)
    (wallet : Wallet) (persistSelection : bool) (st : State) :
  (let st' := fst (connectToWallet localeCompare (Some wallet) persistSelection st) in
   selectedWallet st' = selectedWallet st /\ selectedAccount st' = selectedAccount st /\
   storage st' = storage st /\ walletEventsUnsubscribe st' = walletEventsUnsubscribe st) /\
  (forall answer,
     connectFails wallet answer ->
     let st' :=
       fst (connectToWallet_resume localeCompare wallet persistSelection answer st) in
     selectedWallet st' = selectedWallet st /\ selectedAccount st' = selectedAccount st /\
     storage st' = storage st /\ walletEventsUnsubscribe st' = walletEventsUnsubscribe st) /\
  (isConnecting st = false ->
   w_features wallet !! "standard:connect" = Some Callable ->
   forall answer,
     connectFails wallet answer ->
     let st' := run localeCompare [WalletOptionClick wallet; ConnectSettles answer] st in
     selectedWallet st' = selectedWallet st /\ selectedAccount st' = selectedAccount st /\
     storage st' = storage st /\ walletEventsUnsubscribe st' = walletEventsUnsubscribe st /\
     isConnecting st' = false).
Proof.
  split; [|split].
  - apply connectToWallet_selection.
  - intros answer Hfails.
    destruct (connectToWallet_resume_failed localeCompare wallet persistSelection answer st
                Hfails) as [e Hr].
    cbv zeta. rewrite Hr.
    by destruct (connectFinish_selection localeCompare (Some e) st)
      as (-> & -> & -> & -> & _).
  - intros Hflag Hfeature answer Hfails.
    destruct (connectToWallet_suspends localeCompare wallet true st Hflag Hfeature)
      as (d & b & Hclick).
    cbv zeta. unfold run. cbn [foldl]. unfold step. rewrite Hclick. simpl.
    match goal with
    | |- context [connectToWallet_resume localeCompare wallet true answer ?s] =>
        destruct (connectToWallet_resume_failed localeCompare wallet true answer s Hfails)
          as [e ->];
        destruct (connectFinish_selection localeCompare (Some e) s)
          as (-> & -> & -> & -> & ->)
    end.
    done.
Qed.

Lemma failed_connect_keeps_selection_witness :
  let st' :=
    run codeUnitCompare
      [WalletOptionClick suiet; ConnectSettles (Rejected "User rejected the request")]
      connectedPage in
  selectedWallet st' = selectedWallet connectedPage /\
  selectedAccount st' = selectedAccount connectedPage /\
  storage st' = storage connectedPage /\
  walletEventsUnsubscribe st' = walletEventsUnsubscribe connectedPage /\
  isConnecting st' = false.
Proof.
  destruct (failed_connect_keeps_selection codeUnitCompare suiet true connectedPage)
    as (_ & _ & Hrun).
  apply Hrun; [vm_compute; reflexivity | vm_compute; reflexivity | exact I].
Defined.

(** C7, as the code has it.  With working storage: an explicit disconnect
    of the selected wallet clears the persisted preference, whether the
    disconnect capability is absent, throws, resolves or rejects; a failed
    connect attempt leaves the preference as it was, since neither the
    request nor the failure cleanup writes to storage; a connect that
    succeeds with [persistSelection] stores the identifier of the wallet;
    and in every state reached from the initial one the preference names
    whichever wallet is selected. *)
Theorem preference_cleared_on_disconnect_kept_on_failure
    (localeCompare : string -> string -> Z) :
  (forall st answer,
     storageOk st = true -> is_Some (selectedWallet st) ->
     storage (run localeCompare [CallDisconnect; DisconnectSettles answer] st) = None) /\
  (forall wallet persistSelection st,
     storage (fst (connectToWallet localeCompare wallet persistSelection st)) = storage st) /\
  (forall wallet persistSelection answer st,
     connectFails wallet answer ->
     storage (fst (connectToWallet_resume localeCompare wallet persistSelection answer st))
     = storage st) /\
  (forall wallet answer st,
     storageOk st = true -> ~ connectFails wallet answer ->
     storage (fst (connectToWallet_resume localeCompare wallet true answer st))
     = Some (getWalletIdentifier (Some wallet))) /\
  (forall doc wallets stored evs w,
     let st := run localeCompare evs (initialState doc wallets stored true) in
     selectedWallet st = Some w -> storage st = Some (getWalletIdentifier (Some w))).
Proof.
  split_and!.
  - intros st answer Hok Hsel. unfold run. cbn [foldl]. unfold step at 2.
    destruct (disconnectWallet_cases localeCompare st Hok Hsel) as [Hok1 Hcases].
    cbv zeta in *. unfold step.
    destruct (pendingDisconnects (fst (disconnectWallet localeCompare st))) as [|n] eqn:Hn.
    + destruct Hcases as [[_ Hnone] | [_ Hpending]]; [exact Hnone | discriminate].
    + by apply disconnectWallet_resume_storage.
  - intros wallet persistSelection st.
    apply (connectToWallet_selection localeCompare wallet persistSelection st).
  - intros wallet persistSelection answer st Hfails.
    destruct (connectToWallet_resume_failed localeCompare wallet persistSelection answer st
                Hfails) as [e ->].
    apply (connectFinish_selection localeCompare (Some e) st).
  - intros wallet answer st Hok Hsucceeds. unfold connectToWallet_resume.
    destruct answer as [connectResult|e]; [|by destruct Hsucceeds].
    pose proof (connectTry_tracked wallet true connectResult st Hok) as Htry.
    destruct (connectTry wallet true connectResult st) as [st1 thrown]. cbn [fst] in Htry.
    pose proof (connectFinish_tracked localeCompare thrown st1) as Hfinish.
    rewrite Htry in Hfinish. unfold connectFails in Hsucceeds.
    destruct (getPreferredAccount (returnedAccounts wallet connectResult)); [|done].
    exact (f_equal (fun t : Tracked => snd (fst (fst (fst t)))) Hfinish).
  - intros doc wallets stored evs w st Hsel.
    pose proof (run_preserves localeCompare evs _
                  (initialState_tracksSelection doc wallets stored)) as HJ.
    fold st in HJ. unfold preferenceTracksSelection, tracked, tracksSelection in HJ.
    destruct HJ as (_ & Hnamed & _). by apply Hnamed.
Qed.

Lemma preference_cleared_on_disconnect_kept_on_failure_witness :
  storage connectedPage = Some "Slush" /\
  storage (run codeUnitCompare [CallDisconnect; DisconnectSettles (Resolved ())] connectedPage)
  = None.
Proof.
  split; [vm_compute; reflexivity|].
  destruct (preference_cleared_on_disconnect_kept_on_failure codeUnitCompare)
    as (Hdisconnect & _).
  apply Hdisconnect; [vm_compute; reflexivity | vm_compute; eauto].
Defined.

(** C7 as stated fails: the preference names Slush, the user picks Suiet,
    Suiet rejects; the failure is logged, the connecting flag is cleared,
    and the preference still names Slush. *)
Lemma connect_failure_cleanup_keeps_preference :
  let st' :=
    run codeUnitCompare
      [WalletOptionClick suiet; ConnectSettles (Rejected "User rejected the request")]
      returningPage in
  storage returningPage = Some "Slush" /\
  trace st' !! 3 =
  Some (ConsoleError "Wallet connection failed:" "User rejected the request") /\
  isConnecting st' = false /\
  storage st' = Some "Slush".
Proof. vm_compute. by split_and!. Qed.

(** C9, as the code has it.  A mount that renders the widget attaches one
    register handler, one unregister handler, one document click handler
    and one document keydown handler.  The [unmount] of its handle calls
    the unsubscribe function of the per-wallet change subscription, if
    there is one, and forgets the mounted container; the registry and
    document handlers stay attached, and the rendered page is left as it
    is.  The handle returned for a container that is already mounted does
    nothing. *)
Theorem unmount_detaches_change_subscription_only (localeCompare : string -> string -> Z) :
  (forall target st c,
     snd (mountWalletConnectButton localeCompare target st) = Some (WidgetHandle c) ->
     listeners (fst (mountWalletConnectButton localeCompare target st)) =
     (S (registerHandlers st), S (unregisterHandlers st), clickHandlers st ++ [c],
      S (keydownHandlers st))) /\
  (forall c st,
     let st' := unmount (WidgetHandle c) st in
     walletEventsUnsubscribe st' = None /\ listeners st' = listeners st /\
     pageDom st' = pageDom st /\
     (forall w, walletEventsUnsubscribe st = Some w ->
                trace st' = trace st ++ [EventsOff w]) /\
     (mountedContainer st = Some c -> mountedContainer st' = None)) /\
  (forall target st,
     snd (mountWalletConnectButton localeCompare target st) = Some NoopHandle ->
     fst (mountWalletConnectButton localeCompare target st) = st) /\
  (forall st, unmount NoopHandle st = st).
Proof.
  split_and!.
  - apply mountWalletConnectButton_listeners.
  - apply unmount_keeps.
  - apply mountWalletConnectButton_repeat.
  - reflexivity.
Qed.

Lemma unmount_detaches_change_subscription_only_witness :
  walletEventsUnsubscribe (unmount (WidgetHandle 7) connectedPage) = None /\
  listeners (unmount (WidgetHandle 7) connectedPage) = listeners connectedPage /\
  pageDom (unmount (WidgetHandle 7) connectedPage) = pageDom connectedPage /\
  mountedContainer (unmount (WidgetHandle 7) connectedPage) = None.
Proof.
  destruct (unmount_detaches_change_subscription_only codeUnitCompare) as (_ & Hunmount & _).
  destruct (Hunmount 7 connectedPage) as (Hsub & Hlisteners & Hdom & _ & Hmounted).
  split_and!; [exact Hsub | exact Hlisteners | exact Hdom |].
  apply Hmounted. vm_compute. reflexivity.
Defined.

(** C9 as stated fails: after mount and unmount the registry and document
    handlers are still attached, and a wallet that registers afterwards
    still sets off an auto-reconnect through the register handler. *)
Lemma unmount_leaves_registry_and_document_handlers :
  snd (mountWalletConnectButton codeUnitCompare (TargetId "wallet-connect")
         (initialState samplePage [] (Some "Slush") true)) = Some (WidgetHandle 7) /\
  listeners unmountedPage = (1, 1, [7], 1) /\
  connectCalls unmountedPage = 0 /\
  connectCalls (step codeUnitCompare (RegistryRegister [slush]) unmountedPage) = 1.
Proof. vm_compute. by split_and!. Qed.

(** * Further properties *)

(** ** Strings *)

Lemma string_length_append (a b : string) :
  String.length (a +:+ b) = String.length a + String.length b.
Proof. induction a as [|c a IH]; simpl; [done | by rewrite IH]. Qed.

Lemma string_length_substring (s : string) (n m : nat) :
  n + m <= String.length s -> String.length (String.substring n m s) = m.
Proof.
  revert n m. induction s as [|c s IH]; intros [|n] [|m]; simpl; intros Hle;
    try done; try lia.
  - rewrite IH; [done | lia].
  - apply IH. lia.
  - apply IH. lia.
Qed.

(** X1. [truncateAddress] returns an address of fewer than twelve
    characters as it is.  A longer one becomes thirteen characters: its
    first six, three dots, and its last four; so an address of exactly
    twelve characters comes out one character longer than it went in. *)
Theorem truncateAddress_shape (address : string) :
  (String.length address < 12 -> truncateAddress address = address) /\
  (12 <= String.length address ->
   let short := truncateAddress address in
   String.length short = 13 /\
   (forall i, i < 6 -> String.get i short = String.get i address) /\
   (forall i, i < 3 -> String.get (6 + i) short = String.get i "...") /\
   (forall i, i < 4 ->
      String.get (9 + i) short = String.get (String.length address - 4 + i) address)).
Proof.
  unfold truncateAddress, lastFour. split.
  - intros Hshort. apply Nat.ltb_lt in Hshort. by rewrite Hshort.
  - intros Hlong. assert (Hnot : Nat.ltb (String.length address) 12 = false)
      by (apply Nat.ltb_ge; lia).
    rewrite Hnot. cbv zeta.
    assert (Hsix : String.length (String.substring 0 6 address) = 6)
      by (apply string_length_substring; lia).
    split_and!.
    + rewrite !string_length_append, Hsix, string_length_substring; [done | lia].
    + intros i Hi. rewrite <- String.append_correct1 by lia.
      rewrite String.substring_correct1 by lia. by rewrite Nat.add_0_r.
    + intros i Hi.
      rewrite <- Hsix at 1. rewrite (Nat.add_comm _ i), <- String.append_correct2.
      apply eq_sym, String.append_correct1. simpl. lia.
    + intros i Hi.
      replace (9 + i) with (i + 3 + String.length (String.substring 0 6 address))
        by (rewrite Hsix; lia).
      rewrite <- String.append_correct2.
      change 3 with (String.length "...").
      rewrite <- (String.append_correct2 "...").
      rewrite String.substring_correct1 by exact Hi.
      f_equal. lia.
Qed.

Lemma truncateAddress_shape_witness :
  truncateAddress "0x77e0" = "0x77e0" /\
  String.length (truncateAddress "0xabc4f2d1e0") = 13.
Proof.
  split.
  - apply (proj1 (truncateAddress_shape "0x77e0")). simpl. lia.
  - apply (proj2 (truncateAddress_shape "0xabc4f2d1e0")). simpl. lia.
Defined.

(** ** Storage *)

(** X2. Reading the preference back returns what was last written: the
    identifier of the wallet, or nothing after a removal, and a later
    write replaces an earlier one.  When storage throws, writing changes
    nothing and reading yields no preference. *)
Theorem preferred_wallet_round_trip (wallet later : option Wallet) (st : State) :
  (storageOk st = true ->
   getPreferredWalletId (persistPreferredWallet wallet st) =
   match wallet with
   | Some w => Some (getWalletIdentifier (Some w))
   | None => None
   end) /\
  (storageOk st = false ->
   persistPreferredWallet wallet st = st /\ getPreferredWalletId st = None) /\
  persistPreferredWallet later (persistPreferredWallet wallet st) =
  persistPreferredWallet later st.
Proof.
  unfold getPreferredWalletId, persistPreferredWallet. split_and!.
  - intros Hok. rewrite Hok. destruct wallet; simpl; by rewrite Hok.
  - by intros ->.
  - destruct (storageOk st) eqn:Hok; [|by rewrite Hok].
    destruct wallet, later; simpl; by rewrite Hok.
Qed.

Lemma preferred_wallet_round_trip_witness :
  getPreferredWalletId (persistPreferredWallet (Some suiet) freshPage) = Some "suiet-wallet".
Proof.
  apply (proj1 (preferred_wallet_round_trip (Some suiet) None freshPage)). reflexivity.
Defined.

(** ** Signer *)


(** ** The rendered widget *)

Lemma widget_withEls (f : WidgetDom -> WidgetDom) (st : State) :
  widget (withEls f st) = f <$> widget st.
Proof.
  unfold widget, withEls. destruct (widgetEls st) as [c|] eqn:Hc; simpl; [|by rewrite Hc].
  by rewrite Hc; simpl; rewrite lookup_alter_eq.
Qed.

Lemma refreshButtonUi_eq (st : State) :
  refreshButtonUi st =
  withEls (showButton (buttonFor (isConnecting st) (selectedAccount st))) st.
Proof.
  unfold refreshButtonUi, buttonFor, showButton.
  by destruct (isConnecting st), (selectedAccount st).
Qed.

Lemma renderWalletList_eq (localeCompare : string -> string -> Z) (st : State) :
  renderWalletList localeCompare st =
  withEls (setWalletListChildren (listFor localeCompare (registry st) (selectedWallet st))) st.
Proof.
  unfold renderWalletList, listFor, getConnectableWallets.
  by destruct (sortBy _ _).
Qed.

(** A change to the widget that touches neither the button nor the list. *)
Lemma uiView_withEls (f : WidgetDom -> WidgetDom) (st : State) :
  (forall d, buttonShown (f d) = buttonShown d) ->
  (forall d, walletListChildren (f d) = walletListChildren d) ->
  uiView (withEls f st) = uiView st.
Proof.
  intros Hb Hl. unfold uiView. rewrite widget_withEls, <- !option_fmap_compose.
  rewrite (option_fmap_ext (buttonShown ∘ f) buttonShown) by exact Hb.
  rewrite (option_fmap_ext (walletListChildren ∘ f) walletListChildren) by exact Hl.
  destruct (withEls_is f st) as [d ->]. reflexivity.
Qed.

Lemma uiView_closeWalletPicker (st : State) : uiView (closeWalletPicker st) = uiView st.
Proof. by apply uiView_withEls. Qed.

Lemma uiView_openWalletPicker (st : State) : uiView (openWalletPicker st) = uiView st.
Proof. by apply uiView_withEls. Qed.

Lemma uiView_toggleWalletPicker (st : State) : uiView (toggleWalletPicker st) = uiView st.
Proof. by apply uiView_withEls. Qed.

Lemma uiView_emit (e : Effect) (st : State) : uiView (emit e st) = uiView st.
Proof. reflexivity. Qed.

Lemma uiView_syncBridgeState (st : State) : uiView (syncBridgeState st) = uiView st.
Proof. by destruct (syncBridgeState_is st) as [b ->]. Qed.

Lemma uiView_persistPreferredWallet (wallet : option Wallet) (st : State) :
  uiView (persistPreferredWallet wallet st) = uiView st.
Proof. by destruct (persistPreferredWallet_is wallet st) as [v ->]. Qed.

Lemma uiView_cleanupWalletEvents (st : State) : uiView (cleanupWalletEvents st) = uiView st.
Proof. by destruct (cleanupWalletEvents_is st) as [es [-> _]]. Qed.

Lemma uiView_subscribeToWalletEvents (wallet : Wallet) (st : State) :
  uiView (fst (subscribeToWalletEvents wallet st)) = uiView st.
Proof.
  unfold subscribeToWalletEvents.
  destruct (w_features wallet !! "standard:events") as [[]|]; cbn [fst];
    rewrite ?uiView_emit; apply uiView_cleanupWalletEvents.
Qed.

Lemma uiView_refreshButtonUi (st : State) :
  uiView (refreshButtonUi st) = refreshed (uiView st).
Proof.
  rewrite refreshButtonUi_eq. unfold uiView, refreshed.
  rewrite widget_withEls, <- !option_fmap_compose.
  set (b := buttonFor (isConnecting st) (selectedAccount st)).
  rewrite (option_fmap_ext (buttonShown ∘ showButton b) ((fun _ => b) ∘ buttonShown))
    by done.
  rewrite (option_fmap_ext (walletListChildren ∘ showButton b) walletListChildren) by done.
  by destruct (withEls_is (showButton b) st) as [d ->].
Qed.

Lemma uiView_renderWalletList (localeCompare : string -> string -> Z) (st : State) :
  uiView (renderWalletList localeCompare st) = rerendered localeCompare (uiView st).
Proof.
  rewrite renderWalletList_eq. unfold uiView, rerendered.
  rewrite widget_withEls, <- !option_fmap_compose.
  set (l := listFor localeCompare (registry st) (selectedWallet st)).
  rewrite (option_fmap_ext (buttonShown ∘ setWalletListChildren l) buttonShown) by done.
  rewrite (option_fmap_ext (walletListChildren ∘ setWalletListChildren l)
             ((fun _ => l) ∘ walletListChildren)) by done.
  by destruct (withEls_is (setWalletListChildren l) st) as [d ->].
Qed.

Lemma uiView_set_pendingConnect (v : option (Wallet * bool)) (st : State) :
  uiView (set_pendingConnect v st) = uiView st.
Proof. reflexivity. Qed.

Lemma uiView_set_pendingDisconnects (v : nat) (st : State) :
  uiView (set_pendingDisconnects v st) = uiView st.
Proof. reflexivity. Qed.

Lemma uiView_set_mountedContainer (v : option Container) (st : State) :
  uiView (set_mountedContainer v st) = uiView st.
Proof. reflexivity. Qed.

Lemma uiView_set_walletEventsUnsubscribe (v : option Wallet) (st : State) :
  uiView (set_walletEventsUnsubscribe v st) = uiView st.
Proof. reflexivity. Qed.

Create Rewrite HintDb uiview.
#[local] Hint Rewrite uiView_set_pendingConnect uiView_set_pendingDisconnects
  uiView_set_mountedContainer uiView_set_walletEventsUnsubscribe : uiview.
#[local] Hint Rewrite uiView_closeWalletPicker uiView_openWalletPicker
  uiView_toggleWalletPicker uiView_emit uiView_syncBridgeState
  uiView_persistPreferredWallet uiView_cleanupWalletEvents
  uiView_refreshButtonUi uiView_renderWalletList : uiview.

Lemma fmap_const_Some {A B : Type} (b b' : B) (mx : option A) :
  (fun _ => b) <$> mx = Some b' -> b' = b.
Proof. destruct mx; [by intros [= <-] | done]. Qed.

(** Reduce [uiSynced] of the result of an operation to facts about the
    state it started from. *)
Ltac ui_view :=
  unfold uiSynced in *; autorewrite with uiview;
  unfold uiView, widget, refreshed, rerendered in *; simpl in *.

Ltac ui_synced :=
  ui_view; ui_open;
  repeat match goal with
    | H : _ /\ _ |- _ => destruct H
    end;
  split_and!; eauto using fmap_const_Some.

Section Rendered.
Variable localeCompare : string -> string -> Z.

Lemma connectFinish_uiSynced (thrown : option string) (st : State) :
  uiSynced localeCompare st ->
  uiSynced localeCompare (fst (connectFinish localeCompare thrown st)).
Proof.
  intros HS. unfold connectFinish. destruct thrown; cbn [fst]; ui_synced.
Qed.
Lemma connectToWallet_uiSynced (wallet : option Wallet) (persistSelection : bool)
    (st : State) :
  uiSynced localeCompare st ->
  uiSynced localeCompare (fst (connectToWallet localeCompare wallet persistSelection st)).
Proof.
  intros HS. unfold connectToWallet. destruct wallet as [w|]; [|done].
  destruct (isConnecting st); [done|].
  destruct (w_features w !! "standard:connect") as [[]|]; cbn [fst];
    try (apply connectFinish_uiSynced); ui_synced.
Qed.

Lemma attemptAutoReconnect_uiSynced (st : State) :
  uiSynced localeCompare st -> uiSynced localeCompare (attemptAutoReconnect localeCompare st).
Proof.
  intros HS. unfold attemptAutoReconnect.
  destruct (getPreferredWalletId st); [|done].
  destruct (_ || _ || _); [done|].
  destruct (List.find _ _); [|done].
  by apply connectToWallet_uiSynced.
Qed.

(** The handlers of the registry, whatever the connect attempt did to the
    selection. *)
Lemma connectTry_handlers (wallet : Wallet) (persistSelection : bool)
    (connectResult : option ConnectResult) (st : State) :
  let st' := fst (connectTry wallet persistSelection connectResult st) in
  widgetEls st' = widgetEls st /\ registerHandlers st' = registerHandlers st /\
  unregisterHandlers st' = unregisterHandlers st.
Proof.
  unfold connectTry. destruct (getPreferredAccount _); [|done].
  match goal with
  | |- context [subscribeToWalletEvents wallet ?s] =>
      pose proof (uiView_subscribeToWalletEvents wallet s) as Hsub;
      destruct (subscribeToWalletEvents wallet s) as [s' [e|]]
  end; cbn [fst] in *.
  - unfold uiView in Hsub. injection Hsub as _ _ _ _ _ _ -> -> ->.
    destruct persistSelection; by ui_open.
  - destruct (closeWalletPicker_is s') as [d ->].
    unfold uiView in Hsub. injection Hsub as _ _ _ _ _ _ Hels Hr Hu.
    simpl. rewrite Hels, Hr, Hu. destruct persistSelection; by ui_open.
Qed.

Lemma connectToWallet_resume_uiSynced (wallet : Wallet) (persistSelection : bool)
    (answer : Settled (option ConnectResult)) (st : State) :
  uiSynced localeCompare st ->
  uiSynced localeCompare
    (fst (connectToWallet_resume localeCompare wallet persistSelection answer st)).
Proof.
  intros HS. unfold connectToWallet_resume.
  destruct answer as [connectResult|e]; [|by apply connectFinish_uiSynced].
  pose proof (connectTry_handlers wallet persistSelection connectResult st) as Hh.
  destruct (connectTry wallet persistSelection connectResult st) as [st1 thrown].
  cbv zeta in Hh. cbn [fst] in Hh. destruct Hh as (Hels & Hr & Hu).
  unfold connectFinish. destruct thrown; cbn [fst]; ui_view;
    rewrite Hels, Hr, Hu; destruct HS as (_ & _ & HH);
    split_and!; eauto using fmap_const_Some.
Qed.

Lemma disconnectFinish_uiSynced (thrown : option string) (st : State) :
  uiSynced localeCompare st ->
  uiSynced localeCompare (fst (disconnectFinish localeCompare thrown st)).
Proof.
  intros HS. unfold disconnectFinish. destruct thrown; cbn [fst]; ui_synced.
Qed.

Lemma disconnectWallet_uiSynced (st : State) :
  uiSynced localeCompare st ->
  uiSynced localeCompare (fst (disconnectWallet localeCompare st)).
Proof.
  intros HS. unfold disconnectWallet. destruct (selectedWallet st) as [sel|]; [|done].
  destruct (w_features sel !! "standard:disconnect") as [[]|];
    try (apply disconnectFinish_uiSynced); cbn [fst]; ui_synced.
Qed.

Lemma onWalletChange_uiSynced (wallet : Wallet) (accounts : option (list Account))
    (st : State) :
  uiSynced localeCompare st ->
  uiSynced localeCompare (onWalletChange localeCompare wallet accounts st).
Proof.
  intros HS. unfold onWalletChange. destruct (selectedWallet st) as [sel|] eqn:Hsel; [|done].
  destruct (negb (sameWallet wallet sel)); [done|].
  destruct (getPreferredAccount _); ui_synced.
Qed.

Lemma onRegister_uiSynced (st : State) :
  (forall b, buttonShown <$> widget st = Some b ->
             b = buttonFor (isConnecting st) (selectedAccount st)) ->
  (is_Some (widgetEls st) -> 0 < registerHandlers st /\ 0 < unregisterHandlers st) ->
  uiSynced localeCompare (onRegister localeCompare st).
Proof.
  intros HB HH. unfold onRegister. apply attemptAutoReconnect_uiSynced.
  unfold widget in HB. ui_synced.
Qed.

Lemma onUnregister_uiSynced (st : State) :
  (is_Some (widgetEls st) -> 0 < registerHandlers st /\ 0 < unregisterHandlers st) ->
  uiSynced localeCompare (onUnregister localeCompare st).
Proof.
  intros HH. unfold onUnregister. destruct (selectedWallet st) as [sel|].
  - destruct (negb (existsb _ _)); ui_synced.
  - ui_synced.
Qed.

(** One handler call is enough to bring the list up to date, and there
    is one whenever a widget is rendered. *)
Lemma iter_handler_uiSynced (f : State -> State) (n : nat) (snapshot : list Wallet)
    (st : State) :
  (is_Some (widgetEls st) -> 0 < n) ->
  (forall s, uiSynced localeCompare s -> uiSynced localeCompare (f s)) ->
  (forall s,
     (forall b, buttonShown <$> widget s = Some b ->
                b = buttonFor (isConnecting s) (selectedAccount s)) ->
     (is_Some (widgetEls s) -> 0 < registerHandlers s /\ 0 < unregisterHandlers s) ->
     uiSynced localeCompare (f s)) ->
  uiSynced localeCompare st ->
  uiSynced localeCompare (Nat.iter n f (set_registry snapshot st)).
Proof.
  intros Hn Hkeep Hfix HS.
  assert (HB : forall b, buttonShown <$> widget (set_registry snapshot st) = Some b ->
                         b = buttonFor (isConnecting st) (selectedAccount st))
    by apply HS.
  assert (HH : is_Some (widgetEls st) -> 0 < registerHandlers st /\ 0 < unregisterHandlers st)
    by apply HS.
  destruct n as [|n].
  - simpl. destruct (widgetEls st) as [c|] eqn:Hels.
    + exfalso. assert (0 < 0) by (apply Hn; eauto). lia.
    + unfold uiSynced, uiView, widget. simpl. rewrite Hels. simpl.
      split_and!; [done | done | by intros [? ?]].
  - simpl. assert (Hfirst : uiSynced localeCompare (f (set_registry snapshot st)))
      by (by apply Hfix).
    clear -Hfirst Hkeep. induction n as [|n IH]; simpl; [done|].
    (* one more call on top *)
    revert IH. generalize (f (set_registry snapshot st)). intros s0 _.
    assert (Hgen : forall k s, uiSynced localeCompare s ->
                               uiSynced localeCompare (Nat.iter k f s)).
    { intros k. induction k as [|k IHk]; simpl; intros s Hs; [done|].
      apply Hkeep. by apply IHk. }
    apply Hkeep.
    replace (f (Nat.iter n f (set_registry snapshot st)))
      with (Nat.iter (S n) f (set_registry snapshot st)) by done.
    rewrite Nat.iter_succ_r. by apply Hgen.
Qed.
Lemma mountWalletConnectButton_uiSynced (target : Target) (st : State) :
  uiSynced localeCompare st ->
  uiSynced localeCompare (fst (mountWalletConnectButton localeCompare target st)).
Proof.
  intros HS. unfold mountWalletConnectButton, attachGlobalHandlers.
  destruct (match target with
            | TargetId i => document st !! i
            | TargetElement c => Some c
            | TargetNull => None
            end) as [c|]; [|done].
  destruct (bool_decide (mountedContainer st = Some c)); [done|]. cbn [fst].
  apply attemptAutoReconnect_uiSynced. ui_view.
  split_and!; eauto using fmap_const_Some. intros _. lia.
Qed.

Lemma unmount_uiSynced (h : Handle) (st : State) :
  uiSynced localeCompare st -> uiSynced localeCompare (unmount h st).
Proof.
  intros HS. unfold unmount. destruct h; [done|].
  destruct (bool_decide _); ui_synced.
Qed.

Lemma onDocumentClick_uiSynced (inside : bool) (st : State) :
  uiSynced localeCompare st -> uiSynced localeCompare (onDocumentClick inside st).
Proof.
  intros HS. unfold onDocumentClick. destruct (negb (pickerOpen st)); [done|].
  destruct (negb inside); [|done]. ui_synced.
Qed.

Lemma onDocumentKeydown_uiSynced (key : string) (st : State) :
  uiSynced localeCompare st -> uiSynced localeCompare (onDocumentKeydown key st).
Proof.
  intros HS. unfold onDocumentKeydown. destruct (String.eqb key "Escape"); [|done].
  ui_synced.
Qed.

Lemma iter_uiSynced (f : State -> State) (n : nat) (st : State) :
  (forall s, uiSynced localeCompare s -> uiSynced localeCompare (f s)) ->
  uiSynced localeCompare st -> uiSynced localeCompare (Nat.iter n f st).
Proof.
  intros Hf HS. induction n as [|n IH]; simpl; [done | by apply Hf].
Qed.

Lemma foldl_uiSynced {B : Type} (f : State -> B -> State) (l : list B) (st : State) :
  (forall s b, uiSynced localeCompare s -> uiSynced localeCompare (f s b)) ->
  uiSynced localeCompare st -> uiSynced localeCompare (foldl f st l).
Proof.
  intros Hf. revert st. induction l as [|b l IH]; simpl; intros st HS; [done|].
  apply IH. by apply Hf.
Qed.

Lemma step_uiSynced (ev : Event) (st : State) :
  uiSynced localeCompare st -> uiSynced localeCompare (step localeCompare ev st).
Proof.
  intros HS. destruct ev; unfold step.
  - by apply mountWalletConnectButton_uiSynced.
  - by apply unmount_uiSynced.
  - by apply connectToWallet_uiSynced.
  - by apply disconnectWallet_uiSynced.
  - destruct (pendingConnect st) as [[wallet persistSelection]|]; [|done].
    apply connectToWallet_resume_uiSynced. revert HS. unfold uiSynced.
    by rewrite uiView_set_pendingConnect.
  - destruct (pendingDisconnects st) as [|n]; [done|].
    unfold disconnectWallet_resume.
    destruct answer; apply disconnectFinish_uiSynced; revert HS; unfold uiSynced;
      by rewrite uiView_set_pendingDisconnects.
  - destruct (walletEventsUnsubscribe st); [|done]. by apply onWalletChange_uiSynced.
  - apply iter_handler_uiSynced; [| | |done].
    + intros Hels. by apply HS.
    + intros s Hs. apply onRegister_uiSynced; apply Hs.
    + apply onRegister_uiSynced.
  - apply iter_handler_uiSynced; [| | |done].
    + intros Hels. by apply HS.
    + intros s Hs. apply onUnregister_uiSynced; apply Hs.
    + intros s _. apply onUnregister_uiSynced.
  - apply foldl_uiSynced; [|done]. intros s c. apply onDocumentClick_uiSynced.
  - apply iter_uiSynced; [apply onDocumentKeydown_uiSynced | done].
  - unfold onTriggerClick. destruct (selectedAccount st); ui_synced.
Qed.

Lemma run_uiSynced (evs : list Event) (st : State) :
  uiSynced localeCompare st -> uiSynced localeCompare (run localeCompare evs st).
Proof.
  unfold run. revert st. induction evs as [|ev evs IH]; intros st HS; simpl; [done|].
  apply IH. by apply step_uiSynced.
Qed.
End Rendered.

(** X4. The rendered widget always shows the current state.  In every
    state reached from the initial one, the trigger button is disabled
    exactly while a connect attempt is in flight and then reads
    "Connecting...", otherwise it shows the truncated address of the
    selected account or the invitation to connect; the disconnect control
    is hidden exactly when no account is selected; and the picker lists
    the connectable wallets of the registry in order, marking those with
    the identifier of the selected wallet, or shows the empty-state
    message when there is none. *)
Theorem rendered_widget_shows_state (localeCompare : string -> string -> Z)
    (doc : gmap string Container) (wallets : list Wallet) (stored : option string)
    (ok : bool) (evs : list Event) :
  let st := run localeCompare evs (initialState doc wallets stored ok) in
  forall d,
    widget st = Some d ->
    buttonDisabled d = isConnecting st /\
    (disconnectHidden d = true <-> selectedAccount st = None) /\
    buttonText d =
    (if isConnecting st then "Connecting..."
     else match selectedAccount st with
          | Some a => "ðŸ”— " +:+ truncateAddress (address a)
          | None => "ðŸ”— Connect Wallet"
          end) /\
    walletListChildren d =
    match getConnectableWallets localeCompare st with
    | [] => [EmptyState "No Sui wallet detected. Install a wallet extension to continue."]
    | connectable => map (walletOption st) connectable
    end.
Proof.
  intros st d Hd.
  assert (HS : uiSynced localeCompare st).
  { apply run_uiSynced. unfold uiSynced, uiView, widget. simpl.
    split_and!; [done | done | by intros [? ?]]. }
  destruct HS as (HB & HL & _). simpl in HB, HL.
  specialize (HB (buttonShown d)). specialize (HL (walletListChildren d)).
  rewrite Hd in HB, HL. specialize (HB eq_refl). specialize (HL eq_refl).
  unfold buttonShown, buttonFor in HB. injection HB as Htext Hdisabled Hhidden.
  split_and!; [done | | done |].
  - rewrite Hhidden. apply bool_decide_eq_true.
  - rewrite HL. unfold listFor, getConnectableWallets. by destruct (sortBy _ _).
Qed.

Lemma rendered_widget_shows_state_witness :
  let st :=
    run codeUnitCompare
      [CallMount (TargetId "wallet-connect"); WalletOptionClick slush;
       ConnectSettles slushAnswer]
      (initialState samplePage [suiet; ledgerOnly; slush] None true) in
  exists d,
    widget st = Some d /\ buttonDisabled d = false /\ disconnectHidden d = false /\
    buttonText d = "ðŸ”— 0xabc4...5f10".
Proof.
  intros st. assert (Hd : is_Some (widget st)) by (vm_compute; eauto).
  destruct Hd as [d Hd]. exists d. split; [exact Hd|].
  destruct (rendered_widget_shows_state codeUnitCompare samplePage
              [suiet; ledgerOnly; slush] None true
              [CallMount (TargetId "wallet-connect"); WalletOptionClick slush;
               ConnectSettles slushAnswer] d Hd) as (Hdisabled & Hhidden & Htext & _).
  fold st in Hdisabled, Hhidden, Htext.
  assert (Hflag : isConnecting st = false) by (vm_compute; reflexivity).
  assert (Haccount : selectedAccount st = Some mainnetAccount) by (vm_compute; reflexivity).
  clearbody st. clear Hd.
  rewrite Hflag in Hdisabled, Htext. rewrite Haccount in Htext, Hhidden.
  split; [exact Hdisabled|]. split.
  - destruct (disconnectHidden d); [|reflexivity].
    discriminate (proj1 Hhidden eq_refl).
  - rewrite Htext. vm_compute. reflexivity.
Defined.

(** ** The bridge *)

Lemma syncBridgeState_eq (st : State) :
  syncBridgeState st =
  emit (UpdateWalletBridgeState
          (bridgeFor (selectedWallet st) (selectedAccount st) (isConnecting st))) st.
Proof.
  unfold syncBridgeState, bridgeFor. by destruct (selectedWallet st), (selectedAccount st).
Qed.

Lemma lastPublish_emit (e : Effect) (st : State) :
  lastPublish (emit e st) =
  match publishedBy e with
  | Some b => Some b
  | None => lastPublish st
  end.
Proof.
  unfold lastPublish, emit. simpl. rewrite omap_app, last_app. simpl.
  by destruct (publishedBy e).
Qed.

Lemma lastPublish_quiet (es : list Effect) (st : State) :
  Forall (fun e => isConnectCall e = false /\ isPublish e = false) es ->
  last (omap publishedBy (trace st ++ es)) = lastPublish st.
Proof.
  intros Hes. unfold lastPublish. rewrite omap_app, last_app.
  replace (omap publishedBy es) with (@nil BridgeState); [done|].
  induction Hes as [|e es [_ He] _ IH]; [done|]. simpl.
  destruct e; simpl in *; try done.
Qed.

Lemma bridgeView_syncBridgeState (st : State) :
  bridgeView (syncBridgeState st) = republished (bridgeView st).
Proof.
  rewrite syncBridgeState_eq. unfold bridgeView. by rewrite lastPublish_emit.
Qed.

Lemma bridgeView_emit (e : Effect) (st : State) :
  isPublish e = false -> bridgeView (emit e st) = bridgeView st.
Proof.
  intros He. unfold bridgeView. rewrite lastPublish_emit. by destruct e.
Qed.

Lemma bridgeView_withEls (f : WidgetDom -> WidgetDom) (st : State) :
  bridgeView (withEls f st) = bridgeView st.
Proof. by destruct (withEls_is f st) as [d ->]. Qed.

Lemma bridgeView_refreshButtonUi (st : State) : bridgeView (refreshButtonUi st) = bridgeView st.
Proof. by destruct (refreshButtonUi_is st) as [d ->]. Qed.

Lemma bridgeView_renderWalletList (cmp : string -> string -> Z) (st : State) :
  bridgeView (renderWalletList cmp st) = bridgeView st.
Proof. by destruct (renderWalletList_is cmp st) as [d ->]. Qed.

Lemma bridgeView_closeWalletPicker (st : State) :
  bridgeView (closeWalletPicker st) = bridgeView st.
Proof. apply bridgeView_withEls. Qed.

Lemma bridgeView_openWalletPicker (st : State) : bridgeView (openWalletPicker st) = bridgeView st.
Proof. apply bridgeView_withEls. Qed.

Lemma bridgeView_toggleWalletPicker (st : State) :
  bridgeView (toggleWalletPicker st) = bridgeView st.
Proof. apply bridgeView_withEls. Qed.

Lemma bridgeView_persistPreferredWallet (wallet : option Wallet) (st : State) :
  bridgeView (persistPreferredWallet wallet st) = bridgeView st.
Proof. by destruct (persistPreferredWallet_is wallet st) as [v ->]. Qed.

Lemma bridgeView_cleanupWalletEvents (st : State) :
  bridgeView (cleanupWalletEvents st) = bridgeView st.
Proof.
  destruct (cleanupWalletEvents_is st) as [es [-> Hes]].
  unfold bridgeView. simpl. f_equal. unfold lastPublish at 1. simpl.
  by apply lastPublish_quiet.
Qed.

Lemma bridgeView_subscribeToWalletEvents (wallet : Wallet) (st : State) :
  bridgeView (fst (subscribeToWalletEvents wallet st)) = bridgeView st.
Proof.
  unfold subscribeToWalletEvents.
  destruct (w_features wallet !! "standard:events") as [[]|]; cbn [fst];
    rewrite ?bridgeView_emit by done; try apply bridgeView_cleanupWalletEvents.
  change (bridgeView (emit (EventsOn wallet) (cleanupWalletEvents st))
          = bridgeView st).
  rewrite bridgeView_emit by done. apply bridgeView_cleanupWalletEvents.
Qed.

Lemma bridgeView_set_pendingConnect (v : option (Wallet * bool)) (st : State) :
  bridgeView (set_pendingConnect v st) = bridgeView st.
Proof. reflexivity. Qed.

Lemma bridgeView_set_pendingDisconnects (v : nat) (st : State) :
  bridgeView (set_pendingDisconnects v st) = bridgeView st.
Proof. reflexivity. Qed.

Lemma bridgeView_set_mountedContainer (v : option Container) (st : State) :
  bridgeView (set_mountedContainer v st) = bridgeView st.
Proof. reflexivity. Qed.

Lemma bridgeView_set_registry (v : list Wallet) (st : State) :
  bridgeView (set_registry v st) = bridgeView st.
Proof. reflexivity. Qed.

Create Rewrite HintDb bridgeview.
#[local] Hint Rewrite bridgeView_syncBridgeState bridgeView_refreshButtonUi
  bridgeView_renderWalletList bridgeView_closeWalletPicker bridgeView_openWalletPicker
  bridgeView_toggleWalletPicker bridgeView_persistPreferredWallet
  bridgeView_cleanupWalletEvents bridgeView_set_pendingConnect
  bridgeView_set_pendingDisconnects bridgeView_set_mountedContainer
  bridgeView_set_registry : bridgeview.
#[local] Hint Rewrite bridgeView_emit using reflexivity : bridgeview.

Lemma bridgeCurrent_view (st : State) :
  bridgeCurrent st <->
  (let '(wallet, account, busy, published) := bridgeView st in
   forall b, published = Some b -> b = bridgeFor wallet account busy).
Proof. reflexivity. Qed.

(** Bring [bridgeCurrent] of the result of an operation down to the view
    of the state it started from. *)
Ltac bridge_current :=
  rewrite bridgeCurrent_view in *; autorewrite with bridgeview;
  try (unfold republished, bridgeView in *; simpl in *; intros ? [= <-]; reflexivity);
  try assumption.

Section Bridge.
Variable localeCompare : string -> string -> Z.

Lemma connectFinish_bridgeCurrent (thrown : option string) (st : State) :
  bridgeCurrent (fst (connectFinish localeCompare thrown st)).
Proof. unfold connectFinish. destruct thrown; cbn [fst]; bridge_current. Qed.

Lemma connectToWallet_bridgeCurrent (wallet : option Wallet) (persistSelection : bool)
    (st : State) :
  bridgeCurrent st ->
  bridgeCurrent (fst (connectToWallet localeCompare wallet persistSelection st)).
Proof.
  intros HS. unfold connectToWallet. destruct wallet as [w|]; [|done].
  destruct (isConnecting st); [done|].
  destruct (w_features w !! "standard:connect") as [[]|]; cbn [fst];
    try apply connectFinish_bridgeCurrent.
  bridge_current.
Qed.

Lemma attemptAutoReconnect_bridgeCurrent (st : State) :
  bridgeCurrent st -> bridgeCurrent (attemptAutoReconnect localeCompare st).
Proof.
  intros HS. unfold attemptAutoReconnect.
  destruct (getPreferredWalletId st); [|done].
  destruct (_ || _ || _); [done|].
  destruct (List.find _ _); [|done].
  by apply connectToWallet_bridgeCurrent.
Qed.

Lemma connectToWallet_resume_bridgeCurrent (wallet : Wallet) (persistSelection : bool)
    (answer : Settled (option ConnectResult)) (st : State) :
  bridgeCurrent
    (fst (connectToWallet_resume localeCompare wallet persistSelection answer st)).
Proof.
  unfold connectToWallet_resume. destruct answer as [connectResult|e].
  - destruct (connectTry wallet persistSelection connectResult st) as [st1 thrown].
    apply connectFinish_bridgeCurrent.
  - apply connectFinish_bridgeCurrent.
Qed.

Lemma disconnectFinish_bridgeCurrent (thrown : option string) (st : State) :
  bridgeCurrent (fst (disconnectFinish localeCompare thrown st)).
Proof. unfold disconnectFinish. destruct thrown; cbn [fst]; bridge_current. Qed.

Lemma disconnectWallet_bridgeCurrent (st : State) :
  bridgeCurrent st -> bridgeCurrent (fst (disconnectWallet localeCompare st)).
Proof.
  intros HS. unfold disconnectWallet. destruct (selectedWallet st) as [sel|]; [|done].
  destruct (w_features sel !! "standard:disconnect") as [[]|]; cbn [fst];
    try apply disconnectFinish_bridgeCurrent.
  bridge_current.
Qed.

Lemma onWalletChange_bridgeCurrent (wallet : Wallet) (accounts : option (list Account))
    (st : State) :
  bridgeCurrent st -> bridgeCurrent (onWalletChange localeCompare wallet accounts st).
Proof.
  intros HS. unfold onWalletChange. destruct (selectedWallet st) as [sel|]; [|done].
  destruct (negb (sameWallet wallet sel)); [done|].
  destruct (getPreferredAccount _); bridge_current.
Qed.

Lemma onRegister_bridgeCurrent (st : State) :
  bridgeCurrent st -> bridgeCurrent (onRegister localeCompare st).
Proof.
  intros HS. unfold onRegister. apply attemptAutoReconnect_bridgeCurrent. bridge_current.
Qed.

Lemma onUnregister_bridgeCurrent (st : State) :
  bridgeCurrent st -> bridgeCurrent (onUnregister localeCompare st).
Proof.
  intros HS. unfold onUnregister. destruct (selectedWallet st) as [sel|].
  - destruct (negb (existsb _ _)); bridge_current.
  - bridge_current.
Qed.

Lemma mountWalletConnectButton_bridgeCurrent (target : Target) (st : State) :
  bridgeCurrent st ->
  bridgeCurrent (fst (mountWalletConnectButton localeCompare target st)).
Proof.
  intros HS. unfold mountWalletConnectButton, attachGlobalHandlers.
  destruct (match target with
            | TargetId i => document st !! i
            | TargetElement c => Some c
            | TargetNull => None
            end) as [c|]; cbn [fst].
  - destruct (bool_decide (mountedContainer st = Some c)); [done|]. cbn [fst].
    apply attemptAutoReconnect_bridgeCurrent. bridge_current.
  - bridge_current.
Qed.

Lemma unmount_bridgeCurrent (h : Handle) (st : State) :
  bridgeCurrent st -> bridgeCurrent (unmount h st).
Proof.
  intros HS. unfold unmount. destruct h; [done|].
  assert (Hview : bridgeView (cleanupWalletEvents st) = bridgeView st)
    by apply bridgeView_cleanupWalletEvents.
  destruct (bool_decide _); bridge_current.
Qed.

Lemma iter_bridgeCurrent (f : State -> State) (n : nat) (st : State) :
  (forall s, bridgeCurrent s -> bridgeCurrent (f s)) ->
  bridgeCurrent st -> bridgeCurrent (Nat.iter n f st).
Proof.
  intros Hf HS. induction n as [|n IH]; simpl; [done | by apply Hf].
Qed.

Lemma foldl_bridgeCurrent {B : Type} (f : State -> B -> State) (l : list B) (st : State) :
  (forall s b, bridgeCurrent s -> bridgeCurrent (f s b)) ->
  bridgeCurrent st -> bridgeCurrent (foldl f st l).
Proof.
  intros Hf. revert st. induction l as [|b l IH]; simpl; intros st HS; [done|].
  apply IH. by apply Hf.
Qed.

Lemma step_bridgeCurrent (ev : Event) (st : State) :
  bridgeCurrent st -> bridgeCurrent (step localeCompare ev st).
Proof.
  intros HS. destruct ev; unfold step.
  - by apply mountWalletConnectButton_bridgeCurrent.
  - by apply unmount_bridgeCurrent.
  - by apply connectToWallet_bridgeCurrent.
  - by apply disconnectWallet_bridgeCurrent.
  - destruct (pendingConnect st) as [[wallet persistSelection]|]; [|done].
    apply connectToWallet_resume_bridgeCurrent.
  - destruct (pendingDisconnects st) as [|n]; [done|].
    unfold disconnectWallet_resume. destruct answer; apply disconnectFinish_bridgeCurrent.
  - destruct (walletEventsUnsubscribe st); [|done]. by apply onWalletChange_bridgeCurrent.
  - apply iter_bridgeCurrent; [apply onRegister_bridgeCurrent | bridge_current].
  - apply iter_bridgeCurrent; [apply onUnregister_bridgeCurrent | bridge_current].
  - apply foldl_bridgeCurrent; [|done]. intros s c Hs. unfold onDocumentClick.
    destruct (negb (pickerOpen s)); [done|]. destruct (negb (inside c)); [|done].
    bridge_current.
  - apply iter_bridgeCurrent; [|done]. intros s Hs. unfold onDocumentKeydown.
    destruct (String.eqb key "Escape"); [|done]. bridge_current.
  - unfold onTriggerClick. destruct (selectedAccount st); bridge_current.
Qed.

Lemma run_bridgeCurrent (evs : list Event) (st : State) :
  bridgeCurrent st -> bridgeCurrent (run localeCompare evs st).
Proof.
  unfold run. revert st. induction evs as [|ev evs IH]; intros st HS; simpl; [done|].
  apply IH. by apply step_bridgeCurrent.
Qed.
End Bridge.

(** X5. The bridge is never stale.  In every state reached from the
    initial one, what was published to the bridge last is what
    [syncBridgeState] would publish now: every change of the selected
    wallet, the selected account or the connecting flag is followed by a
    publish before the event that made it ends. *)
Theorem bridge_holds_current_state (localeCompare : string -> string -> Z)
    (doc : gmap string Container) (wallets : list Wallet) (stored : option string)
    (ok : bool) (evs : list Event) :
  let st := run localeCompare evs (initialState doc wallets stored ok) in
  forall b,
    lastPublish st = Some b ->
    syncBridgeState st = emit (UpdateWalletBridgeState b) st /\
    (b_status b = connected <->
     is_Some (selectedWallet st) /\ is_Some (selectedAccount st)) /\
    (b_status b = connecting <->
     isConnecting st = true /\ (selectedWallet st = None \/ selectedAccount st = None)).
Proof.
  intros st b Hb.
  assert (HS : bridgeCurrent st) by (apply run_bridgeCurrent; intros ? [=]).
  rewrite (HS b Hb), syncBridgeState_eq. split; [done|].
  unfold bridgeFor.
  destruct (selectedWallet st), (selectedAccount st), (isConnecting st); simpl;
    split; split; try done; try (intros [? ?]; done); try (intros [[? ?] [? ?]]; done);
    try (intros [? [?|?]]; done); eauto.
Qed.

Lemma bridge_holds_current_state_witness :
  let st :=
    run codeUnitCompare
      [CallMount (TargetId "wallet-connect"); WalletOptionClick slush;
       ConnectSettles slushAnswer]
      (initialState samplePage [suiet; ledgerOnly; slush] None true) in
  exists b, lastPublish st = Some b /\ b_status b = connected.
Proof.
  intros st. assert (Hb : is_Some (lastPublish st)) by (vm_compute; eauto).
  destruct Hb as [b Hb]. exists b. split; [exact Hb|].
  destruct (bridge_holds_current_state codeUnitCompare samplePage
              [suiet; ledgerOnly; slush] None true
              [CallMount (TargetId "wallet-connect"); WalletOptionClick slush;
               ConnectSettles slushAnswer] b Hb) as (_ & Hconnected & _).
  apply Hconnected. vm_compute. eauto.
Defined.

(** ** Subscriptions *)

Lemma subsView_emit (e : Effect) (st : State) :
  isSubscribe e = false -> isUnsubscribe e = false -> subsView (emit e st) = subsView st.
Proof.
  intros Hs Hu. unfold subsView, emit. simpl.
  rewrite !List.filter_app, !length_app. simpl. rewrite Hs, Hu. simpl.
  by rewrite !Nat.add_0_r.
Qed.

Lemma subsView_syncBridgeState (st : State) : subsView (syncBridgeState st) = subsView st.
Proof. destruct (syncBridgeState_is st) as [b ->]. by apply subsView_emit. Qed.

Lemma subsView_withEls (f : WidgetDom -> WidgetDom) (st : State) :
  subsView (withEls f st) = subsView st.
Proof. by destruct (withEls_is f st) as [d ->]. Qed.

Lemma subsView_refreshButtonUi (st : State) : subsView (refreshButtonUi st) = subsView st.
Proof. by destruct (refreshButtonUi_is st) as [d ->]. Qed.

Lemma subsView_renderWalletList (cmp : string -> string -> Z) (st : State) :
  subsView (renderWalletList cmp st) = subsView st.
Proof. by destruct (renderWalletList_is cmp st) as [d ->]. Qed.

Lemma subsView_closeWalletPicker (st : State) : subsView (closeWalletPicker st) = subsView st.
Proof. apply subsView_withEls. Qed.

Lemma subsView_openWalletPicker (st : State) : subsView (openWalletPicker st) = subsView st.
Proof. apply subsView_withEls. Qed.

Lemma subsView_toggleWalletPicker (st : State) : subsView (toggleWalletPicker st) = subsView st.
Proof. apply subsView_withEls. Qed.

Lemma subsView_persistPreferredWallet (wallet : option Wallet) (st : State) :
  subsView (persistPreferredWallet wallet st) = subsView st.
Proof. by destruct (persistPreferredWallet_is wallet st) as [v ->]. Qed.

Create Rewrite HintDb subsview.
#[local] Hint Rewrite subsView_syncBridgeState subsView_refreshButtonUi
  subsView_renderWalletList subsView_closeWalletPicker subsView_openWalletPicker
  subsView_toggleWalletPicker subsView_persistPreferredWallet : subsview.
#[local] Hint Rewrite subsView_emit using reflexivity : subsview.

(** Look through the helpers and the field updates that leave the
    subscription and the trace alone. *)
Ltac subs_view :=
  unfold subscriptionsBalanced in *;
  repeat first
    [ progress autorewrite with subsview
    | match goal with
      | |- context [subsView (?f ?v ?s)] => progress change (subsView (f v s)) with (subsView s)
      end ].

Lemma cleanupWalletEvents_balanced (st : State) :
  subscriptionsBalanced st ->
  subscriptionsBalanced (cleanupWalletEvents st) /\
  walletEventsUnsubscribe (cleanupWalletEvents st) = None.
Proof.
  unfold subscriptionsBalanced, subsView, balancedView, cleanupWalletEvents, emit.
  destruct (walletEventsUnsubscribe st) as [w|] eqn:Hw; simpl; intros HS.
  - split; [|reflexivity]. rewrite !List.filter_app, !length_app. simpl. lia.
  - rewrite Hw. by split.
Qed.

Lemma subscribeToWalletEvents_balanced (wallet : Wallet) (st : State) :
  subscriptionsBalanced st ->
  subscriptionsBalanced (fst (subscribeToWalletEvents wallet st)).
Proof.
  intros HS. destruct (cleanupWalletEvents_balanced st HS) as [Hclean Hnone].
  unfold subscribeToWalletEvents.
  destruct (w_features wallet !! "standard:events") as [[]|] eqn:Hfeature; cbn [fst];
    try done.
  - revert Hclean. unfold subscriptionsBalanced, subsView, balancedView, emit. simpl.
    rewrite Hnone, !List.filter_app, !length_app. simpl. rewrite Hfeature. simpl. lia.
  - revert Hclean. unfold subscriptionsBalanced, subsView, balancedView, emit. simpl.
    rewrite Hnone, !List.filter_app, !length_app. simpl. rewrite Hfeature. simpl. lia.
Qed.

Section Subscriptions.
Variable localeCompare : string -> string -> Z.

Lemma connectFinish_balanced (thrown : option string) (st : State) :
  subscriptionsBalanced st ->
  subscriptionsBalanced (fst (connectFinish localeCompare thrown st)).
Proof. intros HS. unfold connectFinish. destruct thrown; cbn [fst]; by subs_view. Qed.

Lemma connectToWallet_balanced (wallet : option Wallet) (persistSelection : bool)
    (st : State) :
  subscriptionsBalanced st ->
  subscriptionsBalanced (fst (connectToWallet localeCompare wallet persistSelection st)).
Proof.
  intros HS. unfold connectToWallet. destruct wallet as [w|]; [|done].
  destruct (isConnecting st); [done|].
  destruct (w_features w !! "standard:connect") as [[]|]; cbn [fst];
    try apply connectFinish_balanced; by subs_view.
Qed.

Lemma attemptAutoReconnect_balanced (st : State) :
  subscriptionsBalanced st -> subscriptionsBalanced (attemptAutoReconnect localeCompare st).
Proof.
  intros HS. unfold attemptAutoReconnect.
  destruct (getPreferredWalletId st); [|done].
  destruct (_ || _ || _); [done|].
  destruct (List.find _ _); [|done].
  by apply connectToWallet_balanced.
Qed.

Lemma connectToWallet_resume_balanced (wallet : Wallet) (persistSelection : bool)
    (answer : Settled (option ConnectResult)) (st : State) :
  subscriptionsBalanced st ->
  subscriptionsBalanced
    (fst (connectToWallet_resume localeCompare wallet persistSelection answer st)).
Proof.
  intros HS. unfold connectToWallet_resume.
  destruct answer as [connectResult|e]; [|by apply connectFinish_balanced].
  assert (Htry : subscriptionsBalanced
                   (fst (connectTry wallet persistSelection connectResult st))).
  { unfold connectTry. destruct (getPreferredAccount _); [|done].
    match goal with
    | |- context [subscribeToWalletEvents wallet ?s] =>
        assert (Hsub : subscriptionsBalanced (fst (subscribeToWalletEvents wallet s)))
          by (apply subscribeToWalletEvents_balanced; destruct persistSelection;
              by subs_view);
        destruct (subscribeToWalletEvents wallet s) as [s' [e|]]
    end; cbn [fst] in *; by subs_view. }
  destruct (connectTry wallet persistSelection connectResult st) as [st1 thrown].
  by apply connectFinish_balanced.
Qed.

Lemma disconnectFinish_balanced (thrown : option string) (st : State) :
  subscriptionsBalanced st ->
  subscriptionsBalanced (fst (disconnectFinish localeCompare thrown st)).
Proof.
  intros HS. unfold disconnectFinish.
  destruct thrown; cbn [fst]; subs_view; apply cleanupWalletEvents_balanced;
    by subs_view.
Qed.

Lemma disconnectWallet_balanced (st : State) :
  subscriptionsBalanced st ->
  subscriptionsBalanced (fst (disconnectWallet localeCompare st)).
Proof.
  intros HS. unfold disconnectWallet. destruct (selectedWallet st) as [sel|]; [|done].
  destruct (w_features sel !! "standard:disconnect") as [[]|]; cbn [fst];
    try apply disconnectFinish_balanced; by subs_view.
Qed.

Lemma onWalletChange_balanced (wallet : Wallet) (accounts : option (list Account))
    (st : State) :
  subscriptionsBalanced st ->
  subscriptionsBalanced (onWalletChange localeCompare wallet accounts st).
Proof.
  intros HS. unfold onWalletChange. destruct (selectedWallet st) as [sel|]; [|done].
  destruct (negb (sameWallet wallet sel)); [done|].
  destruct (getPreferredAccount _); by subs_view.
Qed.

Lemma onUnregister_balanced (st : State) :
  subscriptionsBalanced st -> subscriptionsBalanced (onUnregister localeCompare st).
Proof.
  intros HS. unfold onUnregister. destruct (selectedWallet st) as [sel|].
  - destruct (negb (existsb _ _)); subs_view; [|done].
    by apply cleanupWalletEvents_balanced.
  - by subs_view.
Qed.

Lemma onRegister_balanced (st : State) :
  subscriptionsBalanced st -> subscriptionsBalanced (onRegister localeCompare st).
Proof.
  intros HS. unfold onRegister. apply attemptAutoReconnect_balanced. by subs_view.
Qed.

Lemma mountWalletConnectButton_balanced (target : Target) (st : State) :
  subscriptionsBalanced st ->
  subscriptionsBalanced (fst (mountWalletConnectButton localeCompare target st)).
Proof.
  intros HS. unfold mountWalletConnectButton, attachGlobalHandlers.
  destruct (match target with
            | TargetId i => document st !! i
            | TargetElement c => Some c
            | TargetNull => None
            end) as [c|]; cbn [fst].
  - destruct (bool_decide (mountedContainer st = Some c)); [done|]. cbn [fst].
    apply attemptAutoReconnect_balanced. by subs_view.
  - by subs_view.
Qed.

Lemma unmount_balanced (h : Handle) (st : State) :
  subscriptionsBalanced st -> subscriptionsBalanced (unmount h st).
Proof.
  intros HS. unfold unmount. destruct h; [done|].
  destruct (cleanupWalletEvents_balanced st HS) as [Hclean _].
  destruct (bool_decide _); by subs_view.
Qed.

Lemma iter_balanced (f : State -> State) (n : nat) (st : State) :
  (forall s, subscriptionsBalanced s -> subscriptionsBalanced (f s)) ->
  subscriptionsBalanced st -> subscriptionsBalanced (Nat.iter n f st).
Proof.
  intros Hf HS. induction n as [|n IH]; simpl; [done | by apply Hf].
Qed.

Lemma foldl_balanced {B : Type} (f : State -> B -> State) (l : list B) (st : State) :
  (forall s b, subscriptionsBalanced s -> subscriptionsBalanced (f s b)) ->
  subscriptionsBalanced st -> subscriptionsBalanced (foldl f st l).
Proof.
  intros Hf. revert st. induction l as [|b l IH]; simpl; intros st HS; [done|].
  apply IH. by apply Hf.
Qed.

Lemma step_balanced (ev : Event) (st : State) :
  subscriptionsBalanced st -> subscriptionsBalanced (step localeCompare ev st).
Proof.
  intros HS. destruct ev; unfold step.
  - by apply mountWalletConnectButton_balanced.
  - by apply unmount_balanced.
  - by apply connectToWallet_balanced.
  - by apply disconnectWallet_balanced.
  - destruct (pendingConnect st) as [[wallet persistSelection]|]; [|done].
    apply connectToWallet_resume_balanced. by subs_view.
  - destruct (pendingDisconnects st) as [|n]; [done|].
    unfold disconnectWallet_resume.
    destruct answer; apply disconnectFinish_balanced; by subs_view.
  - destruct (walletEventsUnsubscribe st); [|done]. by apply onWalletChange_balanced.
  - apply iter_balanced; [apply onRegister_balanced | by subs_view].
  - apply iter_balanced; [apply onUnregister_balanced | by subs_view].
  - apply foldl_balanced; [|done]. intros s c Hs. unfold onDocumentClick.
    destruct (negb (pickerOpen s)); [done|]. destruct (negb (inside c)); [|done].
    by subs_view.
  - apply iter_balanced; [|done]. intros s Hs. unfold onDocumentKeydown.
    destruct (String.eqb key "Escape"); [|done]. by subs_view.
  - unfold onTriggerClick. destruct (selectedAccount st); by subs_view.
Qed.

Lemma run_balanced (evs : list Event) (st : State) :
  subscriptionsBalanced st -> subscriptionsBalanced (run localeCompare evs st).
Proof.
  unfold run. revert st. induction evs as [|ev evs IH]; intros st HS; simpl; [done|].
  apply IH. by apply step_balanced.
Qed.
End Subscriptions.

(** X6. Change subscriptions never pile up and are never released twice.
    In every state reached from the initial one, the subscriptions the
    widget has taken are the ones it has released plus the one it still
    holds, if it holds one: before a new subscription is taken, and on
    disconnect, unregister and unmount, the unsubscribe function held is
    called and dropped. *)
Theorem change_subscriptions_balanced (localeCompare : string -> string -> Z)
    (doc : gmap string Container) (wallets : list Wallet) (stored : option string)
    (ok : bool) (evs : list Event) :
  let st := run localeCompare evs (initialState doc wallets stored ok) in
  length (List.filter isSubscribe (trace st)) =
  length (List.filter isUnsubscribe (trace st))
  + match walletEventsUnsubscribe st with Some _ => 1 | None => 0 end.
Proof.
  intros st.
  assert (HS : subscriptionsBalanced st) by (by apply run_balanced).
  exact HS.
Qed.

(** ** The picker *)

Lemma pickerOpen_widget (st : State) :
  pickerOpen st = from_option (fun d => negb (pickerHidden d)) false (widget st).
Proof. unfold pickerOpen, widget. by destruct (widgetEls st ≫= _). Qed.

Lemma widget_refreshButtonUi (st : State) :
  pickerHidden <$> widget (refreshButtonUi st) = pickerHidden <$> widget st.
Proof.
  rewrite refreshButtonUi_eq, widget_withEls, <- option_fmap_compose.
  by apply option_fmap_ext.
Qed.

Lemma widget_renderWalletList (cmp : string -> string -> Z) (st : State) :
  pickerHidden <$> widget (renderWalletList cmp st) = pickerHidden <$> widget st.
Proof.
  rewrite renderWalletList_eq, widget_withEls, <- option_fmap_compose.
  by apply option_fmap_ext.
Qed.

Lemma widget_syncBridgeState (st : State) : widget (syncBridgeState st) = widget st.
Proof. by destruct (syncBridgeState_is st) as [b ->]. Qed.

Lemma pickerOpen_hidden (st st' : State) :
  pickerHidden <$> widget st' = pickerHidden <$> widget st -> pickerOpen st' = pickerOpen st.
Proof.
  rewrite !pickerOpen_widget. destruct (widget st'), (widget st); simpl; try done.
  by intros [= ->].
Qed.

(** Rendering the button, the list and the bridge leaves the picker as
    open or closed as it was. *)
Lemma pickerOpen_rendered (cmp : string -> string -> Z) (st : State) :
  pickerOpen (syncBridgeState (renderWalletList cmp (refreshButtonUi st))) = pickerOpen st.
Proof.
  apply pickerOpen_hidden.
  by rewrite widget_syncBridgeState, widget_renderWalletList, widget_refreshButtonUi.
Qed.

Lemma pickerOpen_closeWalletPicker (st : State) : pickerOpen (closeWalletPicker st) = false.
Proof.
  rewrite pickerOpen_widget. unfold closeWalletPicker. rewrite widget_withEls.
  by destruct (widget st).
Qed.





(** ** A connect attempt that succeeds *)

Section Connected.
Variable localeCompare : string -> string -> Z.

(** What [subscribeToWalletEvents] leaves in [walletEventsUnsubscribe]. *)
Lemma subscribeToWalletEvents_held (wallet : Wallet) (st : State) :
  walletEventsUnsubscribe (fst (subscribeToWalletEvents wallet st)) =
  match w_features wallet !! "standard:events" with
  | Some Callable => Some wallet
  | _ => None
  end.
Proof.
  unfold subscribeToWalletEvents.
  destruct (w_features wallet !! "standard:events") as [[]|]; by ui_open.
Qed.

Lemma subscribeToWalletEvents_thrown (wallet : Wallet) (st : State) :
  snd (subscribeToWalletEvents wallet st) =
  match w_features wallet !! "standard:events" with
  | Some (ThrowsSync e) => Some e
  | _ => None
  end.
Proof.
  unfold subscribeToWalletEvents.
  by destruct (w_features wallet !! "standard:events") as [[]|].
Qed.

Lemma subscribeToWalletEvents_widget (wallet : Wallet) (st : State) :
  widget (fst (subscribeToWalletEvents wallet st)) = widget st.
Proof.
  unfold subscribeToWalletEvents, widget.
  destruct (w_features wallet !! "standard:events") as [[]|]; by ui_open.
Qed.

Lemma connectFinish_held (thrown : option string) (st : State) :
  let st' := fst (connectFinish localeCompare thrown st) in
  walletEventsUnsubscribe st' = walletEventsUnsubscribe st /\
  pickerOpen st' = pickerOpen st /\
  lastPublish st' =
  Some (bridgeFor (selectedWallet st) (selectedAccount st) false).
Proof.
  unfold connectFinish. cbn [fst]. split_and!.
  - destruct thrown; by ui_open.
  - rewrite pickerOpen_rendered. apply pickerOpen_hidden. by destruct thrown.
  - match goal with
    | |- lastPublish ?s = _ =>
        assert (Hview : bridgeView s = republished (bridgeView
                          (set_isConnecting false
                             match thrown with
                             | Some e => emit (ConsoleError "Wallet connection failed:" e) st
                             | None => st
                             end)))
          by (by autorewrite with bridgeview)
    end.
    unfold bridgeView, republished in Hview. simpl in Hview.
    injection Hview as _ _ _ ->. by destruct thrown.
Qed.

(** X8. When the connect capability resolves with accounts from which one
    can be chosen and the change subscription does not throw, the wallet
    and the chosen account are selected, the connecting flag is cleared,
    the picker is closed and the bridge is told [connected].  The wallet's
    change events are subscribed to when it offers them.  The preference
    is written when the selection is to be persisted and storage works,
    and is left alone otherwise. *)
Theorem connect_success (wallet : Wallet) (persistSelection : bool)
    (connectResult : option ConnectResult) (account : Account) (st : State) :
  getPreferredAccount (returnedAccounts wallet connectResult) = Some account ->
  (forall e, w_features wallet !! "standard:events" <> Some (ThrowsSync e)) ->
  let outcome :=
    connectToWallet_resume localeCompare wallet persistSelection (Resolved connectResult) st in
  let st' := fst outcome in
  snd outcome = Fulfilled /\
  selectedWallet st' = Some wallet /\ selectedAccount st' = Some account /\
  isConnecting st' = false /\ pickerOpen st' = false /\
  walletEventsUnsubscribe st' =
  match w_features wallet !! "standard:events" with
  | Some Callable => Some wallet
  | _ => None
  end /\
  (exists b, lastPublish st' = Some b /\ b_status b = connected /\
             b_wallet b = Some wallet /\ b_account b = Some account) /\
  storage st' =
  (if persistSelection && storageOk st then Some (getWalletIdentifier (Some wallet))
   else storage st).
Proof.
  intros Haccount Hevents. cbv zeta. unfold connectToWallet_resume.
  assert (Htry : exists s1,
             connectTry wallet persistSelection connectResult st = (s1, None) /\
             selectedWallet s1 = Some wallet /\ selectedAccount s1 = Some account /\
             pickerOpen s1 = false /\
             walletEventsUnsubscribe s1 =
             match w_features wallet !! "standard:events" with
             | Some Callable => Some wallet
             | _ => None
             end /\
             storage s1 =
             (if persistSelection && storageOk st
              then Some (getWalletIdentifier (Some wallet)) else storage st)).
  { unfold connectTry. rewrite Haccount.
    match goal with
    | |- context [subscribeToWalletEvents wallet ?s] =>
        pose proof (subscribeToWalletEvents_held wallet s) as Hheld;
        pose proof (subscribeToWalletEvents_thrown wallet s) as Hthrown;
        pose proof (subscribeToWalletEvents_selection wallet s) as (Hw & Ha & Hs);
        destruct (subscribeToWalletEvents wallet s) as [s' thrown]
    end.
    cbn [fst snd] in *.
    assert (thrown = None) as ->.
    { rewrite Hthrown. destruct (w_features wallet !! "standard:events") as [[|e|]|];
        try done. by destruct (Hevents e). }
    eexists. split; [reflexivity|].
    rewrite pickerOpen_closeWalletPicker.
    destruct (closeWalletPicker_is s') as [d ->]. simpl.
    rewrite Hw, Ha, Hs, Hheld.
    split_and!; try done; destruct persistSelection; simpl; try done.
    all: try (by ui_open).
    unfold persistPreferredWallet. simpl. by destruct (storageOk st). }
  destruct Htry as (s1 & -> & Hw & Ha & Hpicker & Hheld & Hstorage).
  cbn [fst].
  destruct (connectFinish_selection localeCompare None s1) as (Hw' & Ha' & Hs' & _ & Hflag).
  destruct (connectFinish_held None s1) as (Hh' & Hp' & Hpub).
  cbv zeta in *. rewrite Hw', Ha', Hs', Hh', Hp', Hflag, Hpub, Hw, Ha.
  split_and!; try done.
  eexists. split; [reflexivity|]. done.
Qed.
End Connected.

Lemma connect_success_witness :
  let st' := fst (connectToWallet_resume codeUnitCompare slush true slushAnswer connectingPage) in
  selectedWallet st' = Some slush /\ selectedAccount st' = Some mainnetAccount /\
  pickerOpen st' = false /\ storage st' = Some "Slush".
Proof.
  assert (Haccount : getPreferredAccount
                       (returnedAccounts slush
                          (Some {| cr_accounts :=
                                     Some [testnetAccount; mainnetAccount; looseAccount] |}))
                     = Some mainnetAccount) by reflexivity.
  assert (Hevents : forall e, w_features slush !! "standard:events" <> Some (ThrowsSync e)).
  { intros e. vm_compute. discriminate. }
  destruct (connect_success codeUnitCompare slush true _ mainnetAccount connectingPage
              Haccount Hevents) as (_ & Hw & Ha & _ & Hp & _ & _ & Hs).
  cbv zeta. split_and!; [exact Hw | exact Ha | exact Hp |].
  unfold slushAnswer. rewrite Hs. vm_compute. reflexivity.
Defined.

(** X9. When the connect capability resolves with a usable account but
    subscribing to the wallet's change events throws, the attempt is
    logged as a failed connection although the wallet and the account stay
    selected and are published as [connected]; no subscription is held and
    the picker is left as open or closed as it was. *)
Theorem connect_subscription_throws (localeCompare : string -> string -> Z)
    (wallet : Wallet) (persistSelection : bool) (connectResult : option ConnectResult)
    (account : Account) (e : string) (st : State) :
  getPreferredAccount (returnedAccounts wallet connectResult) = Some account ->
  w_features wallet !! "standard:events" = Some (ThrowsSync e) ->
  let outcome :=
    connectToWallet_resume localeCompare wallet persistSelection (Resolved connectResult) st in
  let st' := fst outcome in
  snd outcome = Fulfilled /\
  selectedWallet st' = Some wallet /\ selectedAccount st' = Some account /\
  isConnecting st' = false /\ walletEventsUnsubscribe st' = None /\
  pickerOpen st' = pickerOpen st /\
  ConsoleError "Wallet connection failed:" e ∈ trace st' /\
  exists b, lastPublish st' = Some b /\ b_status b = connected.
Proof.
  intros Haccount Hevents. cbv zeta. unfold connectToWallet_resume.
  assert (Htry : exists s1,
             connectTry wallet persistSelection connectResult st = (s1, Some e) /\
             selectedWallet s1 = Some wallet /\ selectedAccount s1 = Some account /\
             pickerOpen s1 = pickerOpen st /\ walletEventsUnsubscribe s1 = None).
  { unfold connectTry. rewrite Haccount.
    match goal with
    | |- context [subscribeToWalletEvents wallet ?s] =>
        pose proof (subscribeToWalletEvents_held wallet s) as Hheld;
        pose proof (subscribeToWalletEvents_thrown wallet s) as Hthrown;
        pose proof (subscribeToWalletEvents_widget wallet s) as Hwidget;
        pose proof (subscribeToWalletEvents_selection wallet s) as (Hw & Ha & _);
        destruct (subscribeToWalletEvents wallet s) as [s' thrown]
    end.
    cbn [fst snd] in *. rewrite Hevents in Hheld, Hthrown. subst thrown.
    eexists. split; [reflexivity|]. rewrite Hw, Ha, Hheld.
    split_and!; try done; try (destruct persistSelection; by ui_open).
    apply pickerOpen_hidden. rewrite Hwidget. unfold widget.
    destruct persistSelection; by ui_open. }
  destruct Htry as (s1 & -> & Hw & Ha & Hpicker & Hheld). cbn [fst].
  destruct (connectFinish_selection localeCompare (Some e) s1) as (Hw' & Ha' & _ & _ & Hflag).
  destruct (connectFinish_held localeCompare (Some e) s1) as (Hh' & Hp' & Hpub).
  destruct (connectFinish_trace localeCompare (Some e) s1) as [b Htrace].
  cbv zeta in *. rewrite Hw', Ha', Hh', Hp', Hflag, Hpub, Hw, Ha, Htrace.
  split_and!; try done.
  - rewrite elem_of_app. right. by left.
  - eexists. split; [reflexivity|]. done.
Qed.

Lemma connect_subscription_throws_witness :
  let st' := fst (connectToWallet_resume codeUnitCompare brittle true (Resolved None)
                    mountedPage) in
  selectedWallet st' = Some brittle /\
  (ConsoleError "Wallet connection failed:" "events unavailable" ∈ trace st').
Proof.
  cbv zeta.
  destruct (connect_subscription_throws codeUnitCompare brittle true None mainnetAccount
              "events unavailable" mountedPage)
    as (_ & Hw & _ & _ & _ & _ & Hlogged & _);
    [vm_compute; reflexivity | vm_compute; reflexivity |].
  exact (conj Hw Hlogged).
Defined.

(** ** Change events *)

(** X10. A change event is ignored, leaving the state as it is, when no
    wallet is selected or when it comes from a wallet whose identifier is
    not the selected one's.  On the selected wallet, an event that reports
    no accounts clears the selection and the stored preference and
    publishes the widget as not connected, while the change subscription
    stays in place; an event that reports accounts selects the preferred
    one and keeps the wallet, the preference and the subscription. *)
Theorem change_event (localeCompare : string -> string -> Z) (wallet : Wallet)
    (accounts : option (list Account)) (st : State) :
  let reported := default (default [] (w_accounts wallet)) accounts in
  let st' := onWalletChange localeCompare wallet accounts st in
  (selectedWallet st = None -> st' = st) /\
  (forall sel, selectedWallet st = Some sel -> sameWallet wallet sel = false -> st' = st) /\
  (forall sel,
     selectedWallet st = Some sel -> sameWallet wallet sel = true -> reported = [] ->
     selectedWallet st' = None /\ selectedAccount st' = None /\
     walletEventsUnsubscribe st' = walletEventsUnsubscribe st /\
     (storageOk st = true -> storage st' = None) /\
     pickerOpen st' = pickerOpen st /\
     lastPublish st' = Some (bridgeFor None None (isConnecting st))) /\
  (forall sel,
     selectedWallet st = Some sel -> sameWallet wallet sel = true -> reported <> [] ->
     exists account,
       getPreferredAccount (Some reported) = Some account /\
       selectedWallet st' = Some sel /\ selectedAccount st' = Some account /\
       walletEventsUnsubscribe st' = walletEventsUnsubscribe st /\
       storage st' = storage st /\
       lastPublish st' = Some (bridgeFor (Some sel) (Some account) (isConnecting st))).
Proof.
  cbv zeta. unfold onWalletChange. split_and!.
  - by intros ->.
  - by intros sel -> ->.
  - intros sel Hsel Hsame Hempty. rewrite Hsel, Hsame, Hempty. simpl.
    split_and!.
    + by ui_open.
    + by ui_open.
    + by ui_open.
    + intros Hok. ui_stored Hok. done.
    + rewrite pickerOpen_rendered. apply pickerOpen_hidden. unfold widget. by ui_open.
    + match goal with
      | |- lastPublish ?s = _ =>
          assert (Hview : bridgeView s =
                          republished (bridgeView
                            (set_selectedAccount None (set_selectedWallet None st))))
            by (by autorewrite with bridgeview)
      end.
      unfold bridgeView, republished in Hview. simpl in Hview. by injection Hview.
  - intros sel Hsel Hsame Hne. rewrite Hsel, Hsame. simpl.
    destruct (getPreferredAccount_nonempty _ Hne) as (account & Hchosen & _).
    exists account. rewrite Hchosen. split; [done|]. split_and!.
    + by ui_open.
    + by ui_open.
    + by ui_open.
    + by ui_open.
    + match goal with
      | |- lastPublish ?s = _ =>
          assert (Hview : bridgeView s =
                          republished (bridgeView (set_selectedAccount (Some account) st)))
            by (by autorewrite with bridgeview)
      end.
      unfold bridgeView, republished in Hview. simpl in Hview.
      injection Hview as _ _ _ ->. by rewrite Hsel.
Qed.

Lemma change_event_witness :
  let st' := onWalletChange codeUnitCompare slush (Some []) connectedPage in
  selectedWallet st' = None /\ selectedAccount st' = None /\
  walletEventsUnsubscribe st' = walletEventsUnsubscribe connectedPage /\
  storage st' = None.
Proof.
  destruct (change_event codeUnitCompare slush (Some []) connectedPage)
    as (_ & _ & Hempty & _).
  destruct (Hempty slush) as (Hw & Ha & Hheld & Hstorage & _);
    [vm_compute; reflexivity | vm_compute; reflexivity | reflexivity |].
  cbv zeta. split_and!; [exact Hw | exact Ha | exact Hheld |].
  apply Hstorage. vm_compute. reflexivity.
Defined.

(** ** Disconnect *)

Section Disconnected.
Variable localeCompare : string -> string -> Z.


End Disconnected.


(** ** Auto-reconnect *)

Lemma getConnectableWallets_In (cmp : string -> string -> Z) (w : Wallet) (st : State) :
  In w (getConnectableWallets cmp st) <-> In w (registry st) /\ canConnect w = true.
Proof.
  unfold getConnectableWallets. rewrite <- filter_In, <- !list_elem_of_In.
  by rewrite sortBy_perm.
Qed.

Lemma connectToWallet_resume_unpersisted (cmp : string -> string -> Z) (wallet : Wallet)
    (answer : Settled (option ConnectResult)) (st : State) :
  storage (fst (connectToWallet_resume cmp wallet false answer st)) = storage st.
Proof.
  unfold connectToWallet_resume. destruct answer as [connectResult|e].
  - assert (Htry : storage (fst (connectTry wallet false connectResult st)) = storage st).
    { unfold connectTry. destruct (getPreferredAccount _); [|done].
      match goal with
      | |- context [subscribeToWalletEvents wallet ?s] =>
          pose proof (subscribeToWalletEvents_selection wallet s) as (_ & _ & Hs);
          destruct (subscribeToWalletEvents wallet s) as [s' [e|]]
      end; cbn [fst] in *; [done|].
      destruct (closeWalletPicker_is s') as [d ->]. exact Hs. }
    destruct (connectTry wallet false connectResult st) as [st1 thrown]. cbn [fst] in Htry.
    destruct (connectFinish_selection cmp thrown st1) as (_ & _ & -> & _). exact Htry.
  - by destruct (connectFinish_selection cmp (Some e) st) as (_ & _ & -> & _).
Qed.

(** X12. Auto-reconnect changes the state only by starting a connect
    attempt, and only when a non-empty preference is stored, no wallet is
    selected, no attempt is in flight and a registered, connectable wallet
    has the stored identifier; the attempt is for such a wallet and is not
    to persist the selection.  Neither starting it nor its settlement,
    successful or not, writes the preference. *)
Theorem auto_reconnect (localeCompare : string -> string -> Z) (st : State) :
  let st' := attemptAutoReconnect localeCompare st in
  storage st' = storage st /\ selectedWallet st' = selectedWallet st /\
  selectedAccount st' = selectedAccount st /\
  (forall wallet answer s,
     storage (fst (connectToWallet_resume localeCompare wallet false answer s)) = storage s) /\
  (st' <> st ->
   exists preferred wallet,
     getPreferredWalletId st = Some preferred /\ preferred <> "" /\
     selectedWallet st = None /\ isConnecting st = false /\
     wallet ∈ registry st /\ canConnect wallet = true /\
     getWalletIdentifier (Some wallet) = preferred /\
     st' = fst (connectToWallet localeCompare (Some wallet) false st)).
Proof.
  cbv zeta.
  destruct (attemptAutoReconnect_selection localeCompare st) as (Hw & Ha & Hs & _).
  split_and!; [exact Hs | exact Hw | exact Ha | |].
  - intros wallet answer s. apply connectToWallet_resume_unpersisted.
  - unfold attemptAutoReconnect.
    destruct (getPreferredWalletId st) as [preferred|]; [|done].
    destruct (String.eqb preferred "") eqn:Hempty; [done|].
    destruct (bool_decide (is_Some (selectedWallet st))) eqn:Hselected; [done|].
    destruct (isConnecting st) eqn:Hflag; [done|]. simpl.
    destruct (List.find _ _) as [wallet|] eqn:Hfind; [|done].
    intros _. exists preferred, wallet.
    apply find_some in Hfind as [Hin Hid].
    apply getConnectableWallets_In in Hin as [Hreg Hcan].
    apply String.eqb_eq in Hid. apply String.eqb_neq in Hempty.
    apply bool_decide_eq_false in Hselected.
    split_and!; try done.
    + destruct (selectedWallet st); [|done]. exfalso. apply Hselected. eauto.
    + by apply list_elem_of_In.
Qed.

Lemma auto_reconnect_witness :
  let st := set_storage (Some "Slush") freshPage in
  exists wallet,
    getWalletIdentifier (Some wallet) = "Slush" /\
    attemptAutoReconnect codeUnitCompare st
    = fst (connectToWallet codeUnitCompare (Some wallet) false st).
Proof.
  intros st.
  destruct (auto_reconnect codeUnitCompare st) as (_ & _ & _ & _ & Hstarts).
  destruct Hstarts as (preferred & wallet & Hpreferred & _ & _ & _ & _ & _ & Hid & Hrun).
  - assert (Hflag : isConnecting (attemptAutoReconnect codeUnitCompare st) = true)
      by (vm_compute; reflexivity).
    intros Hsame. rewrite Hsame in Hflag. vm_compute in Hflag. discriminate Hflag.
  - exists wallet. split; [|exact Hrun].
    rewrite Hid. vm_compute in Hpreferred. injection Hpreferred as <-. reflexivity.
Defined.

(** ** Unregister *)

(** X13. When a wallet is unregistered, the selection survives exactly if
    a registered, connectable wallet still has the identifier of the
    selected one: then wallet, account, preference and change subscription
    are kept and nothing is published.  Otherwise the selection is dropped
    together with the preference and the subscription, and the bridge is
    told.  With no wallet selected only the rendering is refreshed. *)
Theorem unregister_event (localeCompare : string -> string -> Z) (st : State) :
  let st' := onUnregister localeCompare st in
  (forall sel,
     selectedWallet st = Some sel ->
     (exists w, w ∈ registry st /\ canConnect w = true /\ sameWallet w sel = true) ->
     selectedWallet st' = Some sel /\ selectedAccount st' = selectedAccount st /\
     storage st' = storage st /\
     walletEventsUnsubscribe st' = walletEventsUnsubscribe st /\
     trace st' = trace st) /\
  (forall sel,
     selectedWallet st = Some sel ->
     (forall w, w ∈ registry st -> canConnect w = true -> sameWallet w sel = false) ->
     selectedWallet st' = None /\ selectedAccount st' = None /\
     walletEventsUnsubscribe st' = None /\
     (storageOk st = true -> storage st' = None) /\
     lastPublish st' = Some (bridgeFor None None (isConnecting st))) /\
  (selectedWallet st = None ->
   selectedWallet st' = None /\ selectedAccount st' = selectedAccount st /\
   storage st' = storage st /\ trace st' = trace st).
Proof.
  cbv zeta. unfold onUnregister. split_and!.
  - intros sel Hsel (w & Hreg & Hcan & Hsame). rewrite Hsel.
    assert (Hstill : existsb (fun wallet => sameWallet wallet sel)
                       (getConnectableWallets localeCompare st) = true).
    { apply existsb_exists. exists w. split; [|done].
      apply getConnectableWallets_In. by rewrite <- list_elem_of_In. }
    rewrite Hstill. simpl. by ui_open.
  - intros sel Hsel Hgone. rewrite Hsel.
    assert (Hnone : existsb (fun wallet => sameWallet wallet sel)
                      (getConnectableWallets localeCompare st) = false).
    { destruct (existsb _ _) eqn:Hex; [|done].
      apply existsb_exists in Hex as (w & Hin & Hsame).
      apply getConnectableWallets_In in Hin as [Hreg Hcan].
      rewrite Hgone in Hsame; [done | by apply list_elem_of_In | done]. }
    rewrite Hnone. simpl. split_and!.
    + by ui_open.
    + by ui_open.
    + by ui_open.
    + intros Hok. by ui_stored Hok.
    + match goal with
      | |- lastPublish ?s = _ =>
          assert (Hview : exists s0, bridgeView s = republished (bridgeView s0)
                                     /\ isConnecting s0 = isConnecting st
                                     /\ selectedWallet s0 = None
                                     /\ selectedAccount s0 = None)
      end.
      { eexists. split; [by autorewrite with bridgeview|]. by ui_open. }
      destruct Hview as (s0 & Hview & Hflag & Hw & Ha).
      unfold bridgeView, republished in Hview. injection Hview as _ _ _ ->.
      by rewrite Hflag, Hw, Ha.
  - intros Hsel. rewrite Hsel. by ui_open.
Qed.

Lemma unregister_event_witness :
  let st' := onUnregister codeUnitCompare (set_registry [suiet] connectedPage) in
  selectedWallet st' = None /\ selectedAccount st' = None /\
  walletEventsUnsubscribe st' = None.
Proof.
  destruct (unregister_event codeUnitCompare (set_registry [suiet] connectedPage))
    as (_ & Hgone & _).
  destruct (Hgone slush) as (Hw & Ha & Hh & _).
  - vm_compute. reflexivity.
  - intros w Hw Hcan. change (w ∈ [suiet]) in Hw.
    apply list_elem_of_singleton in Hw. rewrite Hw. vm_compute. reflexivity.
  - cbv zeta. exact (conj Hw (conj Ha Hh)).
Defined.

(** ** Mount *)

Section Mounting.
Variable localeCompare : string -> string -> Z.

Lemma connectFinish_mountView (thrown : option string) (st : State) :
  mountView (fst (connectFinish localeCompare thrown st)) = mountView st.
Proof. unfold mountView, connectFinish. destruct thrown; by ui_open. Qed.

Lemma connectToWallet_mountView (wallet : option Wallet) (persistSelection : bool)
    (st : State) :
  mountView (fst (connectToWallet localeCompare wallet persistSelection st)) = mountView st.
Proof.
  unfold connectToWallet. destruct wallet as [w|]; [|done].
  destruct (isConnecting st); [done|].
  destruct (w_features w !! "standard:connect") as [[]|];
    rewrite ?connectFinish_mountView; unfold mountView; by ui_open.
Qed.

Lemma attemptAutoReconnect_mountView (st : State) :
  mountView (attemptAutoReconnect localeCompare st) = mountView st.
Proof.
  unfold attemptAutoReconnect.
  destruct (getPreferredWalletId st); [|done].
  destruct (_ || _ || _); [done|].
  destruct (List.find _ _); [|done].
  apply connectToWallet_mountView.
Qed.

Lemma mountWalletConnectButton_cases (target : Target) (st : State) :
  match containerOf target st with
  | None =>
      mountWalletConnectButton localeCompare target st =
      (emit (ConsoleWarn "Wallet connect container not found" None) st, None)
  | Some c =>
      if bool_decide (mountedContainer st = Some c)
      then mountWalletConnectButton localeCompare target st = (st, Some NoopHandle)
      else
        snd (mountWalletConnectButton localeCompare target st) = Some (WidgetHandle c) /\
        mountView (fst (mountWalletConnectButton localeCompare target st))
        = (document st, Some c)
  end.
Proof.
  unfold mountWalletConnectButton, containerOf, attachGlobalHandlers.
  destruct (match target with
            | TargetId i => document st !! i
            | TargetElement c => Some c
            | TargetNull => None
            end) as [c|]; [|done].
  destruct (bool_decide (mountedContainer st = Some c)); [done|]. cbn [fst snd].
  split; [done|]. rewrite attemptAutoReconnect_mountView. unfold mountView. by ui_open.
Qed.

Lemma containerOf_mountView (target : Target) (st st' : State) :
  document st' = document st -> containerOf target st' = containerOf target st.
Proof. unfold containerOf. by intros ->. Qed.

End Mounting.

(** X14. Mounting on a target that names no element only logs a warning
    and returns no handle.  Mounting again on the container that is
    mounted returns a handle that does nothing and leaves the state as it
    is, so handlers are not attached twice.  After the handle of a mount
    has been used to unmount, mounting on the same container goes
    through again and attaches a second set of registry and document
    handlers beside the first. *)
Theorem mount_twice (localeCompare : string -> string -> Z) (target : Target)
    (st : State) :
  (containerOf target st = None ->
   mountWalletConnectButton localeCompare target st =
   (emit (ConsoleWarn "Wallet connect container not found" None) st, None)) /\
  (forall c,
     snd (mountWalletConnectButton localeCompare target st) = Some (WidgetHandle c) ->
     let st1 := fst (mountWalletConnectButton localeCompare target st) in
     mountedContainer st1 = Some c /\
     mountWalletConnectButton localeCompare target st1 = (st1, Some NoopHandle) /\
     let st2 := unmount (WidgetHandle c) st1 in
     snd (mountWalletConnectButton localeCompare target st2) = Some (WidgetHandle c) /\
     listeners (fst (mountWalletConnectButton localeCompare target st2)) =
     (S (S (registerHandlers st)), S (S (unregisterHandlers st)),
      (clickHandlers st ++ [c]) ++ [c], S (S (keydownHandlers st)))).
Proof.
  split.
  - intros Hnone. pose proof (mountWalletConnectButton_cases localeCompare target st) as Hcases.
    by rewrite Hnone in Hcases.
  - intros c Hhandle. cbv zeta.
    pose proof (mountWalletConnectButton_cases localeCompare target st) as Hcases.
    pose proof (mountWalletConnectButton_listeners localeCompare target st c Hhandle)
      as Hlisteners.
    destruct (containerOf target st) as [c'|] eqn:Htarget;
      [|rewrite Hcases in Hhandle; discriminate Hhandle].
    destruct (bool_decide (mountedContainer st = Some c'));
      [rewrite Hcases in Hhandle; discriminate Hhandle|].
    destruct Hcases as [Hc Hview]. rewrite Hhandle in Hc. injection Hc as <-.
    set (st1 := fst (mountWalletConnectButton localeCompare target st)) in *.
    unfold mountView in Hview. injection Hview as Hdoc Hmounted.
    split; [exact Hmounted|]. split.
    + pose proof (mountWalletConnectButton_cases localeCompare target st1) as Hagain.
      rewrite (containerOf_mountView target st st1 Hdoc), Htarget, Hmounted in Hagain.
      by rewrite bool_decide_eq_true_2 in Hagain.
    + destruct (unmount_keeps c st1) as (_ & Hkept & _ & _ & Hforgot).
      set (st2 := unmount (WidgetHandle c) st1) in *.
      assert (Hdoc2 : document st2 = document st).
      { unfold st2, unmount. destruct (cleanupWalletEvents_is st1) as [es [-> _]].
        simpl. by destruct (bool_decide _). }
      pose proof (mountWalletConnectButton_cases localeCompare target st2) as Hthird.
      rewrite (containerOf_mountView target st st2 Hdoc2), Htarget in Hthird.
      rewrite (Hforgot Hmounted) in Hthird.
      rewrite bool_decide_eq_false_2 in Hthird by discriminate.
      destruct Hthird as [Hhandle3 _]. split; [exact Hhandle3|].
      rewrite (mountWalletConnectButton_listeners localeCompare target st2 c Hhandle3).
      unfold listeners in Hkept, Hlisteners. rewrite Hlisteners in Hkept.
      by injection Hkept as -> -> -> ->.
Qed.

Lemma mount_twice_witness :
  mountWalletConnectButton codeUnitCompare (TargetId "wallet-connect") mountedPage
  = (mountedPage, Some NoopHandle).
Proof.
  destruct (mount_twice codeUnitCompare (TargetId "wallet-connect") freshPage)
    as [_ Hagain].
  destruct (Hagain 7) as (_ & Hnoop & _); [vm_compute; reflexivity|].
  exact Hnoop.
Defined.

Section Attempt.
Variable localeCompare : string -> string -> Z.

Lemma flagTracksAttempt_attempt (st st' : State) :
  attempt st' = attempt st -> flagTracksAttempt st -> flagTracksAttempt st'.
Proof. unfold attempt, flagTracksAttempt. by intros [= -> ->]. Qed.

Lemma connectFinish_attempt (thrown : option string) (st : State) :
  attempt (fst (connectFinish localeCompare thrown st)) = (false, pendingConnect st).
Proof. unfold attempt, connectFinish. destruct thrown; by ui_open. Qed.

Lemma connectFinish_flagTracksAttempt (thrown : option string) (st : State) :
  pendingConnect st = None ->
  flagTracksAttempt (fst (connectFinish localeCompare thrown st)).
Proof.
  intros Hnone. pose proof (connectFinish_attempt thrown st) as Ha.
  rewrite Hnone in Ha. unfold flagTracksAttempt.
  rewrite (f_equal fst Ha : isConnecting _ = false).
  rewrite (f_equal snd Ha : pendingConnect _ = None).
  split; [done|]. by intros [? ?].
Qed.

Lemma subscribeToWalletEvents_attempt (wallet : Wallet) (st : State) :
  attempt (fst (subscribeToWalletEvents wallet st)) = attempt st.
Proof.
  unfold attempt, subscribeToWalletEvents.
  destruct (w_features wallet !! "standard:events") as [[]|]; ui_open; done.
Qed.

Lemma connectTry_attempt (wallet : Wallet) (persistSelection : bool)
    (connectResult : option ConnectResult) (st : State) :
  attempt (fst (connectTry wallet persistSelection connectResult st)) = attempt st.
Proof.
  unfold connectTry.
  destruct (getPreferredAccount (returnedAccounts wallet connectResult)); [|done].
  match goal with
  | |- context [subscribeToWalletEvents wallet ?s] =>
      pose proof (subscribeToWalletEvents_attempt wallet s) as Hsub;
      destruct (subscribeToWalletEvents wallet s) as [s' [e|]]
  end; cbn [fst] in *.
  - rewrite Hsub. unfold attempt. destruct persistSelection; ui_open; done.
  - destruct (closeWalletPicker_is s') as [d ->]. unfold attempt in *. simpl.
    rewrite Hsub. destruct persistSelection; ui_open; done.
Qed.

Lemma connectToWallet_resume_attempt (wallet : Wallet) (persistSelection : bool)
    (answer : Settled (option ConnectResult)) (st : State) :
  attempt (fst (connectToWallet_resume localeCompare wallet persistSelection answer st))
  = (false, pendingConnect st).
Proof.
  unfold connectToWallet_resume. destruct answer as [connectResult|e].
  - pose proof (connectTry_attempt wallet persistSelection connectResult st) as Htry.
    destruct (connectTry wallet persistSelection connectResult st) as [s thrown].
    cbn [fst] in *. rewrite connectFinish_attempt. by injection Htry as _ ->.
  - apply connectFinish_attempt.
Qed.

Lemma connectToWallet_flagTracksAttempt (wallet : option Wallet) (persistSelection : bool)
    (st : State) :
  flagTracksAttempt st ->
  flagTracksAttempt (fst (connectToWallet localeCompare wallet persistSelection st)).
Proof.
  intros Hst. unfold connectToWallet. destruct wallet as [w|]; [|done].
  destruct (isConnecting st) eqn:Hflag; [done|].
  assert (Hnone : pendingConnect st = None).
  { destruct (pendingConnect st) eqn:Hp; [|done].
    destruct Hst as [_ Hst]. rewrite Hflag in Hst. by discriminate Hst. }
  destruct (w_features w !! "standard:connect") as [[]|].
  - apply connectFinish_flagTracksAttempt. rewrite <- Hnone. by ui_open.
  - apply connectFinish_flagTracksAttempt. rewrite <- Hnone. by ui_open.
  - unfold flagTracksAttempt. cbn [fst]. split; [by eauto|]. intros _. by ui_open.
  - apply connectFinish_flagTracksAttempt. rewrite <- Hnone. by ui_open.
Qed.

Lemma attemptAutoReconnect_flagTracksAttempt (st : State) :
  flagTracksAttempt st -> flagTracksAttempt (attemptAutoReconnect localeCompare st).
Proof.
  intros Hst. unfold attemptAutoReconnect.
  destruct (getPreferredWalletId st); [|done].
  destruct (_ || _ || _); [done|].
  destruct (List.find _ _); [|done].
  by apply connectToWallet_flagTracksAttempt.
Qed.

Lemma disconnectFinish_attempt (thrown : option string) (st : State) :
  attempt (fst (disconnectFinish localeCompare thrown st)) = attempt st.
Proof. unfold attempt, disconnectFinish. destruct thrown; by ui_open. Qed.

Lemma onUnregister_attempt (st : State) :
  attempt (onUnregister localeCompare st) = attempt st.
Proof.
  unfold attempt, onUnregister. destruct (selectedWallet st); [|by ui_open].
  destruct (negb _); by ui_open.
Qed.

Lemma onWalletChange_attempt (wallet : Wallet) (accounts : option (list Account))
    (st : State) :
  attempt (onWalletChange localeCompare wallet accounts st) = attempt st.
Proof.
  unfold attempt, onWalletChange. destruct (selectedWallet st); [|done].
  destruct (negb _); [done|].
  destruct (getPreferredAccount _); by ui_open.
Qed.

Lemma iter_flagTracksAttempt (f : State -> State) (n : nat) (st : State) :
  (forall s, flagTracksAttempt s -> flagTracksAttempt (f s)) ->
  flagTracksAttempt st -> flagTracksAttempt (Nat.iter n f st).
Proof. intros Hf Hst. induction n as [|n IH]; simpl; [done|]. by apply Hf. Qed.

Lemma foldl_flagTracksAttempt {B : Type} (f : State -> B -> State) (l : list B)
    (st : State) :
  (forall s b, flagTracksAttempt s -> flagTracksAttempt (f s b)) ->
  flagTracksAttempt st -> flagTracksAttempt (foldl f st l).
Proof.
  intros Hf. revert st. induction l as [|b l IH]; intros st Hst; simpl; [done|].
  apply IH. by apply Hf.
Qed.

Lemma step_flagTracksAttempt (ev : Event) (st : State) :
  flagTracksAttempt st -> flagTracksAttempt (step localeCompare ev st).
Proof.
  intros Hst. destruct ev; unfold step.
  - unfold mountWalletConnectButton, attachGlobalHandlers.
    destruct (match target with
              | TargetId i => document st !! i
              | TargetElement c => Some c
              | TargetNull => None
              end) as [c|]; [|done].
    destruct (bool_decide (mountedContainer st = Some c)); [done|]. cbn [fst].
    apply attemptAutoReconnect_flagTracksAttempt.
    apply (flagTracksAttempt_attempt st); [|done]. unfold attempt. by ui_open.
  - apply (flagTracksAttempt_attempt st); [|done]. unfold attempt, unmount.
    destruct h; [done|].
    destruct (cleanupWalletEvents_is st) as [es [-> _]]. simpl.
    by destruct (bool_decide _).
  - by apply connectToWallet_flagTracksAttempt.
  - apply (flagTracksAttempt_attempt st); [|done]. unfold disconnectWallet.
    destruct (selectedWallet st) as [w|]; [|done].
    destruct (w_features w !! "standard:disconnect") as [[]|];
      rewrite ?disconnectFinish_attempt; unfold attempt; by ui_open.
  - destruct (pendingConnect st) as [[wallet persistSelection]|] eqn:Hp; [|done].
    pose proof (connectToWallet_resume_attempt wallet persistSelection answer
                  (set_pendingConnect None st)) as Ha.
    unfold flagTracksAttempt.
    rewrite (f_equal fst Ha : isConnecting _ = false).
    rewrite (f_equal snd Ha : pendingConnect _ = _).
    simpl. split; [done|]. by intros [? ?].
  - apply (flagTracksAttempt_attempt st); [|done].
    destruct (pendingDisconnects st) as [|n]; [done|].
    unfold disconnectWallet_resume.
    destruct answer; rewrite disconnectFinish_attempt; done.
  - destruct (walletEventsUnsubscribe st); [|done].
    apply (flagTracksAttempt_attempt st); [|done]. apply onWalletChange_attempt.
  - apply iter_flagTracksAttempt; [|done]. intros s Hs. unfold onRegister.
    apply attemptAutoReconnect_flagTracksAttempt.
    apply (flagTracksAttempt_attempt s); [|done]. unfold attempt. by ui_open.
  - apply iter_flagTracksAttempt; [|done]. intros s Hs.
    apply (flagTracksAttempt_attempt s); [|done]. apply onUnregister_attempt.
  - apply foldl_flagTracksAttempt; [|done]. intros s c Hs.
    apply (flagTracksAttempt_attempt s); [|done].
    unfold attempt, onDocumentClick. destruct (negb (pickerOpen s)); [done|].
    destruct (negb (inside c)); by ui_open.
  - apply iter_flagTracksAttempt; [|done]. intros s Hs.
    apply (flagTracksAttempt_attempt s); [|done].
    unfold attempt, onDocumentKeydown. destruct (String.eqb key "Escape"); by ui_open.
  - apply (flagTracksAttempt_attempt st); [|done]. unfold attempt, onTriggerClick.
    destruct (selectedAccount st) eqn:Ha; by ui_open.
Qed.

Lemma run_flagTracksAttempt (evs : list Event) (st : State) :
  flagTracksAttempt st -> flagTracksAttempt (run localeCompare evs st).
Proof.
  unfold run. revert st. induction evs as [|ev evs IH]; intros st Hst; simpl; [done|].
  apply IH. by apply step_flagTracksAttempt.
Qed.

End Attempt.

(** X15. The widget is busy exactly while a connect call is awaited.  In
    every state reached from the initial one, the connecting flag is set
    if and only if a call of a wallet's connect capability has not
    settled yet.  So when that call settles, resolved or rejected, the
    flag is cleared whatever else happened in between, and until then
    every click on a wallet of the list leaves the state as it is. *)
Theorem connecting_flag_tracks_attempt (localeCompare : string -> string -> Z)
    (doc : gmap string Container) (wallets : list Wallet) (stored : option string)
    (ok : bool) (evs : list Event) :
  let st := run localeCompare evs (initialState doc wallets stored ok) in
  (isConnecting st = true <-> is_Some (pendingConnect st)) /\
  (forall answer,
     attempt (step localeCompare (ConnectSettles answer) st) = (false, None)) /\
  (forall wallet,
     isConnecting st = true -> step localeCompare (WalletOptionClick wallet) st = st).
Proof.
  intros st.
  assert (Hst : flagTracksAttempt st).
  { apply run_flagTracksAttempt. unfold flagTracksAttempt. simpl.
    split; [done|]. by intros [? ?]. }
  split; [exact Hst|]. split.
  - intros answer. unfold step.
    destruct (pendingConnect st) as [[wallet persistSelection]|] eqn:Hp.
    + by rewrite connectToWallet_resume_attempt.
    + unfold attempt. rewrite Hp. f_equal.
      destruct (isConnecting st) eqn:Hflag; [|done].
      destruct Hst as [Hst _]. destruct (Hst Hflag) as [? ?]. congruence.
  - intros wallet Hflag. unfold step. by rewrite connectToWallet_busy.
Qed.
